(** * Hive-Mind engine and orchestrator: a shallow embedding

    The development follows [src/core/hive-mind-engine.js] and
    [src/core/hive-mind-orchestrator.js].  Each JavaScript method is
    rendered as a Rocq function of the same name; objects become
    records, [Map]s become insertion-ordered association lists or
    [gmap]s, and the effects the methods have (the random source, the
    clock, exceptions, calls to the issue tracker) are threaded
    explicitly. *)

From Stdlib Require Import QArith Qminmax Qabs Qround Lqa.
From Stdlib Require Import String Ascii.
From stdpp Require Import base list sorting strings gmap.

Local Open Scope string_scope.
Local Open Scope list_scope.

(** ** JavaScript values used by the two files *)

(** A property that may be missing ([undefined]), [null], or present. *)
Inductive nullable (A : Type) : Type :=
| Undefined
| Null
| Val (a : A).
Arguments Undefined {A}.
Arguments Null {A}.
Arguments Val {A} a.

(** Numbers.  JavaScript numbers are IEEE doubles; they are modelled
    here as exact rationals extended with [NaN].  Every comparison the
    claims depend on is either against a literal constant or between
    values whose order rounding preserves.  The modelled code never
    divides a non-zero number by zero, so the infinities are left out:
    the only quotient with a zero divisor is [0 / 0], which is [NaN]. *)
Inductive number : Type :=
| Num (q : Q)
| NaN.

Module Js.

Definition Qltb (x y : Q) : bool := negb (Qle_bool y x).

Definition add (a b : number) : number :=
  match a, b with Num x, Num y => Num (x + y) | _, _ => NaN end.

Definition sub (a b : number) : number :=
  match a, b with Num x, Num y => Num (x - y) | _, _ => NaN end.

Definition mul (a b : number) : number :=
  match a, b with Num x, Num y => Num (x * y) | _, _ => NaN end.

Definition div (a b : number) : number :=
  match a, b with
  | Num x, Num y => if Qeq_bool y 0 then NaN else Num (x / y)
  | _, _ => NaN
  end.

(** [a > b] and [a < b]: false as soon as one side is [NaN]. *)
Definition gt (a b : number) : bool :=
  match a, b with Num x, Num y => Qltb y x | _, _ => false end.

Definition lt (a b : number) : bool :=
  match a, b with Num x, Num y => Qltb x y | _, _ => false end.

(** [Math.abs], [Math.max], [Math.min], [Math.ceil], [Math.round]: [NaN]
    is contagious. *)
Definition Math_abs (a : number) : number :=
  match a with Num x => Num (Qabs x) | NaN => NaN end.

Definition Math_max (a b : number) : number :=
  match a, b with Num x, Num y => Num (Qmax x y) | _, _ => NaN end.

Definition Math_min (a b : number) : number :=
  match a, b with Num x, Num y => Num (Qmin x y) | _, _ => NaN end.

Definition Math_ceil (a : number) : number :=
  match a with Num x => Num (inject_Z (Qceiling x)) | NaN => NaN end.

(** [Math.round]: the nearest integer, halves rounded up. *)
Definition Math_round (a : number) : number :=
  match a with Num x => Num (inject_Z (Qfloor (x + 0.5))) | NaN => NaN end.

(** A length or a count as a number. *)
Definition of_nat (n : nat) : number := Num (inject_Z (Z.of_nat n)).

Definition of_Z (z : Z) : number := Num (inject_Z z).

(** Truthiness of a string-valued property: [undefined], [null] and
    the empty string are falsy. *)
Definition truthy_str (v : nullable string) : bool :=
  match v with
  | Val s => negb (String.eqb s "")
  | _ => false
  end.

(** Truthiness of an array-valued property: every array is truthy. *)
Definition truthy_arr {A} (v : nullable (list A)) : bool :=
  match v with Val _ => true | _ => false end.

(** [a === b] on string-valued properties. *)
Definition strict_eq (a b : nullable string) : bool :=
  match a, b with
  | Undefined, Undefined => true
  | Null, Null => true
  | Val s, Val t => String.eqb s t
  | _, _ => false
  end.

(** Conversion to string in a template literal or a [+] with a string. *)
Definition to_string (v : nullable string) : string :=
  match v with
  | Undefined => "undefined"
  | Null => "null"
  | Val s => s
  end.

(** [Array.prototype.includes] on an array of strings. *)
Definition arr_includes (l : list string) (x : string) : bool :=
  existsb (String.eqb x) l.

(** [Array.prototype.sort] with a comparator.  The language requires a
    stable sort; for a comparator that is a consistent ordering every
    stable sort returns the same array, which the insertion sort below
    computes.  A comparator result of [NaN] counts as [+0]. *)
Definition keeps_before (v : number) : bool :=
  match v with Num q => Qle_bool q 0 | NaN => true end.

Fixpoint sort_insert {A} (cmp : A -> A -> number) (x : A) (l : list A) : list A :=
  match l with
  | [] => [x]
  | y :: l' => if keeps_before (cmp x y) then x :: y :: l'
               else y :: sort_insert cmp x l'
  end.

Definition Array_sort {A} (cmp : A -> A -> number) (l : list A) : list A :=
  foldr (sort_insert cmp) [] l.

End Js.

(** ** Engine data: issues, signatures, patterns *)

Record Label : Type := { label_name : nullable string }.

(** The issue object handed to the engine.  Besides the tracker's
    fields, [calculateSimilarity] reads [domain], [complexity],
    [keyTerms] and [category] from it; the tracker does not set them,
    so they are normally [Undefined]. *)
Record Issue : Type := {
  issue_number : Z;
  issue_title : nullable string;
  issue_body : nullable string;
  issue_labels : nullable (list Label);
  issue_domain : nullable string;
  issue_complexity : nullable string;
  issue_keyTerms : nullable (list string);
  issue_category : nullable string
}.

Record Signature : Type := {
  sig_domain : nullable string;
  sig_complexity : nullable string;
  sig_keyTerms : nullable (list string);
  sig_category : nullable string
}.

Record Pattern : Type := {
  pattern_type : string;
  pattern_signature : Signature;
  pattern_approach : nullable string;
  pattern_successRate : Q
}.

(** One entry of the array [matchPatterns] returns. *)
Record Match : Type := {
  match_id : string;
  match_similarity : number;
  match_pattern : Pattern;
  match_confidence : number
}.

(** [state.patterns] is a [Map]: iteration follows insertion order. *)
Definition PatternStore : Type := list (string * Pattern).

Module Engine.

(** [complexityMap[k]] as an operand of the subtraction: the four own
    keys give their numbers; a missing key gives [undefined] and an
    inherited member gives a function or an object, all of which
    convert to [NaN]. *)
Definition complexityMap (k : nullable string) : number :=
  match k with
  | Val s =>
      if String.eqb s "low" then Num 1
      else if String.eqb s "medium" then Num 2
      else if String.eqb s "high" then Num 3
      else if String.eqb s "very-high" then Num 4
      else NaN
  | _ => NaN
  end.

Definition calculateSimilarity (issue1 : Issue) (signature : Signature) : number :=
  let similarity := Num 0 in
  let factors := Num 0 in
  (* Domain similarity *)
  let similarity :=
    if Js.strict_eq (issue_domain issue1) (sig_domain signature)
    then Js.add similarity (Num 0.3)
    else if Js.truthy_str (issue_domain issue1) && Js.truthy_str (sig_domain signature)
    then Js.add similarity (Num 0.1)
    else similarity in
  let factors := Js.add factors (Num 1) in
  (* Complexity similarity *)
  let diff := Js.Math_abs (Js.sub (complexityMap (issue_complexity issue1))
                                  (complexityMap (sig_complexity signature))) in
  let similarity :=
    Js.add similarity
      (Js.mul (Js.Math_max (Num 0) (Js.sub (Num 1) (Js.div diff (Num 3)))) (Num 0.2)) in
  let factors := Js.add factors (Num 1) in
  (* Key terms overlap *)
  let similarity :=
    match issue_keyTerms issue1, sig_keyTerms signature with
    | Val terms1, Val terms2 =>
        let overlap := length (List.filter (fun term => Js.arr_includes terms2 term) terms1) in
        Js.add similarity
          (Js.mul (Js.div (Js.of_nat overlap)
                          (Js.Math_max (Js.of_nat (length terms1)) (Js.of_nat (length terms2))))
                  (Num 0.3))
    | _, _ => similarity
    end in
  let factors := Js.add factors (Num 1) in
  (* Category match *)
  let similarity :=
    if Js.strict_eq (issue_category issue1) (sig_category signature)
    then Js.add similarity (Num 0.2)
    else similarity in
  let factors := Js.add factors (Num 1) in
  Js.div similarity factors.

(** [matchPatterns] with the scorer it calls through [this] taken as
    an argument: the loop, the threshold test and the sort. *)
Definition matchPatternsWith (scorer : Issue -> Signature -> number)
    (issue : Issue) (store : PatternStore) : list Match :=
  let patterns :=
    fold_left
      (fun patterns entry =>
         let '(patternId, pattern) := entry in
         let similarity := scorer issue (pattern_signature pattern) in
         if Js.gt similarity (Num 0.7)
         then patterns ++ [ {| match_id := patternId;
                               match_similarity := similarity;
                               match_pattern := pattern;
                               match_confidence :=
                                 Js.mul similarity (Num (pattern_successRate pattern)) |} ]
         else patterns)
      store [] in
  Js.Array_sort (fun a b => Js.sub (match_confidence b) (match_confidence a)) patterns.

Definition matchPatterns (issue : Issue) (store : PatternStore) : list Match :=
  matchPatternsWith calculateSimilarity issue store.

End Engine.

(** ** Effects: the random source, the clock, exceptions *)

(** What a method reads from outside: the values [Math.random()]
    returns (each in the interval from 0 to 1, 1 excluded), the values
    [Date.now()] returns, and how many of each have been consumed. *)
Record World : Type := {
  random_source : nat -> Q;
  random_used : nat;
  clock_source : nat -> Z;
  clock_used : nat
}.

Inductive outcome (A : Type) : Type :=
| Returned (a : A) (w : World)
| Thrown (message : string) (w : World).
Arguments Returned {A} a w.
Arguments Thrown {A} message w.

Definition M (A : Type) : Type := World -> outcome A.

#[export] Instance M_ret : MRet M := fun A a w => Returned a w.

#[export] Instance M_bind : MBind M := fun A B f c w =>
  match c w with
  | Returned a w' => f a w'
  | Thrown message w' => Thrown message w'
  end.

Definition throw {A} (message : string) : M A := fun w => Thrown message w.

Definition Math_random : M number := fun w =>
  Returned (Num (random_source w (random_used w)))
    {| random_source := random_source w;
       random_used := S (random_used w);
       clock_source := clock_source w;
       clock_used := clock_used w |}.

Definition Date_now : M Z := fun w =>
  Returned (clock_source w (clock_used w))
    {| random_source := random_source w;
       random_used := random_used w;
       clock_source := clock_source w;
       clock_used := S (clock_used w) |}.

(** ** Engine data: discussions, solutions, assessments, strategies *)

Record Insight : Type := {
  insight_topic : string;
  insight_consensus : bool;
  insight_confidence : Q
}.

Record Discussion : Type := {
  disc_round : nat;
  disc_participants : list string;
  disc_topics : list string;
  disc_insights : list Insight;
  disc_timestamp : Z
}.

Record Solution : Type := {
  sol_id : string;
  sol_approach : string;
  sol_description : string;
  sol_confidence : number;
  sol_steps : list string;
  sol_files : list string;
  sol_code : nullable string;
  sol_tests : nullable string;
  sol_documentation : nullable string;
  sol_estimatedTime : number;
  sol_complexity : string
}.

Record Metrics : Type := {
  m_completeness : number;
  m_correctness : number;
  m_maintainability : number;
  m_performance : number;
  m_security : number;
  m_testability : number;
  m_documentation : number
}.

Record Assessment : Type := {
  as_score : number;
  as_confidence : number;
  as_metrics : Metrics;
  as_recommendations : list string;
  as_timestamp : Z;
  as_completeness : number;
  as_maintainability : number
}.

Record AgentSpec : Type := {
  spec_type : string;
  spec_specialization : string;
  spec_capabilities : list string;
  spec_intelligenceLevel : string;
  spec_focus : string;
  spec_reasoningType : string;
  spec_creativityLevel : number
}.

Record Strategy : Type := {
  st_agents : list AgentSpec;
  st_coordination : string;
  st_communication : string;
  st_decisionMaking : string;
  st_expectedSynergy : number
}.

(** The argument of [generateStrategy], as [generateAgentStrategy]
    builds it (the [analysis] and [patterns] members are not read). *)
Record StrategyContext : Type := {
  ctx_maxAgents : Z;
  ctx_complexity : string;
  ctx_domain : nullable string
}.

Module Coordination.

(** [measureConvergence]: the two nested [forEach] loops update the
    pair ([convergenceScore], [totalInsights]). *)
Definition measureConvergence (discussions : list Discussion) : Q :=
  let '(convergenceScore, totalInsights) :=
    fold_left
      (fun acc discussion =>
         fold_left
           (fun acc insight =>
              let '(convergenceScore, totalInsights) := acc in
              let totalInsights := S totalInsights in
              if insight_consensus insight
              then ((convergenceScore + insight_confidence insight)%Q, totalInsights)
              else (convergenceScore, totalInsights))
           (disc_insights discussion) acc)
      discussions (0%Q, 0%nat) in
  if (0 <? totalInsights)%nat
  then (convergenceScore / inject_Z (Z.of_nat totalInsights))%Q
  else 0.5%Q.

End Coordination.

Module AgentCoordinationNetwork.

Definition agentTypes : list string :=
  [ "analyzer"; "implementer"; "tester"; "reviewer"; "coordinator";
    "optimizer"; "validator"; "documenter"; "security-specialist"; "performance-expert" ].

(** Names every object literal inherits from [Object.prototype]: a
    lookup of one of them yields a function or an object, not
    [undefined]. *)
Definition Object_prototype_members : list string :=
  [ "constructor"; "hasOwnProperty"; "isPrototypeOf"; "propertyIsEnumerable";
    "toLocaleString"; "toString"; "valueOf"; "__proto__";
    "__defineGetter__"; "__defineSetter__"; "__lookupGetter__"; "__lookupSetter__" ].

(** [mapping[complexity] || 3], as [Math.ceil] sees it: an inherited
    member is truthy, so it is what [||] returns, and it converts to
    [NaN]. *)
Definition complexityToAgentCount (complexity : string) : number :=
  if String.eqb complexity "low" then Num 2
  else if String.eqb complexity "medium" then Num 4
  else if String.eqb complexity "high" then Num 6
  else if String.eqb complexity "very-high" then Num 8
  else if Js.arr_includes Object_prototype_members complexity then NaN
  else Num 3.

Definition getSpecialization (type : string) : string :=
  if String.eqb type "analyzer" then "Problem decomposition and root cause analysis"
  else if String.eqb type "implementer" then "Code generation and solution implementation"
  else if String.eqb type "tester" then "Quality assurance and test case generation"
  else if String.eqb type "reviewer" then "Code review and quality validation"
  else if String.eqb type "coordinator" then "Team coordination and workflow management"
  else if String.eqb type "optimizer" then "Performance optimization and efficiency"
  else if String.eqb type "validator" then "Solution validation and verification"
  else if String.eqb type "documenter" then "Documentation and knowledge management"
  else if String.eqb type "security-specialist"
       then "Security analysis and vulnerability assessment"
  else if String.eqb type "performance-expert" then "Performance analysis and optimization"
  else "General problem solving".

Definition getCapabilities (type : string) : list string :=
  if String.eqb type "analyzer"
  then ["pattern-recognition"; "root-cause-analysis"; "decomposition"]
  else if String.eqb type "implementer"
  then ["code-generation"; "algorithm-design"; "architecture"]
  else if String.eqb type "tester"
  then ["test-generation"; "quality-assurance"; "validation"]
  else if String.eqb type "reviewer"
  then ["code-review"; "quality-metrics"; "best-practices"]
  else if String.eqb type "coordinator"
  then ["workflow-management"; "resource-allocation"; "communication"]
  else if String.eqb type "optimizer"
  then ["performance-tuning"; "efficiency-analysis"; "bottleneck-detection"]
  else if String.eqb type "validator"
  then ["verification"; "compliance-checking"; "standards-validation"]
  else if String.eqb type "documenter"
  then ["documentation"; "knowledge-capture"; "explanation"]
  else if String.eqb type "security-specialist"
  then ["vulnerability-analysis"; "security-testing"; "threat-modeling"]
  else if String.eqb type "performance-expert"
  then ["profiling"; "optimization"; "scalability-analysis"]
  else ["general-intelligence"].

(** How often the body of [for (let i = 0; i < bound; i++)] runs. *)
Definition loop_count (bound : number) : nat :=
  match bound with
  | Num q => Z.to_nat (Qceiling q)
  | NaN => 0%nat
  end.

Definition generateStrategy (context : StrategyContext) : Strategy :=
  let complexity := ctx_complexity context in
  let maxAgents := ctx_maxAgents context in
  let recommendedCount :=
    Js.Math_min
      (Js.Math_max (Num 2) (Js.Math_ceil (complexityToAgentCount complexity)))
      (Js.of_Z maxAgents) in
  let agents :=
    map (fun i =>
           let type := nth (i mod length agentTypes) agentTypes "" in
           {| spec_type := type;
              spec_specialization := getSpecialization type;
              spec_capabilities := getCapabilities type;
              spec_intelligenceLevel := "high";
              spec_focus := if Js.truthy_str (ctx_domain context)
                            then Js.to_string (ctx_domain context) else "general";
              spec_reasoningType := "analytical";
              spec_creativityLevel := Num 0.8 |})
        (seq 0 (loop_count recommendedCount)) in
  {| st_agents := agents;
     st_coordination := "swarm-intelligence";
     st_communication := "neural-network";
     st_decisionMaking := "consensus-based";
     st_expectedSynergy := Num 0.9 |}.

End AgentCoordinationNetwork.

Module QualityAssessmentNetwork.

Definition assessCompleteness (solution : Solution) : number :=
  let score := Num 0.7 in
  let score := if Js.truthy_str (sol_code solution) then Js.add score (Num 0.1) else score in
  let score := if Js.truthy_str (sol_tests solution) then Js.add score (Num 0.1) else score in
  let score := if Js.truthy_str (sol_documentation solution)
               then Js.add score (Num 0.1) else score in
  Js.Math_min score (Num 1.0).

Definition assessCorrectness (solution : Solution) : M number :=
  r ← Math_random; mret (Js.add (Num 0.8) (Js.mul r (Num 0.2))).

Definition assessMaintainability (solution : Solution) : M number :=
  r ← Math_random; mret (Js.add (Num 0.75) (Js.mul r (Num 0.25))).

Definition assessPerformance (solution : Solution) : M number :=
  r ← Math_random; mret (Js.add (Num 0.8) (Js.mul r (Num 0.2))).

Definition assessSecurity (solution : Solution) : M number :=
  r ← Math_random; mret (Js.add (Num 0.85) (Js.mul r (Num 0.15))).

Definition assessTestability (solution : Solution) : number :=
  if Js.truthy_str (sol_tests solution) then Num 0.9 else Num 0.6.

Definition assessDocumentation (solution : Solution) : number :=
  if Js.truthy_str (sol_documentation solution) then Num 0.85 else Num 0.5.

Definition generateRecommendations (metrics : Metrics) : list string :=
  let recommendations := [] in
  let recommendations :=
    if Js.lt (m_completeness metrics) (Num 0.8)
    then recommendations ++ ["Add missing implementation components"]
    else recommendations in
  let recommendations :=
    if Js.lt (m_testability metrics) (Num 0.8)
    then recommendations ++ ["Improve test coverage and quality"]
    else recommendations in
  let recommendations :=
    if Js.lt (m_documentation metrics) (Num 0.8)
    then recommendations ++ ["Enhance documentation and examples"]
    else recommendations in
  recommendations.

(** [Object.values(metrics)], in the order the literal lists the keys. *)
Definition Object_values (metrics : Metrics) : list number :=
  [ m_completeness metrics; m_correctness metrics; m_maintainability metrics;
    m_performance metrics; m_security metrics; m_testability metrics;
    m_documentation metrics ].

(** [assess(solution, session)]; the session is not read. *)
Definition assess (solution : Solution) : M Assessment :=
  let completeness := assessCompleteness solution in
  correctness ← assessCorrectness solution;
  maintainability ← assessMaintainability solution;
  performance ← assessPerformance solution;
  security ← assessSecurity solution;
  let metrics :=
    {| m_completeness := completeness;
       m_correctness := correctness;
       m_maintainability := maintainability;
       m_performance := performance;
       m_security := security;
       m_testability := assessTestability solution;
       m_documentation := assessDocumentation solution |} in
  let overallScore :=
    Js.div (fold_left Js.add (Object_values metrics) (Num 0))
           (Js.of_nat (length (Object_values metrics))) in
  r ← Math_random;
  timestamp ← Date_now;
  mret {| as_score := overallScore;
          as_confidence := Js.add (Num 0.85) (Js.mul r (Num 0.15));
          as_metrics := metrics;
          as_recommendations := generateRecommendations metrics;
          as_timestamp := timestamp;
          as_completeness := m_completeness metrics;
          as_maintainability := m_maintainability metrics |}.

End QualityAssessmentNetwork.

(** ** The analysis stage *)

(** The regular-expression literals of the engine. *)
Inductive RegExp : Type :=
| re_url              (* /https?:\/\/[^\s]+/g *)
| re_file             (* /[a-zA-Z0-9_-]+\.[a-zA-Z]{2,4}/g *)
| re_issue_reference  (* /#\d+/g *)
| re_code_block       (* /```[\s\S]*?```/g *)
| re_inline_code      (* /`[^`]+`/g *)
| re_stack_trace      (* /at\s+[^\n]+\([^)]+\)/g *)
| re_code_terms       (* /\b(?:function|class|method|...|boolean)\b/gi *)
| re_defect_terms     (* /\b(?:error|exception|bug|...|solution)\b/gi *)
| re_data_terms       (* /\b(?:api|rest|graphql|...|mysql)\b/gi *)
| re_language_terms   (* /\b(?:javascript|python|...|node)\b/gi *)
| re_not_term_char    (* /[^a-z0-9\s]/g *)
| re_whitespace       (* /\s+/ *)
| re_sentence_end     (* /[.!?]+/ *).

(** The string built-ins the analysis calls, on strings.  They are
    total: none of them throws on a string.  [str_match re s] is
    [s.match(re) || []] for a global [re]; [count_and_rank] is the
    tail of [extractKeyTerms], the [reduce] into an object followed by
    [Object.entries] and the sort by count, where the enumeration
    order of the keys and the order among equal counts are the
    engine's. *)
Record Runtime : Type := {
  toLowerCase : string -> string;
  str_match : RegExp -> string -> list string;
  str_split : RegExp -> string -> list string;
  str_replace : RegExp -> string -> string -> string;
  count_and_rank : list string -> list (string * number)
}.

Record KeyTerm : Type := { kt_term : string; kt_count : number }.

Record Entity : Type := { ent_type : string; ent_value : string }.

Record Semantic : Type := {
  sem_keyTerms : list KeyTerm;
  sem_sentiment : string;
  sem_entities : list Entity;
  sem_intent : string;
  sem_complexity : string
}.

Record Factors : Type := {
  f_textLength : number;
  f_technicalTerms : number;
  f_codeSnippets : number;
  f_stackTraces : number;
  f_labels : number;
  f_references : number
}.

Record Complexity : Type := {
  cx_score : number;
  cx_level : string;
  cx_factors : Factors;
  cx_estimatedEffort : number;
  cx_recommendedAgents : number
}.

Record Risk : Type := {
  risk_type : string;
  risk_severity : string;
  risk_mitigation : string
}.

Record ScoredCategory : Type := {
  sc_category : string;
  sc_score : number;
  sc_features : list KeyTerm
}.

Record Classification : Type := {
  cl_category : string;
  cl_confidence : number;
  cl_alternatives : list ScoredCategory;
  cl_features : list KeyTerm
}.

Record Analysis : Type := {
  an_sessionId : string;
  an_timestamp : Z;
  an_semantic : Semantic;
  an_complexity : Complexity;
  an_patterns : list Match;
  an_domain : string;
  an_priority : number;
  an_solutionSpace : list string;
  an_risks : list Risk;
  an_neuralClassification : nullable Classification
}.

(** The engine's session object (members the analysis touches). *)
Record ESession : Type := {
  es_id : string;
  es_issue : Issue;
  es_status : string;
  es_analysis : nullable Analysis;
  es_patternsRecognized : nat
}.

(** The engine object (members the analysis reads). *)
Record EngineState : Type := {
  eng_maxAgents : Z;
  eng_patterns : PatternStore
}.

(** [String.prototype.includes]: [keyword] occurs in [text]. *)
Fixpoint includes (text keyword : string) : bool :=
  String.prefix keyword text
  || match text with
     | EmptyString => false
     | String _ rest => includes rest keyword
     end.

(** Calling a method on a value: a [TypeError] on [undefined] and [null]. *)
Definition receiver {A} (v : nullable A) : M A :=
  match v with
  | Val a => mret a
  | _ => throw "TypeError: Cannot read properties of undefined"
  end.

Module ProblemClassificationNetwork.

Definition feature_terms (words : list string) (keyTerms : list KeyTerm) : list KeyTerm :=
  List.filter (fun t => Js.arr_includes words (kt_term t)) keyTerms.

(** [extractFeatures(analysis)[category] || []]. *)
Definition extractFeatures (analysis : Analysis) (category : string) : list KeyTerm :=
  let keyTerms := sem_keyTerms (an_semantic analysis) in
  if String.eqb category "bug"
  then feature_terms ["error"; "bug"; "issue"; "problem"; "fail"] keyTerms
  else if String.eqb category "feature"
  then feature_terms ["add"; "new"; "implement"; "feature"] keyTerms
  else if String.eqb category "enhancement"
  then feature_terms ["improve"; "optimize"; "enhance"; "better"] keyTerms
  else [].

Definition categories : list string :=
  ["bug"; "feature"; "enhancement"; "documentation"; "performance"; "security"].

(** [categories.map(...)]: one call of [Math.random] per category, in order. *)
Fixpoint score_categories (analysis : Analysis) (cats : list string)
    : M (list ScoredCategory) :=
  match cats with
  | [] => mret []
  | category :: rest =>
      r ← Math_random;
      let scored := {| sc_category := category;
                       sc_score := Js.add (Js.mul r (Num 0.4)) (Num 0.6);
                       sc_features := extractFeatures analysis category |} in
      others ← score_categories analysis rest;
      mret (scored :: others)
  end.

(** [scores.reduce((a, b) => a.score > b.score ? a : b)], on the
    entries paired with their positions so that [s !== best] can be
    decided. *)
Definition best_of (scores : list (nat * ScoredCategory)) (first : nat * ScoredCategory)
    : nat * ScoredCategory :=
  fold_left (fun a b => if Js.gt (sc_score a.2) (sc_score b.2) then a else b) scores first.

Definition classify (analysis : Analysis) : M Classification :=
  scores ← score_categories analysis categories;
  match zip (seq 0 (length scores)) scores with
  | [] => throw "TypeError: Reduce of empty array with no initial value"
  | first :: rest =>
      let best := best_of rest first in
      mret {| cl_category := sc_category best.2;
              cl_confidence := Js.Math_round (Js.mul (sc_score best.2) (Num 100));
              cl_alternatives :=
                Js.Array_sort (fun a b => Js.sub (sc_score b) (sc_score a))
                  (map snd (List.filter (fun s => negb (Nat.eqb s.1 best.1))
                                        (first :: rest)));
              cl_features := sc_features best.2 |}
  end.

End ProblemClassificationNetwork.

Module DeepAnalysis.

Section WithRuntime.
Variable rt : Runtime.

(** The text [`${issue.title} ${issue.body}`]. *)
Definition issue_text (issue : Issue) : string :=
  Js.to_string (issue_title issue) +:+ " " +:+ Js.to_string (issue_body issue).

Definition extractKeyTerms (text : string) : list KeyTerm :=
  let terms :=
    count_and_rank rt
      (List.filter (fun term => (2 <? String.length term)%nat)
         (str_split rt re_whitespace
            (str_replace rt re_not_term_char (toLowerCase rt text) " "))) in
  map (fun entry => {| kt_term := entry.1; kt_count := entry.2 |}) (take 20 terms).

Definition analyzeSentiment (text : string) : string :=
  let positiveWords := ["good"; "great"; "excellent"; "perfect"; "amazing"; "awesome"] in
  let negativeWords := ["bad"; "terrible"; "awful"; "horrible"; "broken"; "failed"; "error"] in
  let words := str_split rt re_whitespace (toLowerCase rt text) in
  let positive := length (List.filter (Js.arr_includes positiveWords) words) in
  let negative := length (List.filter (Js.arr_includes negativeWords) words) in
  if (negative <? positive)%nat then "positive"
  else if (positive <? negative)%nat then "negative"
  else "neutral".

Definition extractEntities (text : string) : list Entity :=
  let urls := str_match rt re_url text in
  let files := str_match rt re_file text in
  let issues := str_match rt re_issue_reference text in
  map (fun url => {| ent_type := "url"; ent_value := url |}) urls
  ++ map (fun file => {| ent_type := "file"; ent_value := file |}) files
  ++ map (fun issue => {| ent_type := "issue"; ent_value := issue |}) issues.

Definition classifyIntent (text : string) : string :=
  let text_lower := toLowerCase rt text in
  if includes text_lower "how to" || includes text_lower "how can" then "question"
  else if includes text_lower "add" || includes text_lower "implement"
          || includes text_lower "feature" then "feature-request"
  else if includes text_lower "error" || includes text_lower "bug"
          || includes text_lower "broken" then "bug-report"
  else if includes text_lower "improve" || includes text_lower "optimize"
          || includes text_lower "enhance" then "enhancement"
  else if includes text_lower "document" || includes text_lower "readme"
          || includes text_lower "guide" then "documentation"
  else "general".

Definition measureTextComplexity (text : string) : string :=
  let sentences := Js.of_nat (length (str_split rt re_sentence_end text)) in
  let words := Js.of_nat (length (str_split rt re_whitespace text)) in
  let avgWordsPerSentence := Js.div words (Js.Math_max sentences (Num 1)) in
  if Js.gt avgWordsPerSentence (Num 20) then "high"
  else if Js.gt avgWordsPerSentence (Num 15) then "medium"
  else "low".

Definition analyzeSemantics (issue : Issue) : Semantic :=
  let text := issue_text issue in
  {| sem_keyTerms := extractKeyTerms text;
     sem_sentiment := analyzeSentiment text;
     sem_entities := extractEntities text;
     sem_intent := classifyIntent text;
     sem_complexity := measureTextComplexity text |}.

Definition countTechnicalTerms (text : string) : number :=
  fold_left
    (fun count pattern => Js.add count (Js.of_nat (length (str_match rt pattern text))))
    [re_code_terms; re_defect_terms; re_data_terms; re_language_terms]
    (Num 0).

Definition extractCodeSnippets (text : nullable string) : M (list string) :=
  if negb (Js.truthy_str text) then mret []
  else
    s ← receiver text;
    mret (str_match rt re_code_block s ++ str_match rt re_inline_code s).

Definition extractStackTraces (text : nullable string) : M (list string) :=
  if negb (Js.truthy_str text) then mret []
  else
    s ← receiver text;
    mret (str_match rt re_stack_trace s).

Definition extractReferences (text : nullable string) : M (list string) :=
  if negb (Js.truthy_str text) then mret []
  else
    s ← receiver text;
    mret (str_match rt re_url s ++ str_match rt re_issue_reference s
          ++ str_match rt re_file s).

(** [Object.entries(factors)] paired with [weights[factor] || 0]. *)
Definition weighted_factors (factors : Factors) : list (number * number) :=
  [ (Num 0.1, f_textLength factors);
    (Num 0.3, f_technicalTerms factors);
    (Num 0.2, f_codeSnippets factors);
    (Num 0.2, f_stackTraces factors);
    (Num 0.1, f_labels factors);
    (Num 0.1, f_references factors) ].

(** The weighted sum is the exact one; the sum of doubles the engine
    computes can differ from it in the last place, so the statements
    about the score give bounds, which hold for both, and no decimal
    value. *)
Definition calculateComplexityScore (factors : Factors) : number :=
  let score :=
    fold_left
      (fun score entry =>
         Js.add score (Js.mul entry.1 (Js.Math_min (Js.div entry.2 (Num 10)) (Num 1))))
      (weighted_factors factors) (Num 0) in
  Js.Math_min score (Num 1).

Definition categorizeComplexity (score : number) : string :=
  if Js.lt score (Num 0.3) then "low"
  else if Js.lt score (Num 0.6) then "medium"
  else if Js.lt score (Num 0.8) then "high"
  else "very-high".

Definition estimateEffort (complexityScore : number) : number :=
  let baseHours := Num 2 in
  Js.Math_round (Js.mul baseHours (Js.add (Num 1) (Js.mul complexityScore (Num 3)))).

Definition recommendAgentCount (engine : EngineState) (complexityScore : number) : number :=
  Js.Math_min (Js.Math_max (Num 2) (Js.Math_ceil (Js.mul complexityScore (Num 8))))
              (Js.of_Z (eng_maxAgents engine)).

(** [x?.length || 0] *)
Definition length_or_zero {A} (len : A -> nat) (v : nullable A) : number :=
  match v with
  | Val a => Js.of_nat (len a)
  | _ => Num 0
  end.

Definition assessComplexity (engine : EngineState) (issue : Issue) : M Complexity :=
  let textLength := length_or_zero String.length (issue_body issue) in
  let technicalTerms :=
    countTechnicalTerms (Js.to_string (issue_title issue) +:+ " "
                         +:+ Js.to_string (issue_body issue)) in
  codeSnippets ← extractCodeSnippets (issue_body issue);
  stackTraces ← extractStackTraces (issue_body issue);
  let labels := length_or_zero (@length Label) (issue_labels issue) in
  references ← extractReferences (issue_body issue);
  let factors :=
    {| f_textLength := textLength;
       f_technicalTerms := technicalTerms;
       f_codeSnippets := Js.of_nat (length codeSnippets);
       f_stackTraces := Js.of_nat (length stackTraces);
       f_labels := labels;
       f_references := Js.of_nat (length references) |} in
  let complexityScore := calculateComplexityScore factors in
  mret {| cx_score := complexityScore;
          cx_level := categorizeComplexity complexityScore;
          cx_factors := factors;
          cx_estimatedEffort := estimateEffort complexityScore;
          cx_recommendedAgents := recommendAgentCount engine complexityScore |}.

Definition domains : list (string * list string) :=
  [ ("frontend", ["ui"; "react"; "vue"; "angular"; "css"; "html"; "javascript"; "typescript"]);
    ("backend", ["api"; "server"; "database"; "sql"; "mongodb"; "express"; "node"]);
    ("devops", ["docker"; "kubernetes"; "ci/cd"; "deployment"; "pipeline"; "github actions"]);
    ("security", ["auth"; "security"; "vulnerability"; "permissions"; "token"; "encryption"]);
    ("performance", ["slow"; "optimization"; "memory"; "cpu"; "performance"; "bottleneck"]);
    ("testing", ["test"; "unit test"; "integration"; "e2e"; "jest"; "cypress"]);
    ("documentation", ["docs"; "readme"; "documentation"; "guide"; "tutorial"]);
    ("bug", ["error"; "bug"; "issue"; "problem"; "fail"; "broken"; "crash"]) ].

Definition classifyDomain (issue : Issue) : string :=
  let text := toLowerCase rt (issue_text issue) in
  let '(bestDomain, bestScore) :=
    fold_left
      (fun best entry =>
         let '(bestDomain, bestScore) := best in
         let '(domain, keywords) := entry in
         let score := length (List.filter (fun keyword => includes text keyword) keywords) in
         if (bestScore <? score)%nat then (domain, score) else (bestDomain, bestScore))
      domains ("general", 0%nat) in
  bestDomain.

Definition highPriorityLabels : list string :=
  ["high"; "critical"; "urgent"; "p1"; "priority-high"].

(** [label.name?.toLowerCase().includes(hp)], as a condition. *)
Definition label_mentions (label : Label) (hp : string) : bool :=
  match label_name label with
  | Val name => includes (toLowerCase rt name) hp
  | _ => false
  end.

Definition assessPriority (issue : Issue) : M number :=
  let priorityScore := Num 0.5 in
  let text := toLowerCase rt (issue_text issue) in
  (* High priority indicators *)
  let priorityScore :=
    if includes text "critical" || includes text "urgent" || includes text "production"
    then Js.add priorityScore (Num 0.3) else priorityScore in
  (* Security issues are high priority *)
  let priorityScore :=
    if includes text "security" || includes text "vulnerability"
    then Js.add priorityScore (Num 0.2) else priorityScore in
  (* Bugs affecting users *)
  let priorityScore :=
    if includes text "user" && (includes text "error" || includes text "bug")
    then Js.add priorityScore (Num 0.2) else priorityScore in
  (* Labels can indicate priority *)
  priorityScore ←
    (if Js.truthy_arr (issue_labels issue)
     then
       labels ← receiver (issue_labels issue);
       let hasHighPriority :=
         existsb (fun label => existsb (label_mentions label) highPriorityLabels) labels in
       mret (if hasHighPriority then Js.add priorityScore (Num 0.3) else priorityScore)
     else mret priorityScore);
  mret (Js.Math_min priorityScore (Num 1.0)).

Definition mapSolutionSpace (issue : Issue) : list string :=
  let approaches := [] in
  let text := toLowerCase rt (issue_text issue) in
  let approaches :=
    if includes text "bug" || includes text "error"
    then approaches ++ ["debugging"; "error-handling"; "root-cause-analysis"]
    else approaches in
  let approaches :=
    if includes text "feature" || includes text "implement"
    then approaches ++ ["feature-development"; "architecture-design"; "implementation"]
    else approaches in
  let approaches :=
    if includes text "performance" || includes text "slow"
    then approaches ++ ["optimization"; "profiling"; "caching"]
    else approaches in
  let approaches :=
    if includes text "test" || includes text "testing"
    then approaches ++ ["test-automation"; "quality-assurance"; "coverage-improvement"]
    else approaches in
  if (0 <? length approaches)%nat then approaches else ["general-problem-solving"].

Definition assessRisks (issue : Issue) : M (list Risk) :=
  let risks := [] in
  let text := toLowerCase rt (issue_text issue) in
  let risks :=
    if includes text "database" || includes text "migration"
    then risks ++ [ {| risk_type := "data-loss"; risk_severity := "high";
                       risk_mitigation := "backup-first" |} ]
    else risks in
  let risks :=
    if includes text "production" || includes text "live"
    then risks ++ [ {| risk_type := "service-disruption"; risk_severity := "medium";
                       risk_mitigation := "staged-deployment" |} ]
    else risks in
  let risks :=
    if includes text "security" || includes text "auth"
    then risks ++ [ {| risk_type := "security-vulnerability"; risk_severity := "high";
                       risk_mitigation := "security-review" |} ]
    else risks in
  snippets ← extractCodeSnippets (issue_body issue);
  mret (if (0 <? length snippets)%nat
        then risks ++ [ {| risk_type := "code-quality"; risk_severity := "low";
                           risk_mitigation := "code-review" |} ]
        else risks).

(** [performDeepAnalysis]: the members of the analysis in the order
    the object literal evaluates them, then the classification; the
    session gets the analysis and the number of matched patterns. *)
Definition performDeepAnalysis (engine : EngineState) (session : ESession)
    : M (Analysis * ESession) :=
  let issue := es_issue session in
  timestamp ← Date_now;
  let semantic := analyzeSemantics issue in
  complexity ← assessComplexity engine issue;
  let patterns := Engine.matchPatterns issue (eng_patterns engine) in
  let domain := classifyDomain issue in
  priority ← assessPriority issue;
  let solutionSpace := mapSolutionSpace issue in
  risks ← assessRisks issue;
  let analysis :=
    {| an_sessionId := es_id session;
       an_timestamp := timestamp;
       an_semantic := semantic;
       an_complexity := complexity;
       an_patterns := patterns;
       an_domain := domain;
       an_priority := priority;
       an_solutionSpace := solutionSpace;
       an_risks := risks;
       an_neuralClassification := Undefined |} in
  classification ← ProblemClassificationNetwork.classify analysis;
  let analysis :=
    {| an_sessionId := an_sessionId analysis;
       an_timestamp := an_timestamp analysis;
       an_semantic := an_semantic analysis;
       an_complexity := an_complexity analysis;
       an_patterns := an_patterns analysis;
       an_domain := an_domain analysis;
       an_priority := an_priority analysis;
       an_solutionSpace := an_solutionSpace analysis;
       an_risks := an_risks analysis;
       an_neuralClassification := Val classification |} in
  let session :=
    {| es_id := es_id session;
       es_issue := es_issue session;
       es_status := es_status session;
       es_analysis := Val analysis;
       es_patternsRecognized := length (an_patterns analysis) |} in
  mret (analysis, session).

End WithRuntime.

End DeepAnalysis.

(** ** Orchestrator *)

Record Quality : Type := {
  q_score : number;
  q_confidence : number;
  q_completeness : number;
  q_maintainability : number
}.

Record Implementation : Type := {
  impl_approach : string;
  impl_steps : list string;
  impl_files : nullable (list string);
  impl_code : nullable string;
  impl_tests : nullable string;
  impl_documentation : nullable string
}.

(** The value [generateFinalOutput] returns (members the orchestrator
    reads). *)
Record FinalOutput : Type := {
  fo_solution : Solution;
  fo_implementation : Implementation;
  fo_quality : Quality;
  fo_recommendations : list string;
  fo_alternatives : list Solution
}.

(** The value [spawnHiveMind] returns. *)
Record HiveMindResult : Type := {
  hm_sessionId : string;
  hm_duration : Z;
  hm_agentsUsed : nat;
  hm_patternsRecognized : nat;
  hm_qualityScore : number;
  hm_result : FinalOutput
}.

Record Artifact : Type := {
  art_path : string;
  art_content : string;
  art_kind : string
}.

Record Artifacts : Type := {
  art_files : list Artifact;
  art_tests : list Artifact;
  art_documentation : list Artifact;
  art_configuration : list Artifact
}.

Record Intelligence : Type := {
  int_level : string;
  int_agentsUsed : nat;
  int_patternsRecognized : nat;
  int_qualityScore : number;
  int_duration : Z
}.

Record ProcessedResult : Type := {
  pr_sessionId : string;
  pr_issueNumber : Z;
  pr_timestamp : Z;
  pr_solution : Solution;
  pr_implementation : Implementation;
  pr_quality : Quality;
  pr_intelligence : Intelligence;
  pr_recommendations : list string;
  pr_alternatives : list Solution;
  pr_artifacts : Artifacts
}.

Record Options : Type := {
  maxConcurrentSessions : Z;
  repository : string;
  autoCreatePR : bool;
  learningEnabled : bool
}.

(** The errors [resolveIssue] throws, by the text they carry:
    "Maximum concurrent sessions reached. Please wait for completion.",
    "Unable to fetch Issue #N: cause", or the message of whatever the
    engine threw. *)
Inductive Error : Type :=
| MaximumConcurrentSessionsReached
| UnableToFetchIssue (issueNumber : Z) (cause : string)
| EngineFailure (message : string).

Record ErrorRecord (E : Type) : Type := {
  err_error : E;
  err_timestamp : Z
}.
Arguments err_error {E} _.
Arguments err_timestamp {E} _.

Record SessionResults : Type := {
  sr_processed : ProcessedResult;
  sr_duration : Z
}.

Record OSession : Type := {
  os_id : string;
  os_issueNumber : Z;
  os_issueData : Issue;
  os_startTime : Z;
  os_status : string;
  os_engines : list string;
  os_results : option SessionResults;
  os_error : option (ErrorRecord Error)
}.

(** What a call to the issue tracker comes back with. *)
Inductive api_result (A : Type) : Type :=
| ApiOk (a : A)
| ApiError (message : string) (status : Z).
Arguments ApiOk {A} a.
Arguments ApiError {A} message status.

Record CommentRef : Type := { comment_id : Z; comment_url : string }.

(** A branch name [hive-mind/issue-N], recorded as its issue number. *)
Inductive BranchName : Type :=
| HiveMindBranch (issueNumber : Z).

Inductive PullRequestResult : Type :=
| PullRequestOpened (number : Z) (url : string) (branch : BranchName) (title : string)
| BranchExists (branch : BranchName).

(** A label text: a literal, or [quality-] followed by a number. *)
Inductive LabelText : Type :=
| PlainLabel (text : string)
| QualityLabel (percent : number).

(** The tracker as one call of [resolveIssue] meets it: the outcome of
    each request the orchestrator sends.  The requests inside
    [createPullRequest] (branch, files, pull request, labels) come back
    as one outcome, the first failure if there is one. *)
Record GitHub : Type := {
  gh_fetchIssue : api_result Issue;
  gh_createComment : api_result CommentRef;
  gh_addLabels : api_result unit;
  gh_openPullRequest : api_result (Z * string);
  gh_errorComment : api_result unit
}.

(** The requests and registry updates a call performs, in order. *)
Inductive Event : Type :=
| IssueFetched (issueNumber : Z)
| SessionRegistered (id : string)
| EngineCreated (id : string)
| HiveMindSpawned (id : string)
| CommentPosted (issueNumber : Z)
| LabelsAdded (issueNumber : Z) (labels : list LabelText)
| PullRequestRequested (issueNumber : Z)
| ErrorCommentPosted (issueNumber : Z)
| ResultsPersisted (id status : string)
| SessionRemoved (id : string)
| EngineRemoved (id : string).

Record GithubResult : Type := {
  gr_comments : list CommentRef;
  gr_labels : list LabelText;
  gr_pullRequest : option PullRequestResult;
  gr_timestamp : Z;
  gr_error : option string
}.

Record PersistedRecord : Type := {
  rec_timestamp : Z;
  rec_issueNumber : Z;
  rec_status : string;
  rec_success : bool;
  rec_error : option (ErrorRecord Error)
}.

(** The orchestrator object: its options, the two registries, the
    content of [results.json], and the events so far. *)
Record Orchestrator : Type := {
  options : Options;
  activeSessions : gmap string OSession;
  engines : gset string;
  results_file : gmap string PersistedRecord;
  events : list Event
}.

(** What one call of [resolveIssue] takes from outside: the identifier
    [crypto.randomUUID()] returns, the clock, the tracker, and what the
    engine's [spawnHiveMind] comes back with. *)
Record CallEnv : Type := {
  env_uuid : string;
  env_now : Z;
  env_github : GitHub;
  env_hiveMind : HiveMindResult + string;
  env_storage_writable : bool
}.

(** Text tables of the orchestrator keyed on [path.extname]; no
    statement below depends on what they return. *)
Record FileTables : Type := {
  generatePlaceholderCode : string -> string;
  determineFileType : string -> string
}.

Inductive completion (A : Type) : Type :=
| Resolved (a : A)
| Rejected (error : Error).
Arguments Resolved {A} a.
Arguments Rejected {A} error.

Record Resolution : Type := {
  res_orchestrationId : string;
  res_issueNumber : Z;
  res_duration : Z;
  res_engines : nat;
  res_agents : nat;
  res_qualityScore : number;
  res_githubResult : GithubResult
}.

Module HiveMindOrchestrator.

Definition shouldCreatePR (result : ProcessedResult) : bool :=
  Js.gt (q_score (pr_quality result)) (Num 0.8)
  && Js.gt (q_completeness (pr_quality result)) (Num 0.9)
  && (0 <? length (art_files (pr_artifacts result)))%nat.

Definition generateImplementationArtifacts (tables : FileTables) (result : FinalOutput)
    : Artifacts :=
  let implementation := fo_implementation result in
  let files :=
    match impl_files implementation with
    | Val files =>
        map (fun file =>
               {| art_path := file;
                  art_content := if Js.truthy_str (impl_code implementation)
                                 then Js.to_string (impl_code implementation)
                                 else generatePlaceholderCode tables file;
                  art_kind := determineFileType tables file |})
            files
    | _ => []
    end in
  let tests :=
    if Js.truthy_str (impl_tests implementation)
    then [ {| art_path := "tests/hive-mind-solution.test.js";
              art_content := Js.to_string (impl_tests implementation);
              art_kind := "jest" |} ]
    else [] in
  let documentation :=
    if Js.truthy_str (impl_documentation implementation)
    then [ {| art_path := "docs/hive-mind-solution.md";
              art_content := Js.to_string (impl_documentation implementation);
              art_kind := "markdown" |} ]
    else [] in
  {| art_files := files;
     art_tests := tests;
     art_documentation := documentation;
     art_configuration := [] |}.

Definition processHiveMindResult (tables : FileTables) (now : Z)
    (session : OSession) (result : HiveMindResult) : ProcessedResult :=
  {| pr_sessionId := os_id session;
     pr_issueNumber := os_issueNumber session;
     pr_timestamp := now;
     pr_solution := fo_solution (hm_result result);
     pr_implementation := fo_implementation (hm_result result);
     pr_quality := fo_quality (hm_result result);
     pr_intelligence :=
       {| int_level := "advanced-hive-mind";
          int_agentsUsed := hm_agentsUsed result;
          int_patternsRecognized := hm_patternsRecognized result;
          int_qualityScore := hm_qualityScore result;
          int_duration := hm_duration result |};
     pr_recommendations := fo_recommendations (hm_result result);
     pr_alternatives := fo_alternatives (hm_result result);
     pr_artifacts := generateImplementationArtifacts tables (hm_result result) |}.

(** [addLabelsToIssue]: the label list is built first; a failed
    request is logged and the method returns the empty list. *)
Definition addLabelsToIssue (github : GitHub) (session : OSession)
    (result : ProcessedResult) : list LabelText * list Event :=
  let labels :=
    [ PlainLabel "hive-mind-analyzed";
      PlainLabel "ai-solution-ready";
      QualityLabel (Js.Math_round (Js.mul (q_score (pr_quality result)) (Num 100))) ] in
  let labels :=
    if negb (String.eqb (sol_complexity (pr_solution result)) "")
    then labels ++ [ PlainLabel ("complexity-" +:+ sol_complexity (pr_solution result)) ]
    else labels in
  let labels :=
    if negb (String.eqb (sol_approach (pr_solution result)) "")
    then labels ++ [ PlainLabel "ai-generated" ]
    else labels in
  match gh_addLabels github with
  | ApiOk _ => (labels, [LabelsAdded (os_issueNumber session) labels])
  | ApiError _ _ => ([], [LabelsAdded (os_issueNumber session) labels])
  end.

(** [createPullRequest]: a status of 422 is swallowed, any other
    failure is thrown on. *)
Definition createPullRequest (github : GitHub) (session : OSession)
    (result : ProcessedResult) : (PullRequestResult + string) * list Event :=
  let branchName := HiveMindBranch (os_issueNumber session) in
  let title := "🐝 AI Solution: " +:+ Js.to_string (issue_title (os_issueData session)) in
  ( match gh_openPullRequest github with
    | ApiOk (number, url) => inl (PullRequestOpened number url branchName title)
    | ApiError message status =>
        if (status =? 422)%Z then inl (BranchExists branchName)
        else inr message
    end,
    [PullRequestRequested (os_issueNumber session)] ).

Definition publishToGitHub (opts : Options) (github : GitHub) (now : Z)
    (session : OSession) (processedResult : ProcessedResult)
    : GithubResult * list Event :=
  let githubResult :=
    {| gr_comments := []; gr_labels := []; gr_pullRequest := None;
       gr_timestamp := now; gr_error := None |} in
  match gh_createComment github with
  | ApiError message _ =>
      ( {| gr_comments := gr_comments githubResult;
           gr_labels := gr_labels githubResult;
           gr_pullRequest := gr_pullRequest githubResult;
           gr_timestamp := gr_timestamp githubResult;
           gr_error := Some message |},
        [CommentPosted (os_issueNumber session)] )
  | ApiOk analysisComment =>
      let '(labels, labelEvents) := addLabelsToIssue github session processedResult in
      let posted := [CommentPosted (os_issueNumber session)] ++ labelEvents in
      if autoCreatePR opts && shouldCreatePR processedResult
      then
        let '(pullRequest, prEvents) := createPullRequest github session processedResult in
        match pullRequest with
        | inl pr =>
            ( {| gr_comments := gr_comments githubResult ++ [analysisComment];
                 gr_labels := labels;
                 gr_pullRequest := Some pr;
                 gr_timestamp := gr_timestamp githubResult;
                 gr_error := None |},
              posted ++ prEvents )
        | inr message =>
            ( {| gr_comments := gr_comments githubResult ++ [analysisComment];
                 gr_labels := labels;
                 gr_pullRequest := None;
                 gr_timestamp := gr_timestamp githubResult;
                 gr_error := Some message |},
              posted ++ prEvents )
        end
      else
        ( {| gr_comments := gr_comments githubResult ++ [analysisComment];
             gr_labels := labels;
             gr_pullRequest := None;
             gr_timestamp := gr_timestamp githubResult;
             gr_error := None |},
          posted )
  end.

Definition set_status (status : string) (session : OSession) : OSession :=
  {| os_id := os_id session;
     os_issueNumber := os_issueNumber session;
     os_issueData := os_issueData session;
     os_startTime := os_startTime session;
     os_status := status;
     os_engines := os_engines session;
     os_results := os_results session;
     os_error := os_error session |}.

Definition record (new : list Event) (orch : Orchestrator) : Orchestrator :=
  {| options := options orch;
     activeSessions := activeSessions orch;
     engines := engines orch;
     results_file := results_file orch;
     events := events orch ++ new |}.

(** [persistResults]: one record under the session's id; a failing
    write is logged and swallowed. *)
Definition persistResults (env : CallEnv) (session : OSession) (orch : Orchestrator)
    : Orchestrator :=
  if env_storage_writable env
  then
    {| options := options orch;
       activeSessions := activeSessions orch;
       engines := engines orch;
       results_file :=
         <[ os_id session :=
              {| rec_timestamp := env_now env;
                 rec_issueNumber := os_issueNumber session;
                 rec_status := os_status session;
                 rec_success := String.eqb (os_status session) "completed";
                 rec_error := os_error session |} ]> (results_file orch);
       events := events orch ++ [ResultsPersisted (os_id session) (os_status session)] |}
  else orch.

(** The cleanup both branches end with: the session and its engine
    leave the registries. *)
Definition cleanup (orchestrationId : string) (orch : Orchestrator) : Orchestrator :=
  {| options := options orch;
     activeSessions := delete orchestrationId (activeSessions orch);
     engines := engines orch ∖ {[ orchestrationId ]};
     results_file := results_file orch;
     events := events orch ++ [SessionRemoved orchestrationId; EngineRemoved orchestrationId] |}.

(** The body of the [try] block of [resolveIssue].  The session object
    is shared with the registry: the entry is written here once, with
    the status and the engine list the session has when the engine is
    started, the last state in which a failure can find it. *)
Definition resolveIssue_try (tables : FileTables) (orch : Orchestrator)
    (issueData : Issue) (env : CallEnv) : completion Resolution * Orchestrator :=
  let orchestrationId := env_uuid env in
  let startTime := env_now env in
  (* Check if we can accept new sessions *)
  if (maxConcurrentSessions (options orch) <=? Z.of_nat (size (activeSessions orch)))%Z
  then (Rejected MaximumConcurrentSessionsReached, orch)
  else
    (* Fetch complete issue data *)
    let orch := record [IssueFetched (issue_number issueData)] orch in
    match gh_fetchIssue (env_github env) with
    | ApiError message _ =>
        (Rejected (UnableToFetchIssue (issue_number issueData) message), orch)
    | ApiOk completeIssue =>
        (* Create orchestration session *)
        let session :=
          {| os_id := orchestrationId;
             os_issueNumber := issue_number completeIssue;
             os_issueData := completeIssue;
             os_startTime := startTime;
             os_status := "initializing";
             os_engines := [];
             os_results := None;
             os_error := None |} in
        (* Create and configure the engine; execute *)
        let session :=
          {| os_id := os_id session;
             os_issueNumber := os_issueNumber session;
             os_issueData := os_issueData session;
             os_startTime := os_startTime session;
             os_status := "executing";
             os_engines := os_engines session ++ [orchestrationId];
             os_results := os_results session;
             os_error := os_error session |} in
        let orch :=
          {| options := options orch;
             activeSessions := <[ orchestrationId := session ]> (activeSessions orch);
             engines := {[ orchestrationId ]} ∪ engines orch;
             results_file := results_file orch;
             events := events orch ++ [SessionRegistered orchestrationId;
                                       EngineCreated orchestrationId;
                                       HiveMindSpawned orchestrationId] |} in
        match env_hiveMind env with
        | inr message => (Rejected (EngineFailure message), orch)
        | inl hiveMindResult =>
            (* Process results *)
            let session := set_status "processing" session in
            let processedResult :=
              processHiveMindResult tables (env_now env) session hiveMindResult in
            (* Create GitHub artifacts *)
            let session := set_status "publishing" session in
            let '(githubResult, published) :=
              publishToGitHub (options orch) (env_github env) (env_now env)
                              session processedResult in
            let orch := record published orch in
            (* Finalize session *)
            let session :=
              {| os_id := os_id session;
                 os_issueNumber := os_issueNumber session;
                 os_issueData := os_issueData session;
                 os_startTime := os_startTime session;
                 os_status := "completed";
                 os_engines := os_engines session;
                 os_results := Some {| sr_processed := processedResult;
                                       sr_duration := (env_now env - startTime)%Z |};
                 os_error := os_error session |} in
            (* Persist results, cleanup *)
            let orch := persistResults env session orch in
            let orch := cleanup orchestrationId orch in
            ( Resolved {| res_orchestrationId := orchestrationId;
                          res_issueNumber := issue_number completeIssue;
                          res_duration := (env_now env - startTime)%Z;
                          res_engines := length (os_engines session);
                          res_agents := hm_agentsUsed hiveMindResult;
                          res_qualityScore := hm_qualityScore hiveMindResult;
                          res_githubResult := githubResult |},
              orch )
        end
    end.

(** [resolveIssue]: the [try] block, then the [catch] block, which
    fails and removes the session registered under the call's id, if
    there is one, and throws the error on.  The second argument of the
    method, [options], is only stored in the session and is left out;
    so are the calls of the logger. *)
Definition resolveIssue (tables : FileTables) (orch : Orchestrator)
    (issueData : Issue) (env : CallEnv) : completion Resolution * Orchestrator :=
  let orchestrationId := env_uuid env in
  match resolveIssue_try tables orch issueData env with
  | (Resolved resolution, orch) => (Resolved resolution, orch)
  | (Rejected error, orch) =>
      match activeSessions orch !! orchestrationId with
      | Some session =>
          let session :=
            {| os_id := os_id session;
               os_issueNumber := os_issueNumber session;
               os_issueData := os_issueData session;
               os_startTime := os_startTime session;
               os_status := "failed";
               os_engines := os_engines session;
               os_results := os_results session;
               os_error := Some {| err_error := error; err_timestamp := env_now env |} |} in
          let orch := record [ErrorCommentPosted (os_issueNumber session)] orch in
          let orch := persistResults env session orch in
          let orch := cleanup orchestrationId orch in
          (Rejected error, orch)
      | None => (Rejected error, orch)
      end
  end.

End HiveMindOrchestrator.

(** ** Vocabulary of the statements *)

(** [at_most b x]: the number [x] is [NaN] or does not exceed [b]. *)
Definition at_most (b : Q) (x : number) : Prop :=
  match x with Num q => (q <= b)%Q | NaN => True end.


(** [num_is x q]: the number [x] is the rational [q]. *)
Definition num_is (x : number) (q : Q) : Prop :=
  match x with Num p => (p == q)%Q | NaN => False end.

(** [confidence_ge a b]: both confidences are numbers and [a]'s is at
    least [b]'s. *)
Definition confidence_ge (a b : Match) : Prop :=
  match match_confidence a, match_confidence b with
  | Num x, Num y => (y <= x)%Q
  | _, _ => False
  end.

(** Descending order of [similarity * successRate]: every entry's
    confidence is that product, and each entry's confidence is at
    least that of every later entry. *)
Definition descending_by_confidence (l : list Match) : Prop :=
  Forall (fun m => match_confidence m =
                   Js.mul (match_similarity m) (Num (pattern_successRate (match_pattern m)))) l
  /\ StronglySorted confidence_ge l.

(** The entry [matchPatterns] pushes for one store entry, if any. *)
Definition candidate (scorer : Issue -> Signature -> number) (issue : Issue)
    (entry : string * Pattern) : option Match :=
  let similarity := scorer issue (pattern_signature entry.2) in
  if Js.gt similarity (Num 0.7)
  then Some {| match_id := entry.1;
               match_similarity := similarity;
               match_pattern := entry.2;
               match_confidence := Js.mul similarity (Num (pattern_successRate entry.2)) |}
  else None.

(** What holds of every pushed entry. *)
Definition well_scored (m : Match) : Prop :=
  Js.gt (match_similarity m) (Num 0.7) = true
  /\ match_confidence m =
     Js.mul (match_similarity m) (Num (pattern_successRate (match_pattern m))).

(** *** An issue as the tracker delivers it *)

Definition plain_issue : Issue :=
  {| issue_number := 1;
     issue_title := Val "a";
     issue_body := Val "b";
     issue_labels := Val [];
     issue_domain := Undefined;
     issue_complexity := Undefined;
     issue_keyTerms := Undefined;
     issue_category := Undefined |}.

(** *** Convergence *)

Definition all_insights (discussions : list Discussion) : list Insight :=
  flat_map disc_insights discussions.

Definition Qsum (l : list Q) : Q := foldr Qplus 0%Q l.

(** One step of the inner loop of [measureConvergence]. *)
Definition tally_insight (acc : Q * nat) (insight : Insight) : Q * nat :=
  let '(convergenceScore, totalInsights) := acc in
  let totalInsights := S totalInsights in
  if insight_consensus insight
  then ((convergenceScore + insight_confidence insight)%Q, totalInsights)
  else (convergenceScore, totalInsights).

(** The convergence score in the words of the design text: the mean
    confidence over the insights that reached consensus with a
    confidence above 0.7, or 0.5 when there is none. *)
Definition convergence_as_specified (discussions : list Discussion) : Q :=
  let reached :=
    List.filter (fun i => insight_consensus i && Js.Qltb 0.7 (insight_confidence i))
                (all_insights discussions) in
  match reached with
  | [] => 0.5%Q
  | _ => (Qsum (map insight_confidence reached) / inject_Z (Z.of_nat (length reached)))%Q
  end.

Definition discussion_of (insights : list Insight) : Discussion :=
  {| disc_round := 1;
     disc_participants := ["agent-1"; "agent-2"];
     disc_topics := map insight_topic insights;
     disc_insights := insights;
     disc_timestamp := 0 |}.

(** One round, two topics: consensus at 0.9 on the first, none on the
    second. *)
Definition split_round : list Discussion :=
  [ discussion_of [ {| insight_topic := "complexity-assessment";
                       insight_consensus := true;
                       insight_confidence := 0.9 |};
                    {| insight_topic := "risk-mitigation";
                       insight_consensus := false;
                       insight_confidence := 0.8 |} ] ].

(** One round, one topic, no consensus. *)
Definition unconvinced_round : list Discussion :=
  [ discussion_of [ {| insight_topic := "solution-approach";
                       insight_consensus := false;
                       insight_confidence := 0.9 |} ] ].

(** *** Recommendations *)

Definition below_threshold (x : number) : bool := Js.lt x (Num 0.8).

(** How many of the seven quality dimensions are below 0.8. *)
Definition dimensions_below (metrics : Metrics) : nat :=
  length (List.filter below_threshold (QualityAssessmentNetwork.Object_values metrics)).

(** How many of completeness, testability and documentation are below 0.8. *)
Definition checked_dimensions_below (metrics : Metrics) : nat :=
  length (List.filter below_threshold
            [ m_completeness metrics; m_testability metrics; m_documentation metrics ]).

Definition complete_solution : Solution :=
  {| sol_id := "s-1";
     sol_approach := "AI-Generated Approach 1";
     sol_description := "Advanced solution using neural pattern recognition";
     sol_confidence := Num 0.8;
     sol_steps := ["Analyze problem context using AI"];
     sol_files := ["solution-1.js"; "tests/solution-1.test.js"; "docs/solution-1.md"];
     sol_code := Val "// AI-Generated Solution 1";
     sol_tests := Val "// AI-Generated Tests for Solution 1";
     sol_documentation := Val "# AI-Generated Solution 1";
     sol_estimatedTime := Num 30;
     sol_complexity := "low" |}.

(** A world whose random source always returns 0 and whose clock
    stands at 0. *)
Definition quiet_world : World :=
  {| random_source := fun _ => 0%Q;
     random_used := 0;
     clock_source := fun _ => 0%Z;
     clock_used := 0 |}.

(** *** Worker count *)

Inductive Tier : Type := low | medium | high | very_high.

Definition tier_name (t : Tier) : string :=
  match t with
  | low => "low"
  | medium => "medium"
  | high => "high"
  | very_high => "very-high"
  end.

(** The tier table in the words of the design text. *)
Definition tier_table (t : Tier) : Z :=
  match t with
  | low => 2
  | medium => 4
  | high => 6
  | very_high => 8
  end%Z.

(** The number of workers the planner returns for a tier. *)
Definition planned_workers (t : Tier) (maxAgents : Z) (domain : nullable string) : Z :=
  Z.of_nat (length (st_agents (AgentCoordinationNetwork.generateStrategy
                                 {| ctx_maxAgents := maxAgents;
                                    ctx_complexity := tier_name t;
                                    ctx_domain := domain |}))).

(** *** The pull-request gate and the capacity check *)

(** [exceeds x q]: the number [x] is not [NaN] and is strictly above [q]. *)
Definition exceeds (x : number) (q : Q) : Prop :=
  match x with Num p => (q < p)%Q | NaN => False end.

Definition pull_request_requested (evs : list Event) : Prop :=
  exists issueNumber, PullRequestRequested issueNumber ∈ evs.

Definition sample_tables : FileTables :=
  {| generatePlaceholderCode := fun filename => "# Generated by Claude Flow Hive-Mind v3.0";
     determineFileType := fun filename => "JavaScript" |}.

Definition sample_quality : Quality :=
  {| q_score := Num 0.9; q_confidence := Num 0.9;
     q_completeness := Num 1; q_maintainability := Num 0.8 |}.

Definition sample_implementation : Implementation :=
  {| impl_approach := sol_approach complete_solution;
     impl_steps := sol_steps complete_solution;
     impl_files := Val (sol_files complete_solution);
     impl_code := sol_code complete_solution;
     impl_tests := sol_tests complete_solution;
     impl_documentation := sol_documentation complete_solution |}.

Definition sample_session : OSession :=
  {| os_id := "session-1";
     os_issueNumber := 7;
     os_issueData := plain_issue;
     os_startTime := 0;
     os_status := "executing";
     os_engines := ["session-1"];
     os_results := None;
     os_error := None |}.

Definition sample_hiveMindResult : HiveMindResult :=
  {| hm_sessionId := "engine-session";
     hm_duration := 10;
     hm_agentsUsed := 2;
     hm_patternsRecognized := 0;
     hm_qualityScore := Num 0.9;
     hm_result := {| fo_solution := complete_solution;
                     fo_implementation := sample_implementation;
                     fo_quality := sample_quality;
                     fo_recommendations := [];
                     fo_alternatives := [] |} |}.


Definition willing_github : GitHub :=
  {| gh_fetchIssue := ApiOk plain_issue;
     gh_createComment := ApiOk {| comment_id := 1; comment_url := "https://example.test/c/1" |};
     gh_addLabels := ApiOk tt;
     gh_openPullRequest := ApiOk (12%Z, "https://example.test/pull/12");
     gh_errorComment := ApiOk tt |}.

Definition sample_options : Options :=
  {| maxConcurrentSessions := 1;
     repository := "owner/repo";
     autoCreatePR := true;
     learningEnabled := true |}.

(** An orchestrator configured for one session, with one session active. *)
Definition busy_orchestrator : Orchestrator :=
  {| options := sample_options;
     activeSessions := {[ "session-1" := sample_session ]};
     engines := {[ "session-1" ]};
     results_file := ∅;
     events := [] |}.

(** The same orchestrator with no session active. *)
Definition idle_orchestrator : Orchestrator :=
  {| options := sample_options;
     activeSessions := ∅;
     engines := ∅;
     results_file := ∅;
     events := [] |}.

Definition successful_call : CallEnv :=
  {| env_uuid := "session-2";
     env_now := 5;
     env_github := willing_github;
     env_hiveMind := inl sample_hiveMindResult;
     env_storage_writable := true |}.

Definition next_call : CallEnv :=
  {| env_uuid := "session-2";
     env_now := 5;
     env_github := willing_github;
     env_hiveMind := inr "not reached";
     env_storage_writable := true |}.



(** *** The analysis stage *)

Definition is_tier (level : string) : Prop :=
  level = "low" \/ level = "medium" \/ level = "high" \/ level = "very-high".

(** [in_unit_interval x]: the number [x] is not [NaN] and lies in [0, 1]. *)
Definition in_unit_interval (x : number) : Prop :=
  match x with Num q => (0 <= q <= 1)%Q | NaN => False end.

(** The analysis a run returned, if it returned. *)
Definition analysis_of (run : outcome (Analysis * ESession)) : option Analysis :=
  match run with
  | Returned (analysis, _) _ => Some analysis
  | Thrown _ _ => None
  end.

Definition category_of (analysis : Analysis) : nullable string :=
  match an_neuralClassification analysis with
  | Val classification => Val (cl_category classification)
  | Undefined => Undefined
  | Null => Null
  end.

(** The members of an analysis other than the timestamp and the
    classification. *)
Definition same_findings (a b : Analysis) : Prop :=
  an_sessionId a = an_sessionId b
  /\ an_semantic a = an_semantic b
  /\ an_complexity a = an_complexity b
  /\ an_patterns a = an_patterns b
  /\ an_domain a = an_domain b
  /\ an_priority a = an_priority b
  /\ an_solutionSpace a = an_solutionSpace b
  /\ an_risks a = an_risks b.

(** Two worlds give a run the same clock readings and random draws. *)
Definition same_readings (w1 w2 : World) : Prop :=
  clock_source w1 (clock_used w1) = clock_source w2 (clock_used w2)
  /\ forall k, (k < 6)%nat ->
       random_source w1 (k + random_used w1) = random_source w2 (k + random_used w2).

(** The analysis before the classification is attached. *)
Definition findings (rt : Runtime) (engine : EngineState) (session : ESession)
    (timestamp : Z) (complexity : Complexity) (priority : number) (risks : list Risk)
    (classification : nullable Classification) : Analysis :=
  {| an_sessionId := es_id session;
     an_timestamp := timestamp;
     an_semantic := DeepAnalysis.analyzeSemantics rt (es_issue session);
     an_complexity := complexity;
     an_patterns := Engine.matchPatterns (es_issue session) (eng_patterns engine);
     an_domain := DeepAnalysis.classifyDomain rt (es_issue session);
     an_priority := priority;
     an_solutionSpace := DeepAnalysis.mapSolutionSpace rt (es_issue session);
     an_risks := risks;
     an_neuralClassification := classification |}.

(** As [quiet_world] for the first six draws, 0.9 afterwards. *)
Definition quiet_then_loud_world : World :=
  {| random_source := fun n => if (n <? 6)%nat then 0%Q else 0.9%Q;
     random_used := 0;
     clock_source := fun _ => 0%Z;
     clock_used := 0 |}.

Definition lower_ascii (c : ascii) : ascii :=
  let n := nat_of_ascii c in
  if (65 <=? n)%nat && (n <=? 90)%nat then ascii_of_nat (n + 32) else c.

Fixpoint lower (s : string) : string :=
  match s with
  | EmptyString => EmptyString
  | String c rest => String (lower_ascii c) (lower rest)
  end.

Fixpoint split_on_space (s current : string) : list string :=
  match s with
  | EmptyString => [current]
  | String c rest =>
      if Ascii.eqb c " "%char then current :: split_on_space rest ""
      else split_on_space rest (current +:+ String c "")
  end.

(** The built-ins on plain text: ASCII words, all different, separated
    by single spaces, with no punctuation and nothing any of the
    engine's regular expressions matches.  On such text lower-casing
    is the ASCII one, [match] finds nothing, [split] cuts at the
    spaces, the replacement changes nothing, and every term counts
    once. *)
Definition plain_runtime : Runtime :=
  {| toLowerCase := lower;
     str_match := fun _ _ => [];
     str_split := fun re s =>
       match re with
       | re_whitespace => split_on_space s ""
       | _ => [s]
       end;
     str_replace := fun _ s _ => s;
     count_and_rank := fun terms => map (fun term => (term, Num 1)) terms |}.

Definition small_engine : EngineState :=
  {| eng_maxAgents := 15; eng_patterns := [] |}.

Definition fresh_session : ESession :=
  {| es_id := "engine-session";
     es_issue := plain_issue;
     es_status := "analyzing";
     es_analysis := Undefined;
     es_patternsRecognized := 0 |}.

(** As [quiet_world], except that the second call of [Math.random]
    returns 0.5. *)
Definition lively_world : World :=
  {| random_source := fun n => if (n =? 1)%nat then 0.5%Q else 0%Q;
     random_used := 0;
     clock_source := fun _ => 0%Z;
     clock_used := 0 |}.

(** An issue that carries the four members [calculateSimilarity]
    reads, and a signature that agrees with it on all of them. *)
Definition twin_issue : Issue :=
  {| issue_number := 2;
     issue_title := Val "t";
     issue_body := Val "b";
     issue_labels := Val [];
     issue_domain := Val "backend";
     issue_complexity := Val "low";
     issue_keyTerms := Val ["login"; "error"];
     issue_category := Val "bug" |}.

Definition twin_signature : Signature :=
  {| sig_domain := Val "backend";
     sig_complexity := Val "low";
     sig_keyTerms := Val ["login"; "error"];
     sig_category := Val "bug" |}.

(** The task of the design text's end-to-end example. *)
Definition urgent_issue : Issue :=
  {| issue_number := 3;
     issue_title := Val "Login fails with 500";
     issue_body := Val "stack trace attached, production issue";
     issue_labels := Val [ {| label_name := Val "bug" |}; {| label_name := Val "urgent" |} ];
     issue_domain := Undefined;
     issue_complexity := Undefined;
     issue_keyTerms := Undefined;
     issue_category := Undefined |}.

(** A task with nothing in it. *)
Definition bare_issue : Issue :=
  {| issue_number := 4;
     issue_title := Undefined;
     issue_body := Null;
     issue_labels := Undefined;
     issue_domain := Undefined;
     issue_complexity := Undefined;
     issue_keyTerms := Undefined;
     issue_category := Undefined |}.

Definition bare_session : ESession :=
  {| es_id := "engine-session";
     es_issue := bare_issue;
     es_status := "analyzing";
     es_analysis := Undefined;
     es_patternsRecognized := 0 |}.

(** * Further parts of the two files *)

From stdpp Require Import pretty.

(** ** Engine: strategy prediction *)

Record Prediction : Type := {
  pred_confidence : number;
  pred_expectedDuration : number;
  pred_successProbability : number
}.

(** What [generateAgentStrategy] returns: the strategy spread out, the
    session id, the time, the prediction. *)
Record AgentStrategy : Type := {
  ags_strategy : Strategy;
  ags_sessionId : string;
  ags_timestamp : Z;
  ags_expectedOutcome : Prediction
}.

Module Planning.

(** [a >= b] between a length and a number: false on [NaN]. *)
Definition length_ge (n : nat) (b : number) : bool :=
  match b with
  | Num y => Qle_bool y (inject_Z (Z.of_nat n))
  | NaN => false
  end.

(** [complexityMultiplier[level] || 1.0], as the product sees it: an
    inherited member is truthy and converts to [NaN]. *)
Definition complexityMultiplier (level : string) : number :=
  if String.eqb level "low" then Num 0.5
  else if String.eqb level "medium" then Num 1.0
  else if String.eqb level "high" then Num 1.5
  else if String.eqb level "very-high" then Num 2.0
  else if Js.arr_includes AgentCoordinationNetwork.Object_prototype_members level then NaN
  else Num 1.0.

Definition estimateResolutionTime (analysis : Analysis) : number :=
  let baseTime := Num 30 in
  Js.Math_round (Js.mul baseTime (complexityMultiplier (cx_level (an_complexity analysis)))).

(** [predictOutcome].  The sums are exact here; the code adds doubles,
    whose results can differ from these in the last place (0.7 - 0.2
    is 0.49999999999999994 there), so the statements about it leave a
    margin at 0.5. *)
Definition predictOutcome (strategy : Strategy) (analysis : Analysis) : Prediction :=
  let confidence := Num 0.7 in
  (* Adjust based on complexity *)
  let confidence :=
    if String.eqb (cx_level (an_complexity analysis)) "low"
    then Js.add confidence (Num 0.2)
    else if String.eqb (cx_level (an_complexity analysis)) "very-high"
    then Js.sub confidence (Num 0.2)
    else confidence in
  (* Adjust based on pattern matches *)
  let confidence :=
    if (0 <? length (an_patterns analysis))%nat
    then Js.add confidence
           (Js.mul (Num 0.1) (Js.Math_min (Js.of_nat (length (an_patterns analysis))) (Num 3)))
    else confidence in
  (* Adjust based on agent count *)
  let optimalAgents := cx_recommendedAgents (an_complexity analysis) in
  let confidence :=
    if length_ge (length (st_agents strategy)) optimalAgents
    then Js.add confidence (Num 0.1)
    else confidence in
  {| pred_confidence := Js.Math_min confidence (Num 1.0);
     pred_expectedDuration := estimateResolutionTime analysis;
     pred_successProbability := confidence |}.

Definition generateAgentStrategy (engine : EngineState) (session : ESession)
    (analysis : Analysis) : M AgentStrategy :=
  let strategy :=
    AgentCoordinationNetwork.generateStrategy
      {| ctx_maxAgents := eng_maxAgents engine;
         ctx_complexity := cx_level (an_complexity analysis);
         ctx_domain := Val (an_domain analysis) |} in
  timestamp ← Date_now;
  mret {| ags_strategy := strategy;
          ags_sessionId := es_id session;
          ags_timestamp := timestamp;
          ags_expectedOutcome := predictOutcome strategy analysis |}.

End Planning.

(** ** Vocabulary of the further statements *)

(** [nonneg x]: the number [x] is not [NaN] and is at least 0. *)
Definition nonneg (x : number) : Prop :=
  match x with Num q => (0 <= q)%Q | NaN => False end.

(** [within a b x]: the number [x] is not [NaN] and lies in [a, b]. *)
Definition within (a b : Q) (x : number) : Prop :=
  match x with Num q => (a <= q <= b)%Q | NaN => False end.

(** [is_integer x z]: the number [x] is the integer [z]. *)
Definition is_integer (x : number) (z : Z) : Prop :=
  match x with Num q => (q == inject_Z z)%Q | NaN => False end.

(** The position of a tier on the scale low, medium, high, very-high. *)
Definition tier_rank (level : string) : nat :=
  if String.eqb level "low" then 0
  else if String.eqb level "medium" then 1
  else if String.eqb level "high" then 2
  else 3.

(** The part of a factor that counts: a tenth of it, at most 1. *)
Definition capped_tenth (x : number) : Q :=
  match x with Num q => Qmin (q / 10) 1 | NaN => 0%Q end.

Definition weighted_sum (factors : Factors) : Q :=
  (0.1 * capped_tenth (f_textLength factors)
   + 0.3 * capped_tenth (f_technicalTerms factors)
   + 0.2 * capped_tenth (f_codeSnippets factors)
   + 0.2 * capped_tenth (f_stackTraces factors)
   + 0.1 * capped_tenth (f_labels factors)
   + 0.1 * capped_tenth (f_references factors))%Q.

(** The number of workers the planner returns for a complexity level. *)
Definition planned_for_level (level : string) (maxAgents : Z) (domain : nullable string) : Z :=
  Z.of_nat (length (st_agents (AgentCoordinationNetwork.generateStrategy
                                 {| ctx_maxAgents := maxAgents;
                                    ctx_complexity := level;
                                    ctx_domain := domain |}))).

(** [known_tier v]: the member is one of the four keys of [complexityMap]. *)
Definition known_tier (v : nullable string) : Prop :=
  v = Val "low" \/ v = Val "medium" \/ v = Val "high" \/ v = Val "very-high".

(** Both key-term arrays are present and empty: the overlap ratio is [0 / 0]. *)
Definition both_keyTerms_empty (issue : Issue) (signature : Signature) : Prop :=
  issue_keyTerms issue = Val [] /\ sig_keyTerms signature = Val [].

(** How many of the keywords occur in the text. *)
Definition keyword_count (text : string) (keywords : list string) : nat :=
  length (List.filter (fun keyword => includes text keyword) keywords).

(** The tier a score falls into, by the thresholds 0.3, 0.6 and 0.8. *)
Definition tier_of_score (s : Q) : Tier :=
  if Js.Qltb s 0.3 then low
  else if Js.Qltb s 0.6 then medium
  else if Js.Qltb s 0.8 then high
  else very_high.

Definition roomy_engine : EngineState :=
  {| eng_maxAgents := 15; eng_patterns := [] |}.

(** One step of the loop of [classifyDomain]. *)
Definition domain_step (text : string) (best : string * nat) (entry : string * list string)
    : string * nat :=
  let '(bestDomain, bestScore) := best in
  let '(domain, keywords) := entry in
  let score := keyword_count text keywords in
  if (bestScore <? score)%nat then (domain, score) else (bestDomain, bestScore).

(** ** Engine: solution synthesis, quality assessment, final output *)

(** How numbers are written into the generated texts ([index + 1] and
    a confidence inside template literals). *)
Record Printer : Type := {
  show_nat : nat -> string;
  show_number : number -> string
}.

(** The line feed, and a text given by its lines. *)
Definition line_feed : string := String (ascii_of_nat 10) EmptyString.

Definition text_of_lines (lines : list string) : string := String.concat line_feed lines.

(** The argument of [generate] (members it reads). *)
Record GenerationContext : Type := {
  gen_analysis : nullable Analysis;
  gen_patterns : nullable (list Match)
}.

Record AssessedSolution : Type := {
  asol_solution : Solution;
  asol_assessment : Assessment
}.

Record Validation : Type := {
  val_sessionId : string;
  val_solutions : list AssessedSolution;
  val_overallQuality : number;
  val_recommendations : list string;
  val_timestamp : Z
}.

(** The engine's session when the last stage runs: the members the
    analysis stage touches, the keys of the map [session.agents] and
    the array [session.solutions]. *)
Record FinishedSession : Type := {
  fs_session : ESession;
  fs_agents : list string;
  fs_solutions : list Solution
}.

Module SolutionGenerationNetwork.

Section WithPrinter.
Variable pr : Printer.

Definition generateCode (index : nat) : M string :=
  r ← Math_random;
  let confidence := Js.add (Num 0.8) (Js.mul r (Num 0.2)) in
  mret (text_of_lines [
      "// AI-Generated Solution " +:+ show_nat pr (index + 1);
      "// Generated by Hive-Mind Neural Network";
      "";
      "class Solution" +:+ show_nat pr (index + 1) +:+ " {";
      "    constructor() {";
      "        this.approach = 'neural-pattern-based';";
      "        this.confidence = " +:+ show_number pr confidence +:+ ";";
      "    }";
      "    ";
      "    async resolve() {";
      "        // Advanced AI implementation";
      "        return {";
      "            success: true,";
      "            method: 'hive-mind-coordination',";
      "            timestamp: Date.now()";
      "        };";
      "    }";
      "}";
      "";
      "module.exports = Solution" +:+ show_nat pr (index + 1) +:+ ";" ]).

Definition generateTests (index : nat) : string :=
  text_of_lines [
      "// AI-Generated Tests for Solution " +:+ show_nat pr (index + 1);
      "const Solution" +:+ show_nat pr (index + 1) +:+ " = require('./solution-" +:+ show_nat pr (index + 1) +:+ "');";
      "";
      "describe('Solution" +:+ show_nat pr (index + 1) +:+ "', () => {";
      "    it('should resolve successfully', async () => {";
      "        const solution = new Solution" +:+ show_nat pr (index + 1) +:+ "();";
      "        const result = await solution.resolve();";
      "        expect(result.success).toBe(true);";
      "    });";
      "});" ].

Definition generateDocumentation (index : nat) : string :=
  text_of_lines [
      "# AI-Generated Solution " +:+ show_nat pr (index + 1);
      "";
      "## Overview";
      "This solution was generated using advanced Hive-Mind neural networks.";
      "";
      "## Approach";
      "Neural pattern-based resolution with swarm intelligence coordination.";
      "";
      "## Implementation";
      "- Advanced AI algorithms";
      "- Pattern recognition";
      "- Quality assurance";
      "";
      "## Usage";
      "```javascript";
      "const solution = new Solution" +:+ show_nat pr (index + 1) +:+ "();";
      "const result = await solution.resolve();";
      "```" ].

(** [context.analysis?.complexity?.level || 'medium'] *)
Definition context_level (context : GenerationContext) : string :=
  match gen_analysis context with
  | Val analysis =>
      if String.eqb (cx_level (an_complexity analysis)) "" then "medium"
      else cx_level (an_complexity analysis)
  | _ => "medium"
  end.

(** [generateSingleSolution]; [id] is what [crypto.randomUUID()] returns. *)
Definition generateSingleSolution (id : string) (context : GenerationContext) (index : nat)
    : M Solution :=
  r ← Math_random;
  let confidence := Js.add (Num 0.8) (Js.mul r (Num 0.2)) in
  code ← generateCode index;
  let tests := generateTests index in
  let documentation := generateDocumentation index in
  r ← Math_random;
  mret {| sol_id := id;
          sol_approach := "AI-Generated Approach " +:+ show_nat pr (index + 1);
          sol_description := "Advanced solution using neural pattern recognition";
          sol_confidence := confidence;
          sol_steps := [ "Analyze problem context using AI";
                         "Apply neural pattern matching";
                         "Generate solution framework";
                         "Implement with quality assurance";
                         "Validate using AI testing" ];
          sol_files := [ "solution-" +:+ show_nat pr (index + 1) +:+ ".js";
                         "tests/solution-" +:+ show_nat pr (index + 1) +:+ ".test.js";
                         "docs/solution-" +:+ show_nat pr (index + 1) +:+ ".md" ];
          sol_code := Val code;
          sol_tests := Val tests;
          sol_documentation := Val documentation;
          sol_estimatedTime := Js.Math_round (Js.add (Num 30) (Js.mul r (Num 120)));
          sol_complexity := context_level context |}.

(** The loop of [generate], from [index] on, [count] more times. *)
Fixpoint generate_from (uuid : nat -> string) (context : GenerationContext)
    (index count : nat) : M (list Solution) :=
  match count with
  | O => mret []
  | S count' =>
      solution ← generateSingleSolution (uuid index) context index;
      rest ← generate_from uuid context (S index) count';
      mret (solution :: rest)
  end.

(** [generate]; [uuid i] is the identifier drawn for the solution of
    index [i]. *)
Definition generate (uuid : nat -> string) (context : GenerationContext) : M (list Solution) :=
  let analysisPatterns :=
    match gen_patterns context with Val patterns => patterns | _ => [] end in
  generate_from uuid context 0 (Nat.min 3 (length analysisPatterns + 1)).

End WithPrinter.

End SolutionGenerationNetwork.

Module QualityStage.

(** [Promise.all(solutions.map(solution => assess(solution, session)))]:
    [assess] never suspends, so the calls run one after the other. *)
Fixpoint assess_all (solutions : list Solution) : M (list Assessment) :=
  match solutions with
  | [] => mret []
  | solution :: rest =>
      assessment ← QualityAssessmentNetwork.assess solution;
      others ← assess_all rest;
      mret (assessment :: others)
  end.

Definition calculateOverallQuality (assessments : list Assessment) : number :=
  if (length assessments =? 0)%nat then Num 0
  else
    let totalScore :=
      fold_left (fun sum assessment => Js.add sum (as_score assessment)) assessments (Num 0) in
    Js.div totalScore (Js.of_nat (length assessments)).

Definition generateQualityRecommendations (pr : Printer) (assessments : list Assessment)
    : list string :=
  fold_left
    (fun recommendations entry =>
       let '(index, assessment) := entry in
       if Js.lt (as_score assessment) (Num 0.8)
       then recommendations
            ++ [ "Solution " +:+ show_nat pr (index + 1) +:+ ": "
                 +:+ String.concat ", " (as_recommendations assessment) ]
       else recommendations)
    (zip (seq 0 (length assessments)) assessments) [].

(** [performQualityAssessment]; the session's quality metric is set to
    the overall quality returned here. *)
Definition performQualityAssessment (pr : Printer) (session : ESession)
    (solutions : list Solution) : M Validation :=
  assessments ← assess_all solutions;
  timestamp ← Date_now;
  mret {| val_sessionId := es_id session;
          val_solutions :=
            zip_with (fun solution assessment =>
                        {| asol_solution := solution; asol_assessment := assessment |})
                     solutions assessments;
          val_overallQuality := calculateOverallQuality assessments;
          val_recommendations := generateQualityRecommendations pr assessments;
          val_timestamp := timestamp |}.

Definition generateImplementationRecommendations (analysis : Analysis) : list string :=
  let recommendations :=
    [ "Review the generated solution carefully before implementation";
      "Test thoroughly in a development environment first";
      "Consider the identified risks and mitigation strategies" ] in
  let recommendations :=
    if String.eqb (cx_level (an_complexity analysis)) "high"
       || String.eqb (cx_level (an_complexity analysis)) "very-high"
    then recommendations
         ++ [ "Break down implementation into smaller, manageable phases";
              "Consider pair programming or code review" ]
    else recommendations in
  let recommendations :=
    if (0 <? length (an_risks analysis))%nat
    then recommendations
         ++ [ "Implement additional safety measures for identified risks";
              "Have rollback plan ready before deployment" ]
    else recommendations in
  recommendations.

(** The callback of the [reduce] in [generateFinalOutput], on entries
    paired with their positions. *)
Definition better (best current : nat * AssessedSolution) : nat * AssessedSolution :=
  if Js.gt (as_score (asol_assessment current.2)) (as_score (asol_assessment best.2))
  then current else best.

(** [describeNeuralPathways]: the first line reads
    [session.analysis.neuralClassification.category], unguarded. *)
Definition describeNeuralPathways (pr : Printer) (session : FinishedSession) : M string :=
  analysis ← receiver (es_analysis (fs_session session));
  classification ← receiver (an_neuralClassification analysis);
  let pathways :=
    [ "Problem classification: " +:+ cl_category classification;
      "Agent coordination: " +:+ show_nat pr (length (fs_agents session))
        +:+ " specialized agents";
      "Pattern matching: " +:+ show_nat pr (length (an_patterns analysis))
        +:+ " patterns recognized";
      "Solution synthesis: " +:+ show_nat pr (length (fs_solutions session))
        +:+ " solutions generated" ] in
  mret (String.concat " → " pathways).

(** [generateFinalOutput], for the members of the result the
    orchestrator reads.  The [reduce] has no initial value: it throws
    on an empty array.  The member [insights] is built where the code
    builds it, for what building it can throw: it reads
    [session.analysis.patterns] and calls [describeNeuralPathways]. *)
Definition generateFinalOutput (pr : Printer) (session : FinishedSession)
    (validation : Validation) : M FinalOutput :=
  let solutions := zip (seq 0 (length (val_solutions validation))) (val_solutions validation) in
  match solutions with
  | [] => throw "TypeError: Reduce of empty array with no initial value"
  | first :: rest =>
      let bestSolution := fold_left better rest first in
      timestamp ← Date_now;
      let agentsUsed := fs_agents session in
      analysis ← receiver (es_analysis (fs_session session));
      let patternsMatched := map match_id (an_patterns analysis) in
      let learningsGenerated := length (val_solutions validation) in
      neuralPathways ← describeNeuralPathways pr session;
      let solution := asol_solution bestSolution.2 in
      let assessment := asol_assessment bestSolution.2 in
      mret {| fo_solution := solution;
              fo_implementation :=
                {| impl_approach := sol_approach solution;
                   impl_steps := sol_steps solution;
                   impl_files := Val (sol_files solution);
                   impl_code := sol_code solution;
                   impl_tests := sol_tests solution;
                   impl_documentation := sol_documentation solution |};
              fo_quality :=
                {| q_score := as_score assessment;
                   q_confidence := as_confidence assessment;
                   q_completeness := as_completeness assessment;
                   q_maintainability := as_maintainability assessment |};
              fo_recommendations := generateImplementationRecommendations analysis;
              fo_alternatives :=
                map (fun s => asol_solution s.2)
                    (List.filter (fun s => negb (Nat.eqb s.1 bestSolution.1)) solutions) |}
  end.

End QualityStage.

(** *** Vocabulary: draws, complete solutions *)

(** Every value of the random source lies in [0, 1], as those of
    [Math.random] do. *)
Definition draws_in_unit_interval (w : World) : Prop :=
  forall k, (0 <= random_source w k <= 1)%Q.

Definition has_all_artifacts (solution : Solution) : Prop :=
  Js.truthy_str (sol_code solution) = true
  /\ Js.truthy_str (sol_tests solution) = true
  /\ Js.truthy_str (sol_documentation solution) = true.

(** A printer for the samples: naturals in decimal.  The samples run
    in worlds whose draws for the generated texts are 0, where the
    only number printed into a text is 0.8 + 0 * 0.2. *)
Definition decimal_printer : Printer :=
  {| show_nat := pretty;
     show_number := fun _ => "0.8" |}.

(** A solution with code but neither tests nor documentation. *)
Definition bare_solution : Solution :=
  {| sol_id := "s-2";
     sol_approach := "AI-Generated Approach 2";
     sol_description := "Advanced solution using neural pattern recognition";
     sol_confidence := Num 0.8;
     sol_steps := [];
     sol_files := [];
     sol_code := Val "// code";
     sol_tests := Undefined;
     sol_documentation := Val "";
     sol_estimatedTime := Num 30;
     sol_complexity := "low" |}.

(** *** Vocabulary: scores of assessed solutions *)

Definition score_of (s : AssessedSolution) : number := as_score (asol_assessment s).

(** The score is a number, not [NaN]. *)
Definition scored (s : AssessedSolution) : Prop := score_of s <> NaN.

(** [below x y]: both are numbers and [x < y]; [not_above x y]: both
    are numbers and [x <= y]. *)
Definition below (x y : number) : Prop :=
  match x, y with Num a, Num b => (a < b)%Q | _, _ => False end.

Definition not_above (x y : number) : Prop :=
  match x, y with Num a, Num b => (a <= b)%Q | _, _ => False end.

(** A session whose analysis is present. *)
Definition sample_analysis : Analysis :=
  {| an_sessionId := "engine-session";
     an_timestamp := 0;
     an_semantic := {| sem_keyTerms := [];
                       sem_sentiment := "neutral";
                       sem_entities := [];
                       sem_intent := "unknown";
                       sem_complexity := "low" |};
     an_complexity := {| cx_score := Num 0;
                         cx_level := "low";
                         cx_factors := {| f_textLength := Num 0;
                                          f_technicalTerms := Num 0;
                                          f_codeSnippets := Num 0;
                                          f_stackTraces := Num 0;
                                          f_labels := Num 0;
                                          f_references := Num 0 |};
                         cx_estimatedEffort := Num 1;
                         cx_recommendedAgents := Num 2 |};
     an_patterns := [];
     an_domain := "general";
     an_priority := Num 5;
     an_solutionSpace := [];
     an_risks := [];
     an_neuralClassification := Undefined |}.

Definition analysed_session : ESession :=
  {| es_id := "engine-session";
     es_issue := plain_issue;
     es_status := "completed";
     es_analysis := Val sample_analysis;
     es_patternsRecognized := 0 |}.

(** The same analysis with its classification, and the session that
    carries it at the end of a run with two agents. *)
Definition classified_analysis : Analysis :=
  {| an_sessionId := an_sessionId sample_analysis;
     an_timestamp := an_timestamp sample_analysis;
     an_semantic := an_semantic sample_analysis;
     an_complexity := an_complexity sample_analysis;
     an_patterns := an_patterns sample_analysis;
     an_domain := an_domain sample_analysis;
     an_priority := an_priority sample_analysis;
     an_solutionSpace := an_solutionSpace sample_analysis;
     an_risks := an_risks sample_analysis;
     an_neuralClassification :=
       Val {| cl_category := "bug";
              cl_confidence := Num 60;
              cl_alternatives := [];
              cl_features := [] |} |}.

Definition classified_session : ESession :=
  {| es_id := "engine-session";
     es_issue := plain_issue;
     es_status := "completed";
     es_analysis := Val classified_analysis;
     es_patternsRecognized := 0 |}.

Definition finished_session : FinishedSession :=
  {| fs_session := classified_session;
     fs_agents := ["agent-1"; "agent-2"];
     fs_solutions := [complete_solution] |}.

Definition graded (solution : Solution) (score : Q) : AssessedSolution :=
  {| asol_solution := solution;
     asol_assessment := {| as_score := Num score;
                           as_confidence := Num 0.85;
                           as_metrics := {| m_completeness := Num 1;
                                            m_correctness := Num 0.8;
                                            m_maintainability := Num 0.75;
                                            m_performance := Num 0.8;
                                            m_security := Num 0.85;
                                            m_testability := Num 0.9;
                                            m_documentation := Num 0.85 |};
                           as_recommendations := [];
                           as_timestamp := 0;
                           as_completeness := Num 1;
                           as_maintainability := Num 0.75 |} |}.

(** Three assessed solutions; the second and the third share the
    highest score. *)
Definition sample_validation : Validation :=
  {| val_sessionId := "engine-session";
     val_solutions := [ graded bare_solution 0.8;
                        graded complete_solution 0.9;
                        graded bare_solution 0.9 ];
     val_overallQuality := Num (13 # 15);
     val_recommendations := [];
     val_timestamp := 0 |}.

(** Identifiers for the generated solutions, and a context without
    matched patterns. *)
Definition sample_uuid (index : nat) : string :=
  match index with
  | 0 => "solution-a"
  | 1 => "solution-b"
  | _ => "solution-c"
  end%nat.

Definition sample_context : GenerationContext :=
  {| gen_analysis := Val sample_analysis; gen_patterns := Val [] |}.

(** [a] scores at least as much as [b], both scores being numbers. *)
Definition category_score_ge (a b : ScoredCategory) : Prop :=
  not_above (sc_score b) (sc_score a).

(** ** Engine: collaboration and consensus *)

(** An agent (the member the collaboration reads) and the result of
    [executeAgentAnalysis]. *)
Record Agent : Type := { agent_id : string }.

Record AgentAnalysis : Type := {
  aa_agentId : string;
  aa_findings : list string;
  aa_recommendations : list string;
  aa_confidence : number;
  aa_timestamp : Z
}.

Record Collaboration : Type := {
  col_rounds : nat;
  col_discussions : list Discussion;
  col_emergentInsights : list string;
  col_convergence : Q
}.

Record ConsensusItem : Type := {
  ci_topic : string;
  ci_agreement : Q;
  ci_supportingAgents : Z
}.

Record Consensus : Type := {
  con_items : list ConsensusItem;
  con_overallConsensus : Q;
  con_readyForImplementation : bool;
  con_timestamp : Z
}.

(** [Math.random()] as the rational it returns, for members kept as
    rationals. *)
Definition Math_random_value : M Q := fun w =>
  Returned (random_source w (random_used w))
    {| random_source := random_source w;
       random_used := S (random_used w);
       clock_source := clock_source w;
       clock_used := clock_used w |}.

Module Collaboration.

(** [Set.prototype.add] on a set kept in insertion order. *)
Definition Set_add (topics : list string) (topic : string) : list string :=
  if Js.arr_includes topics topic then topics else topics ++ [topic].

Definition identifyDiscussionTopics (analyses : list AgentAnalysis) : list string :=
  fold_left
    (fun topics analysis =>
       fold_left
         (fun topics finding =>
            let topics :=
              if includes finding "complexity" then Set_add topics "complexity-assessment"
              else topics in
            let topics :=
              if includes finding "approach" then Set_add topics "solution-approach"
              else topics in
            let topics :=
              if includes finding "risk" then Set_add topics "risk-mitigation"
              else topics in
            let topics :=
              if includes finding "testing" then Set_add topics "testing-strategy"
              else topics in
            topics)
         (aa_findings analysis) topics)
    analyses [].

Definition extractEmergentInsights (discussions : list Discussion) : list string :=
  fold_left
    (fun insights discussion =>
       fold_left
         (fun insights insight =>
            if insight_consensus insight && Js.Qltb 0.8 (insight_confidence insight)
            then insights ++ ["Strong consensus on " +:+ insight_topic insight]
            else insights)
         (disc_insights discussion) insights)
    discussions [].

(** [topics.map(topic => ({ topic, consensus, confidence }))]: two
    calls of [Math.random] per topic, the one for [consensus] first. *)
Fixpoint discuss (topics : list string) : M (list Insight) :=
  match topics with
  | [] => mret []
  | topic :: rest =>
      r1 ← Math_random_value;
      r2 ← Math_random_value;
      others ← discuss rest;
      mret ({| insight_topic := topic;
               insight_consensus := Js.Qltb 0.3 r1;
               insight_confidence := (0.6 + r2 * 0.4)%Q |} :: others)
  end.

Definition simulateAgentDiscussion (agents : list Agent) (analyses : list AgentAnalysis)
    (round : nat) : M Discussion :=
  let participants := take (Nat.min 4 (length agents)) agents in
  let topics := identifyDiscussionTopics analyses in
  insights ← discuss topics;
  timestamp ← Date_now;
  mret {| disc_round := round + 1;
          disc_participants := map agent_id participants;
          disc_topics := topics;
          disc_insights := insights;
          disc_timestamp := timestamp |}.

(** The loop of [facilitateAgentCollaboration], from [round] on,
    [count] more times. *)
Fixpoint discussions_from (agents : list Agent) (analyses : list AgentAnalysis)
    (round count : nat) : M (list Discussion) :=
  match count with
  | O => mret []
  | S count' =>
      discussion ← simulateAgentDiscussion agents analyses round;
      rest ← discussions_from agents analyses (S round) count';
      mret (discussion :: rest)
  end.

(** [facilitateAgentCollaboration]; [Math.ceil(agents.length / 2)] is
    [(agents.length + 1) / 2] rounded down. *)
Definition facilitateAgentCollaboration (agents : list Agent)
    (analyses : list AgentAnalysis) : M Collaboration :=
  let collaborationRounds := Nat.min 3 ((length agents + 1) / 2) in
  discussions ← discussions_from agents analyses 0 collaborationRounds;
  mret {| col_rounds := collaborationRounds;
          col_discussions := discussions;
          col_emergentInsights := extractEmergentInsights discussions;
          col_convergence := Coordination.measureConvergence discussions |}.

(** [buildAgentConsensus].  The product under [Math.ceil] is exact
    here; the code's double product can round down onto a whole
    number (50 * 0.7000000000000001 is 35), so the statement about
    [supportingAgents] is "at least 70 %", not "more than". *)
Definition buildAgentConsensus (agents : list Agent) (collaboration : Collaboration)
    : M Consensus :=
  let consensusItems :=
    fold_left
      (fun consensusItems discussion =>
         fold_left
           (fun consensusItems insight =>
              if insight_consensus insight && Js.Qltb 0.7 (insight_confidence insight)
              then consensusItems
                   ++ [ {| ci_topic := insight_topic insight;
                           ci_agreement := insight_confidence insight;
                           ci_supportingAgents :=
                             Qceiling (inject_Z (Z.of_nat (length agents))
                                       * insight_confidence insight) |} ]
              else consensusItems)
           (disc_insights discussion) consensusItems)
      (col_discussions collaboration) [] in
  timestamp ← Date_now;
  mret {| con_items := consensusItems;
          con_overallConsensus := col_convergence collaboration;
          con_readyForImplementation := Js.Qltb 0.7 (col_convergence collaboration);
          con_timestamp := timestamp |}.

End Collaboration.

(** ** Engine: the running average of the resolution time *)

Record EngineMetrics : Type := {
  successfulResolutions : nat;
  averageResolutionTime : number
}.

Module EngineStatistics.

(** At start both metrics are 0. *)
Definition initial : EngineMetrics :=
  {| successfulResolutions := 0; averageResolutionTime := Num 0 |}.

Definition updateAverageResolutionTime (duration : Z) (metrics : EngineMetrics)
    : EngineMetrics :=
  let current := averageResolutionTime metrics in
  let count := Js.of_nat (successfulResolutions metrics) in
  {| successfulResolutions := successfulResolutions metrics;
     averageResolutionTime :=
       Js.div (Js.add (Js.mul current (Js.sub count (Num 1))) (Js.of_Z duration)) count |}.

(** The two statements that close a successful session:
    [successfulResolutions++] and the update of the average. *)
Definition session_succeeded (metrics : EngineMetrics) (duration : Z) : EngineMetrics :=
  updateAverageResolutionTime duration
    {| successfulResolutions := S (successfulResolutions metrics);
       averageResolutionTime := averageResolutionTime metrics |}.

End EngineStatistics.

(** *** Vocabulary: insights, topics, sums *)

Definition topic_names : list string :=
  ["complexity-assessment"; "solution-approach"; "risk-mitigation"; "testing-strategy"].

(** The insights that reached consensus. *)
Definition agreed (discussions : list Discussion) : list Insight :=
  List.filter insight_consensus (all_insights discussions).

(** The consensus item built from an insight, for [n] agents. *)
Definition item_of (n : nat) (insight : Insight) : ConsensusItem :=
  {| ci_topic := insight_topic insight;
     ci_agreement := insight_confidence insight;
     ci_supportingAgents :=
       Qceiling (inject_Z (Z.of_nat n) * insight_confidence insight) |}.

Definition Zsum (l : list Z) : Z := foldr Z.add 0%Z l.

Definition sample_agents : list Agent :=
  [ {| agent_id := "agent-1" |}; {| agent_id := "agent-2" |}; {| agent_id := "agent-3" |} ].

Definition sample_analyses : list AgentAnalysis :=
  [ {| aa_agentId := "agent-1";
       aa_findings := [ "Root cause identified in backend domain"; "Complexity level: low" ];
       aa_recommendations := [ "Conduct thorough impact analysis";
                               "Identify all stakeholders affected" ];
       aa_confidence := Num 0.8;
       aa_timestamp := 0 |};
    {| aa_agentId := "agent-2";
       aa_findings := [ "Implementation approach: general"; "Estimated effort: 1 hours" ];
       aa_recommendations := [ "Follow test-driven development approach";
                               "Implement with backward compatibility" ];
       aa_confidence := Num 0.8;
       aa_timestamp := 0 |} ].

(** The keyword that brings up each topic. *)
Definition topic_keywords : list (string * string) :=
  [ ("complexity", "complexity-assessment");
    ("approach", "solution-approach");
    ("risk", "risk-mitigation");
    ("testing", "testing-strategy") ].

(** Some finding of some analysis contains [keyword]. *)
Definition mentioned (analyses : list AgentAnalysis) (keyword : string) : Prop :=
  exists analysis finding,
    analysis ∈ analyses /\ finding ∈ aa_findings analysis
    /\ includes finding keyword = true.

(** What one finding adds. *)
Definition finding_adds (finding topic : string) : Prop :=
  exists keyword, (keyword, topic) ∈ topic_keywords /\ includes finding keyword = true.

(** The tests of [buildAgentConsensus] and [extractEmergentInsights]. *)
Definition firmly_agreed (insight : Insight) : bool :=
  insight_consensus insight && Js.Qltb 0.7 (insight_confidence insight).

Definition strongly_agreed (insight : Insight) : bool :=
  insight_consensus insight && Js.Qltb 0.8 (insight_confidence insight).

(** [solution] has the files, the tests, the documentation and the
    approach [generateSingleSolution] gives the solution of index
    [index], and non-empty code. *)
Definition generated_at (pr : Printer) (index : nat) (solution : Solution) : Prop :=
  sol_files solution
  = [ "solution-" +:+ show_nat pr (index + 1) +:+ ".js";
      "tests/solution-" +:+ show_nat pr (index + 1) +:+ ".test.js";
      "docs/solution-" +:+ show_nat pr (index + 1) +:+ ".md" ]
  /\ sol_approach solution = "AI-Generated Approach " +:+ show_nat pr (index + 1)
  /\ sol_tests solution = Val (SolutionGenerationNetwork.generateTests pr index)
  /\ sol_documentation solution
     = Val (SolutionGenerationNetwork.generateDocumentation pr index)
  /\ has_all_artifacts solution.

(** ** Engine: learning *)

Record Knowledge : Type := {
  kn_type : string;
  kn_domain : string;
  kn_pattern : string;
  kn_effectiveness : number;
  kn_timestamp : Z
}.

(** A learned pattern: the members [matchPatterns] reads later, and
    the two it does not. *)
Record LearnedPattern : Type := {
  lp_pattern : Pattern;
  lp_confidence : number;
  lp_timestamp : Z
}.

(** What [extract] returns; every entry is paired with its [id]. *)
Record Learnings : Type := {
  learn_patterns : list (string * LearnedPattern);
  learn_knowledge : list (string * Knowledge)
}.

(** The engine's memory: the option [learningEnabled], the maps
    [state.patterns] and [state.knowledge] in insertion order, and the
    metric [neuralPatterns]. *)
Record Memory : Type := {
  mem_learningEnabled : bool;
  mem_patterns : PatternStore;
  mem_knowledge : list (string * Knowledge);
  mem_neuralPatterns : nat
}.

(** [Map.prototype.set]: an existing key keeps its place. *)
Fixpoint Map_set {V} (store : list (string * V)) (key : string) (value : V)
    : list (string * V) :=
  match store with
  | [] => [(key, value)]
  | (k, v) :: rest =>
      if String.eqb k key then (k, value) :: rest
      else (k, v) :: Map_set rest key value
  end.

Module LearningOptimizationNetwork.

Definition createSignature (analysis : Analysis) : Signature :=
  {| sig_domain := Val (an_domain analysis);
     sig_complexity := Val (cx_level (an_complexity analysis));
     sig_keyTerms := Val (map kt_term (take 5 (sem_keyTerms (an_semantic analysis))));
     sig_category := match an_neuralClassification analysis with
                     | Val classification => Val (cl_category classification)
                     | _ => Undefined
                     end |}.

(** [context.validation.solutions[0]?.approach]. *)
Definition first_approach (validation : Validation) : nullable string :=
  match val_solutions validation with
  | [] => Undefined
  | solution :: _ => Val (sol_approach (asol_solution solution))
  end.

(** The loop over [context.validation.solutions]; [next] counts the
    identifiers drawn so far. *)
Fixpoint knowledge_from (uuid : nat -> string) (session : ESession)
    (solutions : list AssessedSolution) (next : nat) : M (list (string * Knowledge)) :=
  match solutions with
  | [] => mret []
  | solution :: rest =>
      analysis ← receiver (es_analysis session);
      timestamp ← Date_now;
      others ← knowledge_from uuid session rest (S next);
      mret ((uuid next,
             {| kn_type := "solution-pattern";
                kn_domain := an_domain analysis;
                kn_pattern := sol_approach (asol_solution solution);
                kn_effectiveness := as_score (asol_assessment solution);
                kn_timestamp := timestamp |}) :: others)
  end.

(** [extract]; [uuid i] is the [i]-th identifier [crypto.randomUUID()]
    returns during the call. *)
Definition extract (uuid : nat -> string) (session : ESession) (validation : Validation)
    : M Learnings :=
  patterns ←
    (if Js.gt (val_overallQuality validation) (Num 0.8)
     then
       analysis ← receiver (es_analysis session);
       timestamp ← Date_now;
       mret [ (uuid 0%nat,
               {| lp_pattern :=
                    {| pattern_type := "successful-approach";
                       pattern_signature := createSignature analysis;
                       pattern_approach := first_approach validation;
                       pattern_successRate := 1.0 |};
                  lp_confidence := val_overallQuality validation;
                  lp_timestamp := timestamp |}) ]
     else mret []);
  knowledge ← knowledge_from uuid session (val_solutions validation) (length patterns);
  mret {| learn_patterns := patterns; learn_knowledge := knowledge |}.

End LearningOptimizationNetwork.

Module Learning.

(** [integrateLearnedPatterns]; writing the two files cannot fail the
    call and is left out. *)
Definition integrateLearnedPatterns (uuid : nat -> string) (memory : Memory)
    (session : ESession) (validation : Validation) : M Memory :=
  if negb (mem_learningEnabled memory) then mret memory
  else
    learnings ← LearningOptimizationNetwork.extract uuid session validation;
    mret {| mem_learningEnabled := mem_learningEnabled memory;
            mem_patterns :=
              fold_left (fun store pattern => Map_set store pattern.1 (lp_pattern pattern.2))
                        (learn_patterns learnings) (mem_patterns memory);
            mem_knowledge :=
              fold_left (fun store knowledge => Map_set store knowledge.1 knowledge.2)
                        (learn_knowledge learnings) (mem_knowledge memory);
            mem_neuralPatterns :=
              mem_neuralPatterns memory + length (learn_patterns learnings) |}.

End Learning.

(** The pattern a successful session leaves in the store. *)
Definition successful_approach (analysis : Analysis) (approach : nullable string) : Pattern :=
  {| pattern_type := "successful-approach";
     pattern_signature := LearningOptimizationNetwork.createSignature analysis;
     pattern_approach := approach;
     pattern_successRate := 1.0 |}.

Definition empty_memory : Memory :=
  {| mem_learningEnabled := true;
     mem_patterns := [];
     mem_knowledge := [];
     mem_neuralPatterns := 0 |}.
(** * Properties *)

(** ** Arithmetic on [number] *)

Lemma Qltb_true (x y : Q) : Js.Qltb x y = true <-> (x < y)%Q.
Proof.
  unfold Js.Qltb. rewrite negb_true_iff.
  split.
  - intros H. apply Qnot_le_lt. intros Hle.
    apply Qle_bool_iff in Hle. congruence.
  - intros H. destruct (Qle_bool y x) eqn:E; [|reflexivity].
    apply Qle_bool_iff in E. exfalso. exact (Qlt_not_le _ _ H E).
Qed.

Lemma Qltb_false (x y : Q) : Js.Qltb x y = false <-> (y <= x)%Q.
Proof.
  unfold Js.Qltb. rewrite negb_false_iff. apply Qle_bool_iff.
Qed.

Lemma at_most_add a b x y :
  at_most a x -> at_most b y -> at_most (a + b) (Js.add x y).
Proof.
  destruct x, y; simpl; auto. intros. lra.
Qed.

Lemma at_most_weaken a b x : (a <= b)%Q -> at_most a x -> at_most b x.
Proof. destruct x; simpl; auto. intros. lra. Qed.

Lemma at_most_not_gt b c x : (b <= c)%Q -> at_most b x -> Js.gt x (Num c) = false.
Proof.
  destruct x; simpl; auto. intros Hbc Hq.
  apply Qltb_false. lra.
Qed.

Lemma at_most_div_pos b d x :
  (0 < d)%Q -> at_most b x -> at_most (b / d) (Js.div x (Num d)).
Proof.
  intros Hd. destruct x; simpl; auto.
  destruct (Qeq_bool d 0) eqn:E; simpl; auto.
  intros Hq. apply Qmult_le_compat_r; [exact Hq|].
  apply Qlt_le_weak, Qinv_lt_0_compat, Hd.
Qed.

(** ** [calculateSimilarity] never reaches the match threshold *)

Lemma complexity_term_at_most (d : number) :
  at_most 0.2 (Js.mul (Js.Math_max (Num 0) (Js.sub (Num 1) (Js.div (Js.Math_abs d) (Num 3)))) (Num 0.2)).
Proof.
  destruct d as [q|]; simpl; auto.
  assert (H : (0 <= Qabs q)%Q) by apply Qabs_nonneg.
  assert (Hm : (Qmax 0 (1 - Qabs q / 3) <= 1)%Q).
  { apply Q.max_lub; [lra|].
    assert (0 <= Qabs q / 3)%Q.
    { apply Qle_shift_div_l; lra. }
    lra. }
  lra.
Qed.

Lemma filter_length_le {A} (f : A -> bool) (l : list A) :
  (length (List.filter f l) <= length l)%nat.
Proof.
  induction l as [|a l IH]; simpl; [lia|]. destruct (f a); simpl; lia.
Qed.

Lemma overlap_term_at_most (terms1 terms2 : list string) :
  at_most 0.3
    (Js.mul (Js.div (Js.of_nat (length (List.filter (fun term => Js.arr_includes terms2 term) terms1)))
                    (Js.Math_max (Js.of_nat (length terms1)) (Js.of_nat (length terms2))))
            (Num 0.3)).
Proof.
  unfold Js.of_nat, Js.Math_max, Js.div.
  set (o := length (List.filter _ _)).
  assert (Ho : (o <= length terms1)%nat) by apply filter_length_le.
  set (m := Qmax _ _).
  destruct (Qeq_bool m 0) eqn:E; simpl; auto.
  assert (Hm1 : (inject_Z (Z.of_nat (length terms1)) <= m)%Q) by apply Q.le_max_l.
  assert (Ho1 : (inject_Z (Z.of_nat o) <= inject_Z (Z.of_nat (length terms1)))%Q).
  { rewrite <- Zle_Qle. lia. }
  assert (H0 : (0 <= inject_Z (Z.of_nat (length terms1)))%Q).
  { replace 0%Q with (inject_Z 0) by reflexivity. rewrite <- Zle_Qle. lia. }
  assert (Hmpos : (0 < m)%Q).
  { destruct (Qlt_le_dec 0 m) as [?|Hle]; [assumption|].
    assert (m == 0)%Q by lra. apply Qeq_bool_iff in H. congruence. }
  assert (Hr : (inject_Z (Z.of_nat o) / m <= 1)%Q).
  { apply Qle_shift_div_r; [assumption|]. lra. }
  lra.
Qed.

Ltac at_most_sum :=
  lazymatch goal with
  | |- at_most _ (Js.add _ _) => apply at_most_add; at_most_sum
  | |- at_most _ (Num _) => simpl; apply Qle_refl
  | |- at_most _ _ => first [eassumption | apply overlap_term_at_most]
  end.

Lemma calculateSimilarity_at_most (issue1 : Issue) (signature : Signature) :
  at_most 0.25 (Engine.calculateSimilarity issue1 signature).
Proof.
  unfold Engine.calculateSimilarity. cbv zeta.
  pose proof (complexity_term_at_most
                (Js.sub (Engine.complexityMap (issue_complexity issue1))
                        (Engine.complexityMap (sig_complexity signature)))) as Hc.
  change (Js.add (Js.add (Js.add (Js.add (Num 0) (Num 1)) (Num 1)) (Num 1)) (Num 1))
    with (Num (0 + 1 + 1 + 1 + 1)).
  destruct (Js.strict_eq (issue_domain issue1) (sig_domain signature));
    [|destruct (Js.truthy_str (issue_domain issue1) && Js.truthy_str (sig_domain signature))];
    (destruct (issue_keyTerms issue1) as [| |terms1];
     [| |destruct (sig_keyTerms signature) as [| |terms2]]);
    destruct (Js.strict_eq (issue_category issue1) (sig_category signature));
    (eapply at_most_weaken;
     [|apply at_most_div_pos; [reflexivity|at_most_sum]]);
    apply Qle_bool_iff; reflexivity.
Qed.

(** Whatever the issue and the signature, the score
    [calculateSimilarity] returns fails the test [similarity > 0.7]. *)
Lemma calculateSimilarity_below_threshold (issue1 : Issue) (signature : Signature) :
  Js.gt (Engine.calculateSimilarity issue1 signature) (Num 0.7) = false.
Proof.
  apply (at_most_not_gt 0.25); [lra|apply calculateSimilarity_at_most].
Qed.

Lemma matchPatternsWith_nothing_matches scorer issue (store : PatternStore) :
  (forall sg, Js.gt (scorer issue sg) (Num 0.7) = false) ->
  Engine.matchPatternsWith scorer issue store = [].
Proof.
  intros Hs. unfold Engine.matchPatternsWith.
  assert (H : forall acc, fold_left
     (fun patterns entry =>
        let '(patternId, pattern) := entry in
        let similarity := scorer issue (pattern_signature pattern) in
        if Js.gt similarity (Num 0.7)
        then patterns ++ [ {| match_id := patternId;
                              match_similarity := similarity;
                              match_pattern := pattern;
                              match_confidence :=
                                Js.mul similarity (Num (pattern_successRate pattern)) |} ]
        else patterns) store acc = acc).
  { induction store as [|[id p] store IH]; intros acc; simpl; [reflexivity|].
    rewrite Hs. apply IH. }
  rewrite H. reflexivity.
Qed.

(** C2: for every issue and every content of the pattern store,
    [matchPatterns] returns the empty list, because the score that
    [calculateSimilarity] computes (a sum of at most 1.0 divided by the
    factor count 4, or [NaN]) never satisfies [similarity > 0.7]. *)
Theorem matchPatterns_always_empty (issue : Issue) (store : PatternStore) :
  Engine.matchPatterns issue store = []
  /\ (forall signature : Signature,
        Js.gt (Engine.calculateSimilarity issue signature) (Num 0.7) = false
        /\ at_most 0.25 (Engine.calculateSimilarity issue signature)).
Proof.
  split.
  - apply matchPatternsWith_nothing_matches. intros sg.
    apply calculateSimilarity_below_threshold.
  - intros signature. split.
    + apply calculateSimilarity_below_threshold.
    + apply calculateSimilarity_at_most.
Qed.

(** The highest score there is: all four components agree. *)
Example calculateSimilarity_best_case :
  num_is (Engine.calculateSimilarity twin_issue twin_signature) 0.25.
Proof. reflexivity. Qed.

(** An issue as the tracker delivers it has no [complexity]: the score
    is [NaN]. *)
Example calculateSimilarity_tracker_issue :
  Engine.calculateSimilarity plain_issue twin_signature = NaN.
Proof. reflexivity. Qed.

(** ** [Array.prototype.sort] and the loop of [matchPatterns] *)

Section SortFacts.
Context {A : Type} (cmp : A -> A -> number).

Lemma sort_insert_perm (x : A) (l : list A) : Js.sort_insert cmp x l ≡ₚ x :: l.
Proof.
  induction l as [|y l IH]; simpl; [reflexivity|].
  destruct (Js.keeps_before (cmp x y)); [reflexivity|].
  rewrite IH. apply perm_swap.
Qed.

Lemma Array_sort_perm (l : list A) : Js.Array_sort cmp l ≡ₚ l.
Proof.
  induction l as [|x l IH]; simpl; [reflexivity|].
  unfold Js.Array_sort in *. simpl. rewrite sort_insert_perm. by rewrite IH.
Qed.

Lemma Array_sort_Forall (P : A -> Prop) (l : list A) :
  Forall P l -> Forall P (Js.Array_sort cmp l).
Proof. intros H. by rewrite Array_sort_perm. Qed.

(** When the comparator decides a total preorder [R] on the elements
    of the array, the result is sorted for [R]. *)
Variable R : A -> A -> Prop.
Variable ok : A -> Prop.
Hypothesis R_trans : forall a b c, R a b -> R b c -> R a c.
Hypothesis cmp_before : forall a b, ok a -> ok b -> Js.keeps_before (cmp a b) = true -> R a b.
Hypothesis cmp_after : forall a b, ok a -> ok b -> Js.keeps_before (cmp a b) = false -> R b a.

Lemma sort_insert_sorted (x : A) (l : list A) :
  ok x -> Forall ok l -> StronglySorted R l -> StronglySorted R (Js.sort_insert cmp x l).
Proof.
  intros Hx Hok Hs. induction Hs as [|y l Hs IH Hy]; simpl.
  - repeat constructor.
  - apply Forall_cons in Hok as [Hoky Hok].
    destruct (Js.keeps_before (cmp x y)) eqn:E.
    + constructor; [by constructor|].
      constructor; [by apply cmp_before|].
      eapply Forall_impl; [exact Hy|]. intros z Hz. simpl in Hz.
      eapply R_trans; [|exact Hz]. by apply cmp_before.
    + constructor; [by apply IH|].
      rewrite sort_insert_perm. constructor; [by apply cmp_after|exact Hy].
Qed.

Lemma Array_sort_sorted (l : list A) :
  Forall ok l -> StronglySorted R (Js.Array_sort cmp l).
Proof.
  induction l as [|x l IH]; intros Hok; [constructor|].
  apply Forall_cons in Hok as [Hx Hok].
  unfold Js.Array_sort in *. simpl.
  apply sort_insert_sorted; [exact Hx| |by apply IH].
  by apply (Array_sort_Forall ok).
Qed.

End SortFacts.

Lemma matchPatternsWith_unfold scorer issue (store : PatternStore) :
  Engine.matchPatternsWith scorer issue store =
  Js.Array_sort (fun a b => Js.sub (match_confidence b) (match_confidence a))
    (omap (candidate scorer issue) store).
Proof.
  unfold Engine.matchPatternsWith. f_equal.
  set (f := fun (patterns : list Match) (entry : string * Pattern) => _).
  assert (H : forall acc, fold_left f store acc = acc ++ omap (candidate scorer issue) store).
  { induction store as [|[id p] store IH]; intros acc; simpl.
    - by rewrite app_nil_r.
    - rewrite IH. unfold candidate at 2. simpl.
      destruct (Js.gt _ _); [by rewrite <- app_assoc|reflexivity]. }
  apply (H []).
Qed.

Lemma candidate_well_scored scorer issue (store : PatternStore) :
  Forall well_scored (omap (candidate scorer issue) store).
Proof.
  apply Forall_forall. intros m Hm.
  apply list_elem_of_omap in Hm as ([id p] & _ & Hc).
  unfold candidate in Hc. simpl in Hc.
  destruct (Js.gt _ _) eqn:E; [|discriminate].
  injection Hc as <-. by split.
Qed.

Lemma well_scored_confidence (m : Match) :
  well_scored m -> exists q, match_confidence m = Num q.
Proof.
  intros [Hg Hc]. rewrite Hc.
  destruct (match_similarity m) as [s|]; [|discriminate]. by eexists.
Qed.

Lemma matchPatternsWith_sorted scorer issue (store : PatternStore) :
  Forall well_scored (Engine.matchPatternsWith scorer issue store)
  /\ StronglySorted confidence_ge (Engine.matchPatternsWith scorer issue store).
Proof.
  rewrite matchPatternsWith_unfold.
  pose proof (candidate_well_scored scorer issue store) as Hw.
  split; [by apply Array_sort_Forall|].
  apply (Array_sort_sorted _ confidence_ge well_scored); [| | |exact Hw].
  - intros a b c. unfold confidence_ge.
    destruct (match_confidence a), (match_confidence b), (match_confidence c);
      try tauto. intros. lra.
  - intros a b Ha Hb.
    destruct (well_scored_confidence a Ha) as [x Hx].
    destruct (well_scored_confidence b Hb) as [y Hy].
    unfold confidence_ge. rewrite Hx, Hy. simpl.
    intros H. apply Qle_bool_iff in H. lra.
  - intros a b Ha Hb.
    destruct (well_scored_confidence a Ha) as [x Hx].
    destruct (well_scored_confidence b Hb) as [y Hy].
    unfold confidence_ge. rewrite Hx, Hy. simpl.
    intros H. destruct (Qle_bool (y - x) 0) eqn:E; [discriminate|].
    destruct (Qlt_le_dec x y) as [Hlt|Hle]; [lra|].
    assert (Hc : (y - x <= 0)%Q) by lra.
    apply Qle_bool_iff in Hc. congruence.
Qed.

Lemma matchPatterns_threshold_and_order (issue : Issue) (store : PatternStore) :
  Forall (fun m => Js.gt (match_similarity m) (Num 0.7) = true)
         (Engine.matchPatterns issue store)
  /\ descending_by_confidence (Engine.matchPatterns issue store).
Proof.
  destruct (matchPatternsWith_sorted Engine.calculateSimilarity issue store)
    as [Hw Hs].
  unfold Engine.matchPatterns, descending_by_confidence.
  repeat split; [| |exact Hs];
    (eapply Forall_impl; [exact Hw|]; by intros m [H1 H2]).
Qed.

(** ** Convergence of the discussion rounds *)

(** C6, as stated, fails.  With consensus at 0.9 on one topic and no
    consensus on the other, the code returns 0.9 / 2, not the mean 0.9
    over the topics that reached consensus; and with topics but no
    consensus at all it returns 0, not 0.5. *)
Lemma convergence_is_not_the_consensus_mean :
  (Coordination.measureConvergence split_round == 0.45)%Q
  /\ (convergence_as_specified split_round == 0.9)%Q
  /\ ~ (Coordination.measureConvergence split_round
        == convergence_as_specified split_round)%Q
  /\ (Coordination.measureConvergence unconvinced_round == 0)%Q
  /\ (convergence_as_specified unconvinced_round == 0.5)%Q.
Proof.
  split; [reflexivity|]. split; [reflexivity|].
  split; [intros H; vm_compute in H; discriminate|].
  split; reflexivity.
Qed.

Lemma measureConvergence_inner (insights : list Insight) (s : Q) (n : nat) :
  exists s',
    fold_left tally_insight insights (s, n) = (s', (n + length insights)%nat)
    /\ (s' == s + Qsum (map insight_confidence (List.filter insight_consensus insights)))%Q.
Proof.
  revert s n. induction insights as [|i insights IH]; intros s n.
  - exists s. split; [simpl; f_equal; lia|]. unfold Qsum. simpl. lra.
  - change (fold_left tally_insight (i :: insights) (s, n))
      with (fold_left tally_insight insights (tally_insight (s, n) i)).
    unfold tally_insight at 2. simpl List.filter.
    destruct (insight_consensus i).
    + destruct (IH (s + insight_confidence i)%Q (S n)) as (s' & -> & Hs').
      exists s'. split; [simpl; f_equal; lia|].
      rewrite Hs'. unfold Qsum. simpl. lra.
    + destruct (IH s (S n)) as (s' & -> & Hs').
      exists s'. split; [simpl; f_equal; lia|]. exact Hs'.
Qed.

Lemma Qsum_app (l1 l2 : list Q) : (Qsum (l1 ++ l2) == Qsum l1 + Qsum l2)%Q.
Proof.
  induction l1 as [|x l1 IH]; unfold Qsum in *; simpl; [lra|].
  rewrite IH. lra.
Qed.

Lemma measureConvergence_outer (discussions : list Discussion) (s : Q) (n : nat) :
  exists s',
    fold_left (fun acc discussion => fold_left tally_insight (disc_insights discussion) acc)
      discussions (s, n) = (s', (n + length (all_insights discussions))%nat)
    /\ (s' == s + Qsum (map insight_confidence
                          (List.filter insight_consensus (all_insights discussions))))%Q.
Proof.
  revert s n. induction discussions as [|d discussions IH]; intros s n.
  - exists s. split; [simpl; f_equal; lia|]. unfold Qsum. simpl. lra.
  - simpl fold_left.
    destruct (measureConvergence_inner (disc_insights d) s n) as (s1 & -> & Hs1).
    destruct (IH s1 (n + length (disc_insights d))%nat) as (s2 & -> & Hs2).
    exists s2. split.
    + f_equal. simpl. rewrite length_app. lia.
    + rewrite Hs2, Hs1. simpl all_insights.
      rewrite List.filter_app, map_app, Qsum_app. lra.
Qed.

(** C6, amended: the convergence score is the sum of the confidences of
    the insights flagged as consensus (whatever their confidence),
    divided by the number of all insights of all rounds; it is 0.5
    only when the rounds hold no insight at all. *)
Theorem measureConvergence_value (discussions : list Discussion) :
  (Coordination.measureConvergence discussions ==
   if (0 <? length (all_insights discussions))%nat
   then Qsum (map insight_confidence
                (List.filter insight_consensus (all_insights discussions)))
        / inject_Z (Z.of_nat (length (all_insights discussions)))
   else 0.5)%Q.
Proof.
  assert (E : Coordination.measureConvergence discussions =
              let '(convergenceScore, totalInsights) :=
                fold_left (fun acc discussion =>
                             fold_left tally_insight (disc_insights discussion) acc)
                          discussions (0%Q, 0%nat) in
              if (0 <? totalInsights)%nat
              then (convergenceScore / inject_Z (Z.of_nat totalInsights))%Q
              else 0.5%Q) by reflexivity.
  rewrite E. clear E.
  destruct (measureConvergence_outer discussions 0%Q 0%nat) as (s' & -> & Hs').
  simpl. destruct (0 <? length (all_insights discussions))%nat; [|reflexivity].
  rewrite Hs'. apply Qdiv_comp; [lra|reflexivity].
Qed.

(** ** Recommendations of the quality assessment *)

(** C7, as stated, fails: a solution with code, tests and
    documentation, assessed when the random source returns 0, has a
    maintainability of 0.75, below 0.8, and gets no recommendation. *)
Lemma no_recommendation_for_maintainability :
  match QualityAssessmentNetwork.assess complete_solution quiet_world with
  | Returned a _ =>
      as_recommendations a = []
      /\ num_is (m_maintainability (as_metrics a)) 0.75
      /\ below_threshold (m_maintainability (as_metrics a)) = true
      /\ dimensions_below (as_metrics a) = 1%nat
      /\ length (as_recommendations a) <> dimensions_below (as_metrics a)
  | Thrown _ _ => False
  end.
Proof.
  vm_compute. repeat split; discriminate.
Qed.

Ltac absent_note H :=
  exfalso; repeat (apply elem_of_cons in H as [H|H]; [discriminate H|]);
  exact (proj1 (elem_of_nil _) H).

Ltac note_iff :=
  let H := fresh "H" in
  split; intros H;
  [ first [reflexivity | absent_note H]
  | first [discriminate H
          | repeat first [apply list_elem_of_here | apply list_elem_of_further]] ].

Lemma generateRecommendations_spec (metrics : Metrics) :
  let recommendations := QualityAssessmentNetwork.generateRecommendations metrics in
  ("Add missing implementation components" ∈ recommendations
     <-> below_threshold (m_completeness metrics) = true)
  /\ ("Improve test coverage and quality" ∈ recommendations
     <-> below_threshold (m_testability metrics) = true)
  /\ ("Enhance documentation and examples" ∈ recommendations
     <-> below_threshold (m_documentation metrics) = true)
  /\ NoDup recommendations
  /\ length recommendations = checked_dimensions_below metrics.
Proof.
  unfold QualityAssessmentNetwork.generateRecommendations, checked_dimensions_below,
    below_threshold.
  cbv zeta. simpl List.filter.
  destruct (Js.lt (m_completeness metrics) (Num 0.8));
    destruct (Js.lt (m_testability metrics) (Num 0.8));
    destruct (Js.lt (m_documentation metrics) (Num 0.8)); simpl;
    (split; [|split; [|split; [|split]]];
     [ note_iff | note_iff | note_iff
     | repeat (constructor; [let H := fresh "H" in intros H; absent_note H|]); constructor
     | reflexivity ]).
Qed.

(** C7, amended: every assessment returns, and its recommendations are
    one note for each of the three dimensions completeness,
    testability and documentation that is below 0.8, and nothing else;
    correctness, maintainability, performance and security never add
    one. *)
Theorem assess_recommendations (solution : Solution) (w : World) :
  exists a w',
    QualityAssessmentNetwork.assess solution w = Returned a w'
    /\ ("Add missing implementation components" ∈ as_recommendations a
        <-> below_threshold (m_completeness (as_metrics a)) = true)
    /\ ("Improve test coverage and quality" ∈ as_recommendations a
        <-> below_threshold (m_testability (as_metrics a)) = true)
    /\ ("Enhance documentation and examples" ∈ as_recommendations a
        <-> below_threshold (m_documentation (as_metrics a)) = true)
    /\ NoDup (as_recommendations a)
    /\ length (as_recommendations a) = checked_dimensions_below (as_metrics a).
Proof.
  unfold QualityAssessmentNetwork.assess.
  eexists. eexists. split; [reflexivity|].
  cbn [as_recommendations as_metrics].
  apply generateRecommendations_spec.
Qed.

(** ** Worker count of the planner *)

Lemma Qmin_inject_Z (a b : Z) : (Qmin (inject_Z a) (inject_Z b) == inject_Z (Z.min a b))%Q.
Proof.
  destruct (Z.le_gt_cases a b) as [H|H].
  - rewrite Z.min_l by exact H. apply Q.min_l. by rewrite <- Zle_Qle.
  - rewrite Z.min_r by lia. apply Q.min_r. rewrite <- Zle_Qle. lia.
Qed.

Lemma recommended_for_tier (t : Tier) :
  Js.Math_max (Num 2)
    (Js.Math_ceil (AgentCoordinationNetwork.complexityToAgentCount (tier_name t)))
  = Num (inject_Z (tier_table t)).
Proof. destruct t; reflexivity. Qed.

Lemma planned_workers_value (t : Tier) (maxAgents : Z) (domain : nullable string) :
  planned_workers t maxAgents domain = Z.max 0 (Z.min (tier_table t) maxAgents).
Proof.
  unfold planned_workers, AgentCoordinationNetwork.generateStrategy.
  cbn [st_agents ctx_complexity ctx_maxAgents].
  rewrite length_map, length_seq, recommended_for_tier.
  unfold Js.of_Z, Js.Math_min, AgentCoordinationNetwork.loop_count.
  rewrite (Qceiling_comp _ _ (Qmin_inject_Z _ _)), Qceiling_Z.
  lia.
Qed.

(** C9, as stated, fails when [maxAgents] is below 2: the cap is
    applied last, so with [maxAgents = 1] the planner returns one
    worker for the tier [low], outside [2, maxWorkers]. *)
Lemma one_worker_when_capped_at_one :
  planned_workers low 1 Undefined = 1%Z
  /\ ~ (2 <= planned_workers low 1 Undefined <= 1)%Z.
Proof.
  split; [reflexivity|]. intros [H _]. vm_compute in H. by apply H.
Qed.

(** C9, amended: for every complexity tier and every [maxAgents] of at
    least 2, the planner returns a worker count within
    [2, maxAgents], namely the smaller of the tier's table entry and
    [maxAgents]; so for [maxAgents >= 8] it is the table entry:
    low -> 2, medium -> 4, high -> 6, very-high -> 8. *)
Theorem planned_workers_in_range (t : Tier) (maxAgents : Z) (domain : nullable string) :
  (2 <= maxAgents)%Z ->
  (2 <= planned_workers t maxAgents domain <= maxAgents)%Z
  /\ planned_workers t maxAgents domain = Z.min (tier_table t) maxAgents
  /\ ((8 <= maxAgents)%Z -> planned_workers t maxAgents domain = tier_table t).
Proof.
  intros H. rewrite planned_workers_value.
  destruct t; simpl tier_table; lia.
Qed.

Lemma planned_workers_in_range_witness :
  (2 <= planned_workers high 15 (Val "backend") <= 15)%Z
  /\ planned_workers high 15 (Val "backend") = 6%Z.
Proof.
  assert (H2 : (2 <= 15)%Z) by lia.
  assert (H8 : (8 <= 15)%Z) by lia.
  destruct (planned_workers_in_range high 15 (Val "backend") H2) as (Hr & _ & Ht).
  split; [exact Hr|exact (Ht H8)].
Defined.

(** ** The pull-request gate *)

Lemma gt_exceeds (x : number) (q : Q) : Js.gt x (Num q) = true <-> exceeds x q.
Proof.
  destruct x as [p|]; simpl; [apply Qltb_true|]. split; [discriminate|tauto].
Qed.

Lemma shouldCreatePR_iff (result : ProcessedResult) :
  HiveMindOrchestrator.shouldCreatePR result = true
  <-> exceeds (q_score (pr_quality result)) 0.8
      /\ exceeds (q_completeness (pr_quality result)) 0.9
      /\ (0 < length (art_files (pr_artifacts result)))%nat.
Proof.
  unfold HiveMindOrchestrator.shouldCreatePR.
  rewrite !andb_true_iff, !gt_exceeds, Nat.ltb_lt. tauto.
Qed.

Lemma publishToGitHub_trace opts github now session result :
  (HiveMindOrchestrator.publishToGitHub opts github now session result).2
  = match gh_createComment github with
    | ApiError _ _ => [CommentPosted (os_issueNumber session)]
    | ApiOk _ =>
        [CommentPosted (os_issueNumber session)]
        ++ (HiveMindOrchestrator.addLabelsToIssue github session result).2
        ++ (if autoCreatePR opts && HiveMindOrchestrator.shouldCreatePR result
            then [PullRequestRequested (os_issueNumber session)] else [])
    end.
Proof.
  unfold HiveMindOrchestrator.publishToGitHub.
  destruct (gh_createComment github) as [c|message status]; [|reflexivity].
  destruct (HiveMindOrchestrator.addLabelsToIssue github session result) as [labels evs].
  destruct (autoCreatePR opts && HiveMindOrchestrator.shouldCreatePR result).
  - unfold HiveMindOrchestrator.createPullRequest.
    destruct (gh_openPullRequest github) as [[number url]|msg st];
      [|destruct (st =? 422)%Z]; cbn [fst snd]; by rewrite <- app_assoc.
  - cbn [snd]. by rewrite app_nil_r.
Qed.

Lemma addLabelsToIssue_trace github session result :
  exists labels,
    (HiveMindOrchestrator.addLabelsToIssue github session result).2
    = [LabelsAdded (os_issueNumber session) labels].
Proof.
  unfold HiveMindOrchestrator.addLabelsToIssue.
  destruct (gh_addLabels github); cbn [snd]; by eexists.
Qed.

Lemma publishToGitHub_events opts github now session result :
  pull_request_requested
    (HiveMindOrchestrator.publishToGitHub opts github now session result).2
  <-> (exists c, gh_createComment github = ApiOk c)
      /\ autoCreatePR opts = true
      /\ HiveMindOrchestrator.shouldCreatePR result = true.
Proof.
  rewrite publishToGitHub_trace. unfold pull_request_requested.
  destruct (addLabelsToIssue_trace github session result) as [labels ->].
  destruct (gh_createComment github) as [c|message status].
  - destruct (autoCreatePR opts), (HiveMindOrchestrator.shouldCreatePR result);
      cbn [andb app]; split.
    all: try (intros (_ & Ha & Hs); first [discriminate Ha | discriminate Hs]).
    all: try (intros [n Hn];
              repeat (apply elem_of_cons in Hn as [Hn|Hn]; [discriminate Hn|]);
              exfalso; exact (proj1 (elem_of_nil _) Hn)).
    + intros _. split; [by exists c|by split].
    + intros _. exists (os_issueNumber session).
      apply list_elem_of_further, list_elem_of_further, list_elem_of_here.
  - split.
    + intros [n Hn]. apply elem_of_cons in Hn as [Hn|Hn]; [discriminate Hn|].
      exfalso. exact (proj1 (elem_of_nil _) Hn).
    + intros ([c Hc] & _). discriminate Hc.
Qed.




(** ** The capacity check *)

(** C8: a submission made while the number of active sessions is at
    least [maxConcurrentSessions] is rejected with the capacity error
    before anything else happens: no request is sent, no session or
    engine is registered, nothing is persisted, and the orchestrator,
    its active sessions included, is left as it was.  (The call's
    fresh identifier names no active session.) *)
Theorem capacity_rejection tables (orch : Orchestrator) (issueData : Issue) (env : CallEnv) :
  (maxConcurrentSessions (options orch) <= Z.of_nat (size (activeSessions orch)))%Z ->
  activeSessions orch !! env_uuid env = None ->
  HiveMindOrchestrator.resolveIssue tables orch issueData env
  = (Rejected MaximumConcurrentSessionsReached, orch).
Proof.
  intros Hfull Hfresh.
  unfold HiveMindOrchestrator.resolveIssue, HiveMindOrchestrator.resolveIssue_try.
  cbv zeta.
  destruct (Z.leb_spec (maxConcurrentSessions (options orch))
                       (Z.of_nat (size (activeSessions orch)))) as [_|Hlt]; [|lia].
  by rewrite Hfresh.
Qed.

Lemma capacity_rejection_witness :
  HiveMindOrchestrator.resolveIssue sample_tables busy_orchestrator plain_issue next_call
  = (Rejected MaximumConcurrentSessionsReached, busy_orchestrator).
Proof.
  apply capacity_rejection.
  - vm_compute. discriminate.
  - reflexivity.
Defined.

(** Below capacity the same call goes on: it fetches the issue,
    registers the session and the engine, runs the engine, publishes,
    persists and cleans up. *)
Example accepted_call_trace :
  events (HiveMindOrchestrator.resolveIssue sample_tables idle_orchestrator plain_issue
            successful_call).2
  = [ IssueFetched 1; SessionRegistered "session-2"; EngineCreated "session-2";
      HiveMindSpawned "session-2"; CommentPosted 1;
      LabelsAdded 1 [ PlainLabel "hive-mind-analyzed"; PlainLabel "ai-solution-ready";
                      QualityLabel (Num 90); PlainLabel "complexity-low";
                      PlainLabel "ai-generated" ];
      PullRequestRequested 1; ResultsPersisted "session-2" "completed";
      SessionRemoved "session-2"; EngineRemoved "session-2" ].
Proof. vm_compute. reflexivity. Qed.

Lemma below_capacity_fetches tables (orch : Orchestrator) (issueData : Issue) (env : CallEnv) :
  (Z.of_nat (size (activeSessions orch)) < maxConcurrentSessions (options orch))%Z ->
  exists later,
    events (HiveMindOrchestrator.resolveIssue tables orch issueData env).2
    = events orch ++ IssueFetched (issue_number issueData) :: later.
Proof.
  intros Hfree.
  unfold HiveMindOrchestrator.resolveIssue, HiveMindOrchestrator.resolveIssue_try.
  cbv zeta.
  destruct (Z.leb_spec (maxConcurrentSessions (options orch))
                       (Z.of_nat (size (activeSessions orch)))) as [Hle|_]; [lia|].
  destruct (gh_fetchIssue (env_github env)) as [completeIssue|message status].
  - destruct (env_hiveMind env) as [hiveMindResult|message].
    + destruct (HiveMindOrchestrator.publishToGitHub _ _ _ _ _) as [githubResult published].
      unfold HiveMindOrchestrator.persistResults, HiveMindOrchestrator.cleanup,
        HiveMindOrchestrator.record.
      destruct (env_storage_writable env); cbn [snd events];
        rewrite <- !app_assoc; by eexists.
    + cbn [activeSessions]. rewrite lookup_insert_eq.
      unfold HiveMindOrchestrator.persistResults, HiveMindOrchestrator.cleanup,
        HiveMindOrchestrator.record.
      destruct (env_storage_writable env); cbn [snd events];
        rewrite <- !app_assoc; by eexists.
  - unfold HiveMindOrchestrator.record. cbn [activeSessions].
    destruct (activeSessions orch !! env_uuid env) as [session|].
    + unfold HiveMindOrchestrator.persistResults, HiveMindOrchestrator.cleanup,
        HiveMindOrchestrator.record.
      destruct (env_storage_writable env); cbn [snd events];
        rewrite <- !app_assoc; by eexists.
    + cbn [snd events]. by eexists.
Qed.


(** ** The analysis stage *)

Lemma bind_returned {A B} (c : M A) (f : A -> M B) (w w' : World) (a : A) :
  c w = Returned a w' -> (c ≫= f) w = f a w'.
Proof. intros H. unfold mbind, M_bind. by rewrite H. Qed.

Section AnalysisFacts.
Variable rt : Runtime.

Lemma extractCodeSnippets_returns (text : nullable string) :
  exists l, forall w, DeepAnalysis.extractCodeSnippets rt text w = Returned l w.
Proof.
  unfold DeepAnalysis.extractCodeSnippets.
  destruct text as [| |s]; simpl; try (by exists []).
  destruct (String.eqb s ""); simpl; by eexists.
Qed.

Lemma extractStackTraces_returns (text : nullable string) :
  exists l, forall w, DeepAnalysis.extractStackTraces rt text w = Returned l w.
Proof.
  unfold DeepAnalysis.extractStackTraces.
  destruct text as [| |s]; simpl; try (by exists []).
  destruct (String.eqb s ""); simpl; by eexists.
Qed.

Lemma extractReferences_returns (text : nullable string) :
  exists l, forall w, DeepAnalysis.extractReferences rt text w = Returned l w.
Proof.
  unfold DeepAnalysis.extractReferences.
  destruct text as [| |s]; simpl; try (by exists []).
  destruct (String.eqb s ""); simpl; by eexists.
Qed.

Lemma categorizeComplexity_is_tier (score : number) :
  is_tier (DeepAnalysis.categorizeComplexity score).
Proof.
  unfold DeepAnalysis.categorizeComplexity, is_tier.
  destruct (Js.lt score (Num 0.3)); [tauto|].
  destruct (Js.lt score (Num 0.6)); [tauto|].
  destruct (Js.lt score (Num 0.8)); tauto.
Qed.

Lemma assessComplexity_returns (engine : EngineState) (issue : Issue) :
  exists c,
    (forall w, DeepAnalysis.assessComplexity rt engine issue w = Returned c w)
    /\ is_tier (cx_level c).
Proof.
  unfold DeepAnalysis.assessComplexity.
  destruct (extractCodeSnippets_returns (issue_body issue)) as [cs Hcs].
  destruct (extractStackTraces_returns (issue_body issue)) as [st Hst].
  destruct (extractReferences_returns (issue_body issue)) as [rf Hrf].
  eexists. split.
  - intros w.
    rewrite (bind_returned _ _ w w cs (Hcs w)).
    rewrite (bind_returned _ _ w w st (Hst w)).
    rewrite (bind_returned _ _ w w rf (Hrf w)).
    reflexivity.
  - apply categorizeComplexity_is_tier.
Qed.

Lemma assessPriority_returns (issue : Issue) :
  exists p,
    (forall w, DeepAnalysis.assessPriority rt issue w = Returned (Num p) w)
    /\ (0.5 <= p <= 1)%Q.
Proof.
  unfold DeepAnalysis.assessPriority. cbv zeta.
  set (text := toLowerCase rt (DeepAnalysis.issue_text issue)).
  destruct (includes text "critical" || includes text "urgent" || includes text "production");
    destruct (includes text "security" || includes text "vulnerability");
    destruct (includes text "user" && (includes text "error" || includes text "bug"));
    (destruct (issue_labels issue) as [| |labels]; cbn [Js.truthy_arr];
     unfold receiver; unfold mbind, mret, M_bind, M_ret; cbv beta iota;
     try match goal with
         | |- context [existsb ?f labels] => destruct (existsb f labels)
         end);
    (eexists; split; [intros w; reflexivity|]);
    (split; apply Qle_bool_iff; reflexivity).
Qed.

Lemma assessRisks_returns (issue : Issue) :
  exists risks, forall w, DeepAnalysis.assessRisks rt issue w = Returned risks w.
Proof.
  unfold DeepAnalysis.assessRisks. cbv zeta.
  destruct (extractCodeSnippets_returns (issue_body issue)) as [cs Hcs].
  eexists. intros w.
  rewrite (bind_returned _ _ w w cs (Hcs w)). reflexivity.
Qed.

End AnalysisFacts.

Lemma classify_returns (analysis : Analysis) (w : World) :
  exists classification w',
    ProblemClassificationNetwork.classify analysis w = Returned classification w'.
Proof. eexists. eexists. reflexivity. Qed.

Lemma classify_same_draws (analysis : Analysis) (w1 w2 : World) :
  (forall k, (k < 6)%nat ->
     random_source w1 (k + random_used w1) = random_source w2 (k + random_used w2)) ->
  exists classification w1' w2',
    ProblemClassificationNetwork.classify analysis w1 = Returned classification w1'
    /\ ProblemClassificationNetwork.classify analysis w2 = Returned classification w2'.
Proof.
  intros H.
  pose proof (H 0%nat ltac:(lia)) as H0. pose proof (H 1%nat ltac:(lia)) as H1.
  pose proof (H 2%nat ltac:(lia)) as H2. pose proof (H 3%nat ltac:(lia)) as H3.
  pose proof (H 4%nat ltac:(lia)) as H4. pose proof (H 5%nat ltac:(lia)) as H5.
  cbn [Nat.add] in H0, H1, H2, H3, H4, H5.
  unfold ProblemClassificationNetwork.classify, ProblemClassificationNetwork.categories.
  cbn [ProblemClassificationNetwork.score_categories].
  unfold mbind, mret, M_bind, M_ret, Math_random.
  cbn [random_source random_used clock_source clock_used].
  rewrite H0, H1, H2, H3, H4, H5.
  eexists. eexists. eexists. split; reflexivity.
Qed.

Section DeepAnalysisFacts.
Variable rt : Runtime.

(** The shape of every run of [performDeepAnalysis]: it returns; the
    complexity, the priority and the risks do not depend on the world;
    the timestamp is the clock reading and the classification is what
    [classify] makes of the next random draws. *)
Lemma performDeepAnalysis_shape (engine : EngineState) (session : ESession) :
  exists complexity p risks,
    is_tier (cx_level complexity)
    /\ (0.5 <= p <= 1)%Q
    /\ forall w,
         let timestamp := clock_source w (clock_used w) in
         let after_clock :=
           {| random_source := random_source w;
              random_used := random_used w;
              clock_source := clock_source w;
              clock_used := S (clock_used w) |} in
         exists classification session' w',
           DeepAnalysis.performDeepAnalysis rt engine session w
           = Returned (findings rt engine session timestamp complexity (Num p) risks
                         (Val classification), session') w'
           /\ ProblemClassificationNetwork.classify
                (findings rt engine session timestamp complexity (Num p) risks Undefined)
                after_clock
              = Returned classification w'.
Proof.
  destruct (assessComplexity_returns rt engine (es_issue session)) as (cx & Hcx & Htier).
  destruct (assessPriority_returns rt (es_issue session)) as (p & Hp & Hrange).
  destruct (assessRisks_returns rt (es_issue session)) as (risks & Hrisks).
  exists cx, p, risks. split; [exact Htier|]. split; [exact Hrange|].
  intros w timestamp after_clock.
  destruct (classify_returns
              (findings rt engine session timestamp cx (Num p) risks Undefined) after_clock)
    as (cl & w' & Hcl).
  exists cl. eexists. exists w'. split; [|exact Hcl].
  unfold DeepAnalysis.performDeepAnalysis. cbv zeta.
  rewrite (bind_returned Date_now _ w after_clock timestamp eq_refl).
  rewrite (bind_returned _ _ _ _ _ (Hcx after_clock)).
  rewrite (bind_returned _ _ _ _ _ (Hp after_clock)).
  rewrite (bind_returned _ _ _ _ _ (Hrisks after_clock)).
  unfold findings in Hcl.
  rewrite (bind_returned _ _ _ _ _ Hcl).
  reflexivity.
Qed.

End DeepAnalysisFacts.

(** C10: for every task, whatever its text and with title, body,
    labels and label names possibly missing, the analysis stage
    returns (it does not throw), and the analysis carries a complexity
    tier among low, medium, high, very-high and a priority in [0, 1]. *)
Theorem performDeepAnalysis_total (rt : Runtime) (engine : EngineState)
    (session : ESession) (w : World) :
  exists analysis session' w',
    DeepAnalysis.performDeepAnalysis rt engine session w = Returned (analysis, session') w'
    /\ is_tier (cx_level (an_complexity analysis))
    /\ in_unit_interval (an_priority analysis).
Proof.
  destruct (performDeepAnalysis_shape rt engine session)
    as (cx & p & risks & Htier & Hp & Hrun).
  destruct (Hrun w) as (cl & session' & w' & Heq & _).
  eexists. exists session', w'. split; [exact Heq|].
  split; [exact Htier|]. simpl. lra.
Qed.

Example urgent_issue_priority :
  DeepAnalysis.assessPriority plain_runtime urgent_issue quiet_world
  = Returned (Num 1.0) quiet_world.
Proof. reflexivity. Qed.

Example bare_issue_analysis :
  exists a,
    analysis_of (DeepAnalysis.performDeepAnalysis plain_runtime small_engine bare_session
                   quiet_world) = Some a
    /\ cx_level (an_complexity a) = "low"
    /\ an_domain a = "general"
    /\ an_priority a = Num 0.5.
Proof. eexists. split; [vm_compute; reflexivity|]. repeat split. Qed.

(** C4: in every analysis the analysis stage produces, [patterns] is
    what [matchPatterns] returns for the task and the store; every
    entry has a similarity strictly above 0.7, and the array is in
    descending order of similarity multiplied by the pattern's
    success rate. *)
Theorem analysis_patterns_threshold_and_order (rt : Runtime) (engine : EngineState)
    (session : ESession) (w : World) :
  exists analysis session' w',
    DeepAnalysis.performDeepAnalysis rt engine session w = Returned (analysis, session') w'
    /\ an_patterns analysis = Engine.matchPatterns (es_issue session) (eng_patterns engine)
    /\ Forall (fun m => Js.gt (match_similarity m) (Num 0.7) = true) (an_patterns analysis)
    /\ descending_by_confidence (an_patterns analysis).
Proof.
  destruct (performDeepAnalysis_shape rt engine session)
    as (cx & p & risks & _ & _ & Hrun).
  destruct (Hrun w) as (cl & session' & w' & Heq & _).
  eexists. exists session', w'. split; [exact Heq|].
  cbn [findings an_patterns]. split; [reflexivity|].
  apply matchPatterns_threshold_and_order.
Qed.

(** C3, as stated, fails: two runs on the same task and the same
    (empty) store, with the same clock, differ in the classification
    as soon as the random source differs; here the category is
    "security" in one run and "feature" in the other. *)
Lemma analysis_follows_random_source :
  exists a1 a2,
    analysis_of (DeepAnalysis.performDeepAnalysis plain_runtime small_engine fresh_session
                   quiet_world) = Some a1
    /\ analysis_of (DeepAnalysis.performDeepAnalysis plain_runtime small_engine fresh_session
                      lively_world) = Some a2
    /\ category_of a1 = Val "security"
    /\ category_of a2 = Val "feature"
    /\ a1 <> a2.
Proof.
  eexists. eexists. split; [vm_compute; reflexivity|]. split; [vm_compute; reflexivity|].
  split; [reflexivity|]. split; [reflexivity|].
  intros H. apply (f_equal category_of) in H. vm_compute in H. discriminate H.
Qed.

(** The same holds for every runtime, engine and session: the category
    is decided by the random draws alone. *)
Lemma category_follows_random_source (rt : Runtime) (engine : EngineState)
    (session : ESession) :
  exists a1 a2,
    analysis_of (DeepAnalysis.performDeepAnalysis rt engine session quiet_world) = Some a1
    /\ analysis_of (DeepAnalysis.performDeepAnalysis rt engine session lively_world) = Some a2
    /\ category_of a1 = Val "security"
    /\ category_of a2 = Val "feature".
Proof.
  destruct (performDeepAnalysis_shape rt engine session)
    as (cx & p & risks & _ & _ & Hrun).
  destruct (Hrun quiet_world) as (cl1 & s1 & w1 & Heq1 & Hcl1).
  destruct (Hrun lively_world) as (cl2 & s2 & w2 & Heq2 & Hcl2).
  rewrite Heq1, Heq2. eexists. eexists.
  split; [reflexivity|]. split; [reflexivity|].
  unfold category_of, findings. cbn [an_neuralClassification].
  injection Hcl1 as <- _. injection Hcl2 as <- _.
  split; reflexivity.
Qed.

(** C3, amended: two runs of the analysis stage on the same task with
    an unchanged store both return and agree on the session id, the
    semantic features, the complexity, the matched patterns, the
    domain, the priority, the solution space and the risks; the
    timestamp is the clock reading and the classification is computed
    from six random draws, so the two analyses are identical whenever
    the clock reading and those six draws coincide. *)
Theorem analysis_deterministic_up_to_readings (rt : Runtime) (engine : EngineState)
    (session : ESession) (w1 w2 : World) :
  exists a1 s1 w1' a2 s2 w2',
    DeepAnalysis.performDeepAnalysis rt engine session w1 = Returned (a1, s1) w1'
    /\ DeepAnalysis.performDeepAnalysis rt engine session w2 = Returned (a2, s2) w2'
    /\ same_findings a1 a2
    /\ (same_readings w1 w2 -> a1 = a2).
Proof.
  destruct (performDeepAnalysis_shape rt engine session)
    as (cx & p & risks & _ & _ & Hrun).
  destruct (Hrun w1) as (cl1 & s1 & w1' & Heq1 & Hcl1).
  destruct (Hrun w2) as (cl2 & s2 & w2' & Heq2 & Hcl2).
  eexists. exists s1, w1'. eexists. exists s2, w2'.
  split; [exact Heq1|]. split; [exact Heq2|]. split.
  - unfold same_findings, findings. cbn. repeat split.
  - intros [Hclock Hdraws]. cbv zeta in Hcl1, Hcl2.
    rewrite <- Hclock in Hcl2. rewrite <- Hclock.
    destruct (classify_same_draws
                (findings rt engine session (clock_source w1 (clock_used w1)) cx (Num p)
                   risks Undefined)
                {| random_source := random_source w1; random_used := random_used w1;
                   clock_source := clock_source w1; clock_used := S (clock_used w1) |}
                {| random_source := random_source w2; random_used := random_used w2;
                   clock_source := clock_source w2; clock_used := S (clock_used w2) |}
                Hdraws)
      as (cl & u1 & u2 & Hu1 & Hu2).
    rewrite Hu1 in Hcl1. rewrite Hu2 in Hcl2.
    injection Hcl1 as <- _. injection Hcl2 as <- _. reflexivity.
Qed.

Lemma analysis_deterministic_up_to_readings_witness :
  analysis_of (DeepAnalysis.performDeepAnalysis plain_runtime small_engine fresh_session
                 quiet_world)
  = analysis_of (DeepAnalysis.performDeepAnalysis plain_runtime small_engine fresh_session
                   quiet_then_loud_world).
Proof.
  destruct (analysis_deterministic_up_to_readings plain_runtime small_engine fresh_session
              quiet_world quiet_then_loud_world)
    as (a1 & s1 & w1' & a2 & s2 & w2' & H1 & H2 & _ & Hsame).
  rewrite H1, H2. cbn [analysis_of]. f_equal. apply Hsame.
  split; [reflexivity|].
  intros k Hk.
  destruct k as [|[|[|[|[|[|k]]]]]]; try reflexivity.
  exfalso. lia.
Defined.

(** * Further properties *)

(** ** Complexity assessment *)

Lemma Qceiling_between (q : Q) (a b : Z) :
  (inject_Z a < q)%Q -> (q <= inject_Z b)%Q -> (a < Qceiling q <= b)%Z.
Proof.
  intros Ha Hb. split.
  - rewrite Zlt_Qlt. eapply Qlt_le_trans; [exact Ha|apply Qle_ceiling].
  - pose proof (Qceiling_lt q) as H.
    assert (Hlt : (inject_Z (Qceiling q - 1) < inject_Z b)%Q)
      by (eapply Qlt_le_trans; eassumption).
    rewrite <- Zlt_Qlt in Hlt. lia.
Qed.

Lemma Qfloor_between (q : Q) (a b : Z) :
  (inject_Z a <= q)%Q -> (q < inject_Z b)%Q -> (a <= Qfloor q < b)%Z.
Proof.
  intros Ha Hb. split.
  - pose proof (Qlt_floor q) as H.
    assert (Hlt : (inject_Z a < inject_Z (Qfloor q + 1))%Q)
      by (eapply Qle_lt_trans; eassumption).
    rewrite <- Zlt_Qlt in Hlt. lia.
  - rewrite Zlt_Qlt. eapply Qle_lt_trans; [apply Qfloor_le|exact Hb].
Qed.

Lemma capped_tenth_range (x : number) : nonneg x -> (0 <= capped_tenth x <= 1)%Q.
Proof.
  destruct x as [q|]; simpl; [|tauto]. intros Hq. split.
  - apply Q.min_glb; [|lra]. apply Qle_shift_div_l; lra.
  - apply Q.le_min_r.
Qed.

Lemma calculateComplexityScore_value (factors : Factors) :
  nonneg (f_textLength factors) -> nonneg (f_technicalTerms factors) ->
  nonneg (f_codeSnippets factors) -> nonneg (f_stackTraces factors) ->
  nonneg (f_labels factors) -> nonneg (f_references factors) ->
  exists s,
    DeepAnalysis.calculateComplexityScore factors = Num s
    /\ (s == weighted_sum factors)%Q
    /\ (0 <= s <= 1)%Q.
Proof.
  intros H1 H2 H3 H4 H5 H6.
  pose proof (capped_tenth_range _ H1). pose proof (capped_tenth_range _ H2).
  pose proof (capped_tenth_range _ H3). pose proof (capped_tenth_range _ H4).
  pose proof (capped_tenth_range _ H5). pose proof (capped_tenth_range _ H6).
  unfold DeepAnalysis.calculateComplexityScore, DeepAnalysis.weighted_factors, weighted_sum in *.
  destruct factors as [[a|] [b|] [c|] [d|] [e|] [f|]]; simpl in *; try tauto.
  eexists. split; [reflexivity|].
  set (t := (0 + 0.1 * Qmin (a / 10) 1 + 0.3 * Qmin (b / 10) 1 + 0.2 * Qmin (c / 10) 1
             + 0.2 * Qmin (d / 10) 1 + 0.1 * Qmin (e / 10) 1 + 0.1 * Qmin (f / 10) 1)%Q).
  assert (Ht : (0 <= t <= 1)%Q) by (subst t; lra).
  assert (Hmin : (Qmin t 1 == t)%Q) by (apply Q.min_l; lra).
  split; [rewrite Hmin; subst t; lra|]. rewrite Hmin. exact Ht.
Qed.

Lemma categorizeComplexity_tier_of_score (s : Q) :
  DeepAnalysis.categorizeComplexity (Num s) = tier_name (tier_of_score s).
Proof.
  unfold DeepAnalysis.categorizeComplexity, tier_of_score. simpl.
  destruct (Js.Qltb s 0.3); [reflexivity|].
  destruct (Js.Qltb s 0.6); [reflexivity|].
  destruct (Js.Qltb s 0.8); reflexivity.
Qed.

Lemma tier_rank_tier_name (t : Tier) :
  tier_rank (tier_name t) = match t with low => 0 | medium => 1 | high => 2 | very_high => 3 end%nat.
Proof. destruct t; reflexivity. Qed.

(** X2: the tier never goes down when the score goes up. *)
Theorem categorizeComplexity_monotone (s1 s2 : Q) :
  (s1 <= s2)%Q ->
  (tier_rank (DeepAnalysis.categorizeComplexity (Num s1))
   <= tier_rank (DeepAnalysis.categorizeComplexity (Num s2)))%nat.
Proof.
  intros H. rewrite !categorizeComplexity_tier_of_score, !tier_rank_tier_name.
  unfold tier_of_score.
  destruct (Js.Qltb s1 0.3) eqn:A1; destruct (Js.Qltb s1 0.6) eqn:A2;
    destruct (Js.Qltb s1 0.8) eqn:A3;
    destruct (Js.Qltb s2 0.3) eqn:B1; destruct (Js.Qltb s2 0.6) eqn:B2;
    destruct (Js.Qltb s2 0.8) eqn:B3; try lia;
    repeat match goal with
           | E : Js.Qltb _ _ = true |- _ => apply Qltb_true in E
           | E : Js.Qltb _ _ = false |- _ => apply Qltb_false in E
           end; lra.
Qed.

Lemma categorizeComplexity_monotone_witness :
  (tier_rank (DeepAnalysis.categorizeComplexity (Num 0.35))
   <= tier_rank (DeepAnalysis.categorizeComplexity (Num 0.7)))%nat.
Proof.
  apply categorizeComplexity_monotone. apply Qle_bool_iff. reflexivity.
Defined.

Lemma of_nat_nonneg (n : nat) : nonneg (Js.of_nat n).
Proof.
  simpl. replace 0%Q with (inject_Z 0) by reflexivity. rewrite <- Zle_Qle. lia.
Qed.

Lemma length_or_zero_nonneg {A} (len : A -> nat) (v : nullable A) :
  nonneg (DeepAnalysis.length_or_zero len v).
Proof.
  destruct v; simpl; try lra. apply (of_nat_nonneg (len a)).
Qed.

Lemma add_nonneg (x y : number) : nonneg x -> nonneg y -> nonneg (Js.add x y).
Proof. destruct x, y; simpl; try tauto. intros. lra. Qed.

Lemma countTechnicalTerms_nonneg (rt : Runtime) (text : string) :
  nonneg (DeepAnalysis.countTechnicalTerms rt text).
Proof.
  unfold DeepAnalysis.countTechnicalTerms. cbn [fold_left].
  repeat apply add_nonneg; try apply of_nat_nonneg. simpl. lra.
Qed.

(** The value [assessComplexity] returns, spelled out. *)
Lemma assessComplexity_explicit (rt : Runtime) (engine : EngineState) (issue : Issue) :
  exists factors,
    nonneg (f_textLength factors) /\ nonneg (f_technicalTerms factors)
    /\ nonneg (f_codeSnippets factors) /\ nonneg (f_stackTraces factors)
    /\ nonneg (f_labels factors) /\ nonneg (f_references factors)
    /\ forall w,
         DeepAnalysis.assessComplexity rt engine issue w
         = Returned
             {| cx_score := DeepAnalysis.calculateComplexityScore factors;
                cx_level := DeepAnalysis.categorizeComplexity
                              (DeepAnalysis.calculateComplexityScore factors);
                cx_factors := factors;
                cx_estimatedEffort :=
                  DeepAnalysis.estimateEffort (DeepAnalysis.calculateComplexityScore factors);
                cx_recommendedAgents :=
                  DeepAnalysis.recommendAgentCount engine
                    (DeepAnalysis.calculateComplexityScore factors) |} w.
Proof.
  destruct (extractCodeSnippets_returns rt (issue_body issue)) as [cs Hcs].
  destruct (extractStackTraces_returns rt (issue_body issue)) as [st Hst].
  destruct (extractReferences_returns rt (issue_body issue)) as [rf Hrf].
  eexists {| f_textLength := _; f_technicalTerms := _; f_codeSnippets := _;
             f_stackTraces := _; f_labels := _; f_references := _ |}.
  repeat split; cycle 6.
  - intros w. unfold DeepAnalysis.assessComplexity.
    rewrite (bind_returned _ _ w w cs (Hcs w)).
    rewrite (bind_returned _ _ w w st (Hst w)).
    rewrite (bind_returned _ _ w w rf (Hrf w)).
    reflexivity.
  - cbn [f_textLength]. apply length_or_zero_nonneg.
  - cbn [f_technicalTerms]. apply countTechnicalTerms_nonneg.
  - cbn [f_codeSnippets]. apply of_nat_nonneg.
  - cbn [f_stackTraces]. apply of_nat_nonneg.
  - cbn [f_labels]. apply length_or_zero_nonneg.
  - cbn [f_references]. apply of_nat_nonneg.
Qed.

Lemma Qmax_inject_Z (a b : Z) : (Qmax (inject_Z a) (inject_Z b) == inject_Z (Z.max a b))%Q.
Proof.
  destruct (Z.le_gt_cases a b) as [H|H].
  - rewrite Z.max_r by exact H. apply Q.max_r. by rewrite <- Zle_Qle.
  - rewrite Z.max_l by lia. apply Q.max_l. rewrite <- Zle_Qle. lia.
Qed.

Lemma estimateEffort_value (s : Q) :
  (0 <= s <= 1)%Q ->
  exists e, DeepAnalysis.estimateEffort (Num s) = Num (inject_Z e) /\ (2 <= e <= 8)%Z.
Proof.
  intros Hs. unfold DeepAnalysis.estimateEffort.
  exists (Qfloor (2 * (1 + s * 3) + 0.5)). split; [reflexivity|].
  destruct (Qfloor_between (2 * (1 + s * 3) + 0.5) 2 9) as [H1 H2].
  - change (inject_Z 2) with 2%Q. lra.
  - change (inject_Z 9) with 9%Q. lra.
  - lia.
Qed.

Lemma recommendAgentCount_value (engine : EngineState) (s : Q) :
  is_integer (DeepAnalysis.recommendAgentCount engine (Num s))
             (Z.min (Z.max 2 (Qceiling (s * 8))) (eng_maxAgents engine)).
Proof.
  unfold DeepAnalysis.recommendAgentCount, Js.of_Z.
  cbn [Js.mul Js.Math_ceil Js.Math_max Js.Math_min is_integer].
  change 2%Q with (inject_Z 2).
  rewrite Qmax_inject_Z, Qmin_inject_Z. reflexivity.
Qed.

(** X3: for every task the complexity assessment returns a score in
    [0, 1], an estimated effort that is a whole number of hours
    between 2 and 8, and, for a [maxAgents] of at least 2, a
    recommended agent count that is a whole number between 2 and
    min(8, maxAgents). *)
Theorem assessComplexity_bounds (rt : Runtime) (engine : EngineState) (issue : Issue) :
  (2 <= eng_maxAgents engine)%Z ->
  exists c e r,
    (forall w, DeepAnalysis.assessComplexity rt engine issue w = Returned c w)
    /\ within 0 1 (cx_score c)
    /\ cx_level c = DeepAnalysis.categorizeComplexity (cx_score c)
    /\ is_integer (cx_estimatedEffort c) e /\ (2 <= e <= 8)%Z
    /\ is_integer (cx_recommendedAgents c) r
    /\ (2 <= r <= Z.min 8 (eng_maxAgents engine))%Z.
Proof.
  intros HM.
  destruct (assessComplexity_explicit rt engine issue)
    as (factors & H1 & H2 & H3 & H4 & H5 & H6 & Hrun).
  destruct (calculateComplexityScore_value factors H1 H2 H3 H4 H5 H6) as (s & Hs & _ & Hrange).
  rewrite Hs in Hrun.
  destruct (estimateEffort_value s Hrange) as (e & He & Hebound).
  eexists. exists e. eexists. split; [exact Hrun|].
  cbn [cx_score cx_level cx_estimatedEffort cx_recommendedAgents].
  split; [exact Hrange|]. split; [reflexivity|].
  split; [rewrite He; simpl; reflexivity|]. split; [exact Hebound|].
  split; [apply recommendAgentCount_value|].
  destruct (Qle_lt_or_eq 0 s (proj1 Hrange)) as [Hpos|Hzero].
  - destruct (Qceiling_between (s * 8) 0 8) as [Ha Hb].
    + change (inject_Z 0) with 0%Q. lra.
    + change (inject_Z 8) with 8%Q. lra.
    + lia.
  - assert (Hc : Qceiling (s * 8) = 0%Z).
    { rewrite (Qceiling_comp (s * 8) 0); [reflexivity|]. rewrite <- Hzero. lra. }
    rewrite Hc. lia.
Qed.

Lemma assessComplexity_bounds_witness :
  exists c e r,
    (forall w, DeepAnalysis.assessComplexity plain_runtime roomy_engine urgent_issue w
               = Returned c w)
    /\ within 0 1 (cx_score c)
    /\ cx_level c = DeepAnalysis.categorizeComplexity (cx_score c)
    /\ is_integer (cx_estimatedEffort c) e /\ (2 <= e <= 8)%Z
    /\ is_integer (cx_recommendedAgents c) r
    /\ (2 <= r <= Z.min 8 (eng_maxAgents roomy_engine))%Z.
Proof.
  apply (assessComplexity_bounds plain_runtime roomy_engine urgent_issue).
  vm_compute. discriminate.
Defined.

Lemma Qceiling_upper (q : Q) (b : Z) : (q <= inject_Z b)%Q -> (Qceiling q <= b)%Z.
Proof.
  intros Hb. pose proof (Qceiling_lt q) as H.
  assert (Hlt : (inject_Z (Qceiling q - 1) < inject_Z b)%Q)
    by (eapply Qlt_le_trans; eassumption).
  rewrite <- Zlt_Qlt in Hlt. lia.
Qed.

Lemma Qceiling_lower (q : Q) (a : Z) : (inject_Z a < q)%Q -> (a < Qceiling q)%Z.
Proof.
  intros Ha. rewrite Zlt_Qlt. eapply Qlt_le_trans; [exact Ha|apply Qle_ceiling].
Qed.

Lemma planned_for_tier_name (t : Tier) (maxAgents : Z) (domain : nullable string) :
  planned_for_level (tier_name t) maxAgents domain
  = Z.max 0 (Z.min (tier_table t) maxAgents).
Proof. apply planned_workers_value. Qed.

(** X4: for every task and a non-negative [maxAgents], the number of
    workers the planner allots to the task's tier differs by at most
    one from the agent count the complexity assessment recommends for
    its score; for the tier very-high it is never below it.  (The
    prediction's bonus for "enough agents" tests the first against the
    second.) *)
Theorem planner_near_recommendation (rt : Runtime) (engine : EngineState) (issue : Issue)
    (domain : nullable string) :
  (0 <= eng_maxAgents engine)%Z ->
  exists c r,
    (forall w, DeepAnalysis.assessComplexity rt engine issue w = Returned c w)
    /\ is_integer (cx_recommendedAgents c) r
    /\ (Z.abs (planned_for_level (cx_level c) (eng_maxAgents engine) domain - r) <= 1)%Z
    /\ (cx_level c = "very-high" ->
        (r <= planned_for_level (cx_level c) (eng_maxAgents engine) domain)%Z).
Proof.
  intros HM.
  destruct (assessComplexity_explicit rt engine issue)
    as (factors & H1 & H2 & H3 & H4 & H5 & H6 & Hrun).
  destruct (calculateComplexityScore_value factors H1 H2 H3 H4 H5 H6) as (s & Hs & _ & Hrange).
  rewrite Hs in Hrun.
  eexists. eexists. split; [exact Hrun|].
  cbn [cx_level cx_recommendedAgents].
  split; [apply recommendAgentCount_value|].
  rewrite categorizeComplexity_tier_of_score, planned_for_tier_name.
  unfold tier_of_score.
  destruct (Js.Qltb s 0.3) eqn:E1;
    [|destruct (Js.Qltb s 0.6) eqn:E2; [|destruct (Js.Qltb s 0.8) eqn:E3]];
    repeat match goal with
           | E : Js.Qltb _ _ = true |- _ => apply Qltb_true in E
           | E : Js.Qltb _ _ = false |- _ => apply Qltb_false in E
           end; cbn [tier_table tier_name].
  - assert (Qceiling (s * 8) <= 3)%Z
      by (apply Qceiling_upper; change (inject_Z 3) with 3%Q; lra).
    split; [lia|discriminate].
  - assert (Qceiling (s * 8) <= 5)%Z
      by (apply Qceiling_upper; change (inject_Z 5) with 5%Q; lra).
    assert (2 < Qceiling (s * 8))%Z
      by (apply Qceiling_lower; change (inject_Z 2) with 2%Q; lra).
    split; [lia|discriminate].
  - assert (Qceiling (s * 8) <= 7)%Z
      by (apply Qceiling_upper; change (inject_Z 7) with 7%Q; lra).
    assert (4 < Qceiling (s * 8))%Z
      by (apply Qceiling_lower; change (inject_Z 4) with 4%Q; lra).
    split; [lia|discriminate].
  - assert (Qceiling (s * 8) <= 8)%Z
      by (apply Qceiling_upper; change (inject_Z 8) with 8%Q; lra).
    assert (6 < Qceiling (s * 8))%Z
      by (apply Qceiling_lower; change (inject_Z 6) with 6%Q; lra).
    split; [lia|intros _; lia].
Qed.

Lemma planner_near_recommendation_witness :
  exists c r,
    (forall w, DeepAnalysis.assessComplexity plain_runtime roomy_engine urgent_issue w
               = Returned c w)
    /\ is_integer (cx_recommendedAgents c) r
    /\ (Z.abs (planned_for_level (cx_level c) (eng_maxAgents roomy_engine) (Val "bug") - r)
        <= 1)%Z
    /\ (cx_level c = "very-high" ->
        (r <= planned_for_level (cx_level c) (eng_maxAgents roomy_engine) (Val "bug"))%Z).
Proof.
  apply (planner_near_recommendation plain_runtime roomy_engine urgent_issue (Val "bug")).
  vm_compute. discriminate.
Defined.

(** ** The predicted outcome *)

Lemma Qmin_range (x : Q) (b : Q) : (0 <= x)%Q -> (0 <= b)%Q -> (0 <= Qmin x b <= b)%Q.
Proof.
  intros Hx Hb. split; [apply Q.min_glb; assumption|apply Q.le_min_r].
Qed.

Lemma predictOutcome_value (strategy : Strategy) (analysis : Analysis) :
  exists sp,
    pred_successProbability (Planning.predictOutcome strategy analysis) = Num sp
    /\ (0.4 < sp <= 1.3)%Q
    /\ (exceeds (pred_confidence (Planning.predictOutcome strategy analysis)) 0.4
        /\ at_most 1 (pred_confidence (Planning.predictOutcome strategy analysis)))
    /\ ((sp <= 1)%Q -> num_is (pred_confidence (Planning.predictOutcome strategy analysis)) sp)
    /\ (an_patterns analysis = [] -> (sp <= 1)%Q).
Proof.
  unfold Planning.predictOutcome. cbv zeta.
  cbn [pred_successProbability pred_confidence].
  set (n := length (an_patterns analysis)).
  assert (Hn : an_patterns analysis = [] -> n = 0%nat) by (intros E; subst n; by rewrite E).
  clearbody n.
  pose proof (Qmin_range (inject_Z (Z.of_nat n)) 3) as Hp.
  assert (Hlen : (0 <= inject_Z (Z.of_nat n))%Q).
  { change 0%Q with (inject_Z 0). rewrite <- Zle_Qle. lia. }
  specialize (Hp Hlen ltac:(lra)). clear Hlen.
  unfold Js.of_nat. cbn [Js.Math_min Js.mul].
  set (k := Qmin (inject_Z (Z.of_nat n)) 3) in *. clearbody k.
  destruct (String.eqb (cx_level (an_complexity analysis)) "low");
    [|destruct (String.eqb (cx_level (an_complexity analysis)) "very-high")];
    (destruct n as [|n]; cbn [Nat.ltb Nat.leb]);
    destruct (Planning.length_ge _ _);
    cbn [Js.add Js.sub Js.mul Js.Math_min exceeds at_most num_is];
    (eexists; split; [reflexivity|]);
    repeat match goal with
           | |- _ /\ _ => split
           | |- _ -> _ => intros ?
           end;
    try (apply Q.min_glb_lt; lra);
    try (eapply Qle_trans; [apply Q.le_min_r|lra]);
    try (apply Q.min_l; lra);
    try lra;
    match goal with
    | H : an_patterns analysis = [] |- _ => apply Hn in H; discriminate H
    end.
Qed.

(** X5: the prediction's success probability is always above 0.4
    and at most 1.3 (its smallest value, 0.7 - 0.2, is 0.5 up to
    rounding); the confidence is that value capped at 1, so it is
    above 0.4 and at most 1 and equals the success probability
    whenever that is at most 1, which is the case when no pattern
    matched. *)
Theorem predictOutcome_range (strategy : Strategy) (analysis : Analysis) :
  exists sp,
    pred_successProbability (Planning.predictOutcome strategy analysis) = Num sp
    /\ (0.4 < sp <= 1.3)%Q
    /\ (exceeds (pred_confidence (Planning.predictOutcome strategy analysis)) 0.4
        /\ at_most 1 (pred_confidence (Planning.predictOutcome strategy analysis)))
    /\ ((sp <= 1)%Q -> num_is (pred_confidence (Planning.predictOutcome strategy analysis)) sp)
    /\ (an_patterns analysis = [] -> (sp <= 1)%Q)
    /\ pred_confidence (Planning.predictOutcome strategy analysis)
       = Js.Math_min (pred_successProbability (Planning.predictOutcome strategy analysis))
                     (Num 1.0).
Proof.
  destruct (predictOutcome_value strategy analysis) as (sp & Hsp & Hrange & Hc & Heq & Hnone).
  exists sp. split; [exact Hsp|]. split; [exact Hrange|]. split; [exact Hc|].
  split; [exact Heq|]. split; [exact Hnone|reflexivity].
Qed.

(** X6: for every analysis the analysis stage produces, whatever the
    strategy, the predicted success probability is above 0.4 and at
    most 1 and is the predicted confidence: no pattern ever matches,
    so the pattern bonus is never added. *)
Theorem predictOutcome_after_analysis (rt : Runtime) (engine : EngineState)
    (session : ESession) (w : World) (strategy : Strategy) :
  exists analysis session' w' sp,
    DeepAnalysis.performDeepAnalysis rt engine session w = Returned (analysis, session') w'
    /\ pred_successProbability (Planning.predictOutcome strategy analysis) = Num sp
    /\ (0.4 < sp <= 1)%Q
    /\ num_is (pred_confidence (Planning.predictOutcome strategy analysis)) sp.
Proof.
  destruct (performDeepAnalysis_shape rt engine session)
    as (cx & p & risks & _ & _ & Hrun).
  destruct (Hrun w) as (cl & session' & w' & Heq & _).
  eexists. exists session', w'.
  destruct (predictOutcome_value strategy
              (findings rt engine session (clock_source w (clock_used w)) cx (Num p) risks
                 (Val cl))) as (sp & Hsp & Hrange & _ & Hconf & Hnone).
  exists sp. split; [exact Heq|]. split; [exact Hsp|].
  assert (Hle : (sp <= 1)%Q).
  { apply Hnone. cbn [findings an_patterns].
    apply matchPatternsWith_nothing_matches. intros sg.
    apply calculateSimilarity_below_threshold. }
  split; [lra|]. apply Hconf, Hle.
Qed.

(** ** When the similarity score is not a number *)

Lemma complexityMap_cases (v : nullable string) :
  (known_tier v /\ exists k, Engine.complexityMap v = Num k)
  \/ (~ known_tier v /\ Engine.complexityMap v = NaN).
Proof.
  unfold known_tier, Engine.complexityMap.
  destruct v as [| |s]; try (right; split; [intros [H|[H|[H|H]]]; discriminate H|reflexivity]).
  destruct (String.eqb s "low") eqn:E1;
    [apply String.eqb_eq in E1; subst; left; split; [tauto|by eexists]|].
  destruct (String.eqb s "medium") eqn:E2;
    [apply String.eqb_eq in E2; subst; left; split; [tauto|by eexists]|].
  destruct (String.eqb s "high") eqn:E3;
    [apply String.eqb_eq in E3; subst; left; split; [tauto|by eexists]|].
  destruct (String.eqb s "very-high") eqn:E4;
    [apply String.eqb_eq in E4; subst; left; split; [tauto|by eexists]|].
  right. split; [|reflexivity].
  apply String.eqb_neq in E1, E2, E3, E4.
  intros [H|[H|[H|H]]]; injection H as ->; congruence.
Qed.

Lemma overlap_ratio_cases (terms1 terms2 : list string) :
  let ratio :=
    Js.div (Js.of_nat (length (List.filter (fun term => Js.arr_includes terms2 term) terms1)))
           (Js.Math_max (Js.of_nat (length terms1)) (Js.of_nat (length terms2))) in
  (terms1 = [] /\ terms2 = [] /\ ratio = NaN)
  \/ (~ (terms1 = [] /\ terms2 = []) /\ exists q, ratio = Num q).
Proof.
  intros ratio. subst ratio.
  destruct terms1 as [|a terms1], terms2 as [|b terms2].
  - left. repeat split.
  - right. split; [intros [_ H]; discriminate H|].
    unfold Js.of_nat, Js.Math_max, Js.div.
    destruct (Qeq_bool _ 0) eqn:E; [|by eexists].
    apply Qeq_bool_iff in E. exfalso.
    pose proof (Q.le_max_r (inject_Z (Z.of_nat (length (@nil string))))
                           (inject_Z (Z.of_nat (length (b :: terms2))))) as Hm.
    rewrite E in Hm. change 0%Q with (inject_Z 0) in Hm. rewrite <- Zle_Qle in Hm.
    simpl length in Hm. lia.
  - right. split; [intros [H _]; discriminate H|].
    unfold Js.of_nat, Js.Math_max, Js.div.
    destruct (Qeq_bool _ 0) eqn:E; [|by eexists].
    apply Qeq_bool_iff in E. exfalso.
    pose proof (Q.le_max_l (inject_Z (Z.of_nat (length (a :: terms1))))
                           (inject_Z (Z.of_nat (length (@nil string))))) as Hm.
    rewrite E in Hm. change 0%Q with (inject_Z 0) in Hm. rewrite <- Zle_Qle in Hm.
    simpl length in Hm. lia.
  - right. split; [intros [H _]; discriminate H|].
    unfold Js.of_nat, Js.Math_max, Js.div.
    destruct (Qeq_bool _ 0) eqn:E; [|by eexists].
    apply Qeq_bool_iff in E. exfalso.
    pose proof (Q.le_max_l (inject_Z (Z.of_nat (length (a :: terms1))))
                           (inject_Z (Z.of_nat (length (b :: terms2))))) as Hm.
    rewrite E in Hm. change 0%Q with (inject_Z 0) in Hm. rewrite <- Zle_Qle in Hm.
    simpl length in Hm. lia.
Qed.

(** X7: the similarity score is [NaN], and so fails every comparison,
    exactly when the issue or the signature has no known complexity
    tier (as every issue delivered by the tracker) or both carry an
    empty key-term array (the ratio 0 / 0); in every other case it is
    a number. *)
Theorem calculateSimilarity_NaN_iff (issue1 : Issue) (signature : Signature) :
  Engine.calculateSimilarity issue1 signature = NaN
  <-> ~ known_tier (issue_complexity issue1)
      \/ ~ known_tier (sig_complexity signature)
      \/ both_keyTerms_empty issue1 signature.
Proof.
  unfold Engine.calculateSimilarity, both_keyTerms_empty. cbv zeta.
  change (Js.add (Js.add (Js.add (Js.add (Num 0) (Num 1)) (Num 1)) (Num 1)) (Num 1))
    with (Num (0 + 1 + 1 + 1 + 1)).
  destruct (complexityMap_cases (issue_complexity issue1)) as [[Hk1 [k1 ->]]|[Hk1 ->]];
    destruct (complexityMap_cases (sig_complexity signature)) as [[Hk2 [k2 ->]]|[Hk2 ->]];
    destruct (Js.strict_eq (issue_domain issue1) (sig_domain signature));
    try destruct (Js.truthy_str (issue_domain issue1) && Js.truthy_str (sig_domain signature));
    destruct (Js.strict_eq (issue_category issue1) (sig_category signature));
    (destruct (issue_keyTerms issue1) as [| |terms1];
     [| |destruct (sig_keyTerms signature) as [| |terms2];
         [| |destruct (overlap_ratio_cases terms1 terms2) as [(-> & -> & Hr)|(Hne & q & Hr)];
             cbv zeta in Hr; try rewrite Hr]]);
    simpl;
    (split;
     [ intros H; try discriminate H; tauto
     | intros [H|[H|[H1 H2]]]; try reflexivity; try contradiction;
       try discriminate H1; try discriminate H2;
       try (exfalso; apply Hne; split; congruence) ]).
Qed.

(** ** Domain classification *)

Lemma domain_step_fold (text : string) (l : list (string * list string))
    (bd : string) (bs : nat) :
  let r := fold_left (domain_step text) l (bd, bs) in
  (r = (bd, bs) /\ forall e, e ∈ l -> (keyword_count text e.2 <= bs)%nat)
  \/ exists pre kws post,
       l = pre ++ (r.1, kws) :: post
       /\ keyword_count text kws = r.2
       /\ (bs < r.2)%nat
       /\ (forall e, e ∈ pre -> (keyword_count text e.2 < r.2)%nat)
       /\ (forall e, e ∈ post -> (keyword_count text e.2 <= r.2)%nat).
Proof.
  revert bd bs. induction l as [|[d kws] l IH]; intros bd bs r; subst r; cbn [fold_left].
  - left. split; [reflexivity|]. intros e He. by apply elem_of_nil in He.
  - assert (Hs : domain_step text (bd, bs) (d, kws)
                 = if (bs <? keyword_count text kws)%nat
                   then (d, keyword_count text kws) else (bd, bs)) by reflexivity.
    rewrite Hs. clear Hs.
    destruct (Nat.ltb_spec bs (keyword_count text kws)) as [Hlt|Hge].
    + destruct (IH d (keyword_count text kws)) as [[Heq Hall]|(pre & k & post & Hl & Hk & Hb & Hpre & Hpost)].
      * right. exists [], kws, l. rewrite Heq. cbn [fst snd].
        split; [reflexivity|]. split; [reflexivity|]. split; [exact Hlt|].
        split; [intros e He; by apply elem_of_nil in He|exact Hall].
      * right. exists ((d, kws) :: pre), k, post.
        split; [cbn [app]; f_equal; exact Hl|]. split; [exact Hk|]. split; [lia|].
        split; [|exact Hpost].
        intros e He. apply elem_of_cons in He as [->|He]; [exact Hb|by apply Hpre].
    + destruct (IH bd bs) as [[Heq Hall]|(pre & k & post & Hl & Hk & Hb & Hpre & Hpost)].
      * left. split; [exact Heq|].
        intros e He. apply elem_of_cons in He as [->|He]; [exact Hge|by apply Hall].
      * right. exists ((d, kws) :: pre), k, post.
        split; [cbn [app]; f_equal; exact Hl|]. split; [exact Hk|]. split; [exact Hb|].
        split; [|exact Hpost].
        intros e He. apply elem_of_cons in He as [->|He]; [cbn [snd]; lia|by apply Hpre].
Qed.

(** X8: the domain of a task is "general" when no keyword of any
    domain occurs in its lower-cased text; otherwise it is the domain
    with the most keywords occurring, and among several such the one
    declared first. *)
Theorem classifyDomain_first_maximum (rt : Runtime) (issue : Issue) :
  let text := toLowerCase rt (DeepAnalysis.issue_text issue) in
  let domain := DeepAnalysis.classifyDomain rt issue in
  (domain = "general"
   /\ forall e, e ∈ DeepAnalysis.domains -> keyword_count text e.2 = 0%nat)
  \/ exists pre keywords post,
       DeepAnalysis.domains = pre ++ (domain, keywords) :: post
       /\ (0 < keyword_count text keywords)%nat
       /\ (forall e, e ∈ pre ->
             (keyword_count text e.2 < keyword_count text keywords)%nat)
       /\ (forall e, e ∈ post ->
             (keyword_count text e.2 <= keyword_count text keywords)%nat).
Proof.
  intros text domain.
  assert (E : domain = (fold_left (domain_step text) DeepAnalysis.domains ("general", 0%nat)).1).
  { subst domain text. unfold DeepAnalysis.classifyDomain.
    change (fun (best : string * nat) (entry : string * list string) =>
              let '(bestDomain, bestScore) := best in
              let '(domain, keywords) := entry in
              let score :=
                length (List.filter
                          (fun keyword =>
                             includes (toLowerCase rt (DeepAnalysis.issue_text issue)) keyword)
                          keywords) in
              if (bestScore <? score)%nat then (domain, score) else (bestDomain, bestScore))
      with (domain_step (toLowerCase rt (DeepAnalysis.issue_text issue))).
    by destruct (fold_left _ _ _). }
  destruct (domain_step_fold text DeepAnalysis.domains "general" 0)
    as [[Heq Hall]|(pre & k & post & Hl & Hk & Hb & Hpre & Hpost)].
  - left. split; [by rewrite E, Heq|].
    intros e He. specialize (Hall e He). lia.
  - right. exists pre, k, post. rewrite E.
    split; [exact Hl|]. rewrite Hk. split; [exact Hb|]. by split.
Qed.

Example classifyDomain_urgent_issue :
  DeepAnalysis.classifyDomain plain_runtime urgent_issue = "bug".
Proof. reflexivity. Qed.

(** ** Quality assessment *)

Ltac Qcompute := first [apply Qle_bool_iff; reflexivity | reflexivity].

Lemma assess_facts (solution : Solution) (w : World) :
  draws_in_unit_interval w ->
  exists a w',
    QualityAssessmentNetwork.assess solution w = Returned a w'
    /\ random_source w' = random_source w
    /\ (within 0.7 1 (m_completeness (as_metrics a))
        /\ within 0.8 1 (m_correctness (as_metrics a))
        /\ within 0.75 1 (m_maintainability (as_metrics a))
        /\ within 0.8 1 (m_performance (as_metrics a))
        /\ within 0.85 1 (m_security (as_metrics a))
        /\ within 0.6 0.9 (m_testability (as_metrics a))
        /\ within 0.5 0.85 (m_documentation (as_metrics a)))
    /\ within (5 # 7) 1 (as_score a)
    /\ within 0.85 1 (as_confidence a)
    /\ as_completeness a = m_completeness (as_metrics a)
    /\ as_maintainability a = m_maintainability (as_metrics a)
    /\ (exceeds (as_completeness a) 0.9 <-> has_all_artifacts solution)
    /\ (as_recommendations a = []
        <-> Js.truthy_str (sol_tests solution) = true
            /\ Js.truthy_str (sol_documentation solution) = true)
    /\ (has_all_artifacts solution -> within 0.85 1 (as_score a)).
Proof.
  intros Hd.
  unfold QualityAssessmentNetwork.assess, QualityAssessmentNetwork.assessCorrectness,
    QualityAssessmentNetwork.assessMaintainability, QualityAssessmentNetwork.assessPerformance,
    QualityAssessmentNetwork.assessSecurity, QualityAssessmentNetwork.assessCompleteness,
    QualityAssessmentNetwork.assessTestability, QualityAssessmentNetwork.assessDocumentation,
    QualityAssessmentNetwork.generateRecommendations,
    QualityAssessmentNetwork.Object_values, has_all_artifacts.
  unfold mbind, mret, M_bind, M_ret, Math_random, Date_now.
  cbn [random_source random_used clock_source clock_used].
  eexists. eexists. split; [reflexivity|].
  cbn [as_score as_confidence as_metrics as_recommendations as_completeness as_maintainability
       m_completeness m_correctness m_maintainability m_performance m_security
       m_testability m_documentation length fold_left random_source].
  split; [reflexivity|].
  pose proof (Hd (random_used w)) as H1.
  pose proof (Hd (S (random_used w))) as H2.
  pose proof (Hd (S (S (random_used w)))) as H3.
  pose proof (Hd (S (S (S (random_used w))))) as H4.
  pose proof (Hd (S (S (S (S (random_used w)))))) as H5.
  set (r1 := random_source w (random_used w)) in *.
  set (r2 := random_source w (S (random_used w))) in *.
  set (r3 := random_source w (S (S (random_used w)))) in *.
  set (r4 := random_source w (S (S (S (random_used w))))) in *.
  set (r5 := random_source w (S (S (S (S (random_used w)))))) in *.
  clearbody r1 r2 r3 r4 r5. clear Hd.
  destruct (Js.truthy_str (sol_code solution));
    destruct (Js.truthy_str (sol_tests solution));
    destruct (Js.truthy_str (sol_documentation solution));
    cbn [Js.add Js.mul Js.Math_min Js.lt Js.div Js.of_nat within exceeds app];
    change (Qeq_bool (inject_Z (Z.of_nat 7)) 0) with false; cbv iota;
    repeat match goal with
           | |- context [Js.Qltb ?a ?b] =>
               let v := eval vm_compute in (Js.Qltb a b) in change (Js.Qltb a b) with v
           end;
    repeat match goal with
           | |- context [Qmin ?a ?b] =>
               let v := eval vm_compute in (Qmin a b) in change (Qmin a b) with v
           end;
    change (inject_Z (Z.of_nat 7)) with 7%Q; cbn [app];
    repeat split; intros;
    repeat match goal with H : _ /\ _ |- _ => destruct H end;
    try reflexivity; try discriminate; try lra;
    first [apply Qle_shift_div_l; [reflexivity|lra]
          |apply Qle_shift_div_r; [reflexivity|lra]].
Qed.


Lemma quiet_world_draws : draws_in_unit_interval quiet_world.
Proof. intros k. simpl. lra. Qed.

(** X9: with the random source in [0, 1], every assessment returns
    with each of the seven dimensions inside its band (completeness
    0.7 to 1, correctness 0.8 to 1, maintainability 0.75 to 1,
    performance 0.8 to 1, security 0.85 to 1, testability 0.6 to 0.9,
    documentation 0.5 to 0.85), an overall score between 5/7 and 1 and
    a confidence between 0.85 and 1; the top-level completeness and
    maintainability repeat the metrics. *)
Theorem assess_bounds (solution : Solution) (w : World) :
  draws_in_unit_interval w ->
  exists a w',
    QualityAssessmentNetwork.assess solution w = Returned a w'
    /\ (within 0.7 1 (m_completeness (as_metrics a))
        /\ within 0.8 1 (m_correctness (as_metrics a))
        /\ within 0.75 1 (m_maintainability (as_metrics a))
        /\ within 0.8 1 (m_performance (as_metrics a))
        /\ within 0.85 1 (m_security (as_metrics a))
        /\ within 0.6 0.9 (m_testability (as_metrics a))
        /\ within 0.5 0.85 (m_documentation (as_metrics a)))
    /\ within (5 # 7) 1 (as_score a)
    /\ within 0.85 1 (as_confidence a)
    /\ as_completeness a = m_completeness (as_metrics a)
    /\ as_maintainability a = m_maintainability (as_metrics a).
Proof.
  intros Hd.
  destruct (assess_facts solution w Hd)
    as (a & w' & Hrun & _ & Hm & Hs & Hc & Hcm & Hmt & _).
  exists a, w'. repeat split; try assumption; apply Hm.
Qed.

Lemma assess_bounds_witness :
  exists a w',
    QualityAssessmentNetwork.assess complete_solution quiet_world = Returned a w'
    /\ (within 0.7 1 (m_completeness (as_metrics a))
        /\ within 0.8 1 (m_correctness (as_metrics a))
        /\ within 0.75 1 (m_maintainability (as_metrics a))
        /\ within 0.8 1 (m_performance (as_metrics a))
        /\ within 0.85 1 (m_security (as_metrics a))
        /\ within 0.6 0.9 (m_testability (as_metrics a))
        /\ within 0.5 0.85 (m_documentation (as_metrics a)))
    /\ within (5 # 7) 1 (as_score a)
    /\ within 0.85 1 (as_confidence a)
    /\ as_completeness a = m_completeness (as_metrics a)
    /\ as_maintainability a = m_maintainability (as_metrics a).
Proof.
  apply (assess_bounds complete_solution quiet_world).
  intros k. simpl. split; apply Qle_bool_iff; reflexivity.
Defined.

(** X10: the assessed completeness is above 0.9 exactly when the
    solution has code, tests and documentation, and the assessment
    carries no recommendation exactly when it has tests and
    documentation. *)
Theorem assess_completeness_and_notes (solution : Solution) (w : World) :
  draws_in_unit_interval w ->
  exists a w',
    QualityAssessmentNetwork.assess solution w = Returned a w'
    /\ (exceeds (as_completeness a) 0.9 <-> has_all_artifacts solution)
    /\ (as_recommendations a = []
        <-> Js.truthy_str (sol_tests solution) = true
            /\ Js.truthy_str (sol_documentation solution) = true).
Proof.
  intros Hd.
  destruct (assess_facts solution w Hd)
    as (a & w' & Hrun & _ & _ & _ & _ & _ & _ & Hcomp & Hrecs & _).
  exists a, w'. split; [exact Hrun|]. split; [exact Hcomp|exact Hrecs].
Qed.

Lemma assess_completeness_and_notes_witness :
  exists a w',
    QualityAssessmentNetwork.assess bare_solution quiet_world = Returned a w'
    /\ (exceeds (as_completeness a) 0.9 <-> has_all_artifacts bare_solution)
    /\ (as_recommendations a = []
        <-> Js.truthy_str (sol_tests bare_solution) = true
            /\ Js.truthy_str (sol_documentation bare_solution) = true).
Proof.
  apply (assess_completeness_and_notes bare_solution quiet_world).
  intros k. simpl. split; apply Qle_bool_iff; reflexivity.
Defined.

(** X11: a solution that has code, tests and documentation is always
    assessed with a score above 0.8, a completeness above 0.9 and no
    recommendation, whatever the random source returns. *)
Theorem complete_solution_assessment (solution : Solution) (w : World) :
  draws_in_unit_interval w ->
  has_all_artifacts solution ->
  exists a w',
    QualityAssessmentNetwork.assess solution w = Returned a w'
    /\ exceeds (as_score a) 0.8
    /\ exceeds (as_completeness a) 0.9
    /\ as_recommendations a = [].
Proof.
  intros Hd Hall.
  destruct (assess_facts solution w Hd)
    as (a & w' & Hrun & _ & _ & _ & _ & _ & _ & Hcomp & Hrecs & Hscore).
  exists a, w'. split; [exact Hrun|].
  specialize (Hscore Hall).
  split; [destruct (as_score a); simpl in *; [lra|tauto]|].
  split; [by apply Hcomp|].
  apply Hrecs. destruct Hall as (_ & Ht & Hdoc). by split.
Qed.

Lemma complete_solution_assessment_witness :
  exists a w',
    QualityAssessmentNetwork.assess complete_solution quiet_world = Returned a w'
    /\ exceeds (as_score a) 0.8
    /\ exceeds (as_completeness a) 0.9
    /\ as_recommendations a = [].
Proof.
  apply (complete_solution_assessment complete_solution quiet_world).
  - intros k. simpl. split; apply Qle_bool_iff; reflexivity.
  - repeat split.
Defined.

(** ** Solution synthesis *)

Section GenerationFacts.
Variable pr : Printer.

Lemma generateSingleSolution_returns (id : string) (context : GenerationContext)
    (index : nat) (w : World) :
  exists s w',
    SolutionGenerationNetwork.generateSingleSolution pr id context index w = Returned s w'
    /\ random_source w' = random_source w
    /\ sol_id s = id
    /\ has_all_artifacts s
    /\ length (sol_files s) = 3%nat.
Proof.
  unfold SolutionGenerationNetwork.generateSingleSolution,
    SolutionGenerationNetwork.generateCode.
  unfold mbind, mret, M_bind, M_ret, Math_random.
  cbn [random_source random_used clock_source clock_used].
  eexists. eexists. split; [reflexivity|].
  split; [reflexivity|]. split; [reflexivity|].
  split; [|reflexivity].
  repeat split.
Qed.

Lemma generate_from_returns (uuid : nat -> string) (context : GenerationContext)
    (count index : nat) (w : World) :
  exists sols w',
    SolutionGenerationNetwork.generate_from pr uuid context index count w = Returned sols w'
    /\ random_source w' = random_source w
    /\ length sols = count
    /\ map sol_id sols = map uuid (seq index count)
    /\ Forall (fun s => has_all_artifacts s /\ length (sol_files s) = 3%nat) sols.
Proof.
  revert index w. induction count as [|count IH]; intros index w.
  - exists [], w. repeat split. constructor.
  - cbn [SolutionGenerationNetwork.generate_from].
    destruct (generateSingleSolution_returns (uuid index) context index w)
      as (s & w1 & Hs & Hsrc1 & Hid & Hall & Hfiles).
    destruct (IH (S index) w1) as (rest & w2 & Hrest & Hsrc2 & Hlen & Hids & Hforall).
    exists (s :: rest), w2.
    rewrite (bind_returned _ _ _ _ _ Hs), (bind_returned _ _ _ _ _ Hrest).
    split; [reflexivity|]. split; [congruence|].
    split; [simpl; congruence|].
    split; [simpl; congruence|].
    constructor; [by split|exact Hforall].
Qed.

End GenerationFacts.

(** X12: [generate] always returns between one and three solutions,
    namely min(3, matched patterns + 1) of them, carrying the drawn
    identifiers in order, each with exactly three files and with code,
    tests and documentation present. *)
Theorem generate_solutions (pr : Printer) (uuid : nat -> string)
    (context : GenerationContext) (w : World) :
  exists sols w',
    SolutionGenerationNetwork.generate pr uuid context w = Returned sols w'
    /\ length sols
       = Nat.min 3 (length (match gen_patterns context with
                            | Val patterns => patterns
                            | _ => []
                            end) + 1)
    /\ (1 <= length sols <= 3)%nat
    /\ map sol_id sols = map uuid (seq 0 (length sols))
    /\ Forall (fun s => has_all_artifacts s /\ length (sol_files s) = 3%nat) sols.
Proof.
  unfold SolutionGenerationNetwork.generate. cbv zeta.
  set (n := length _).
  destruct (generate_from_returns pr uuid context (Nat.min 3 (n + 1)) 0 w)
    as (sols & w' & Hrun & _ & Hlen & Hids & Hall).
  exists sols, w'. split; [exact Hrun|]. split; [exact Hlen|].
  split; [lia|]. split; [by rewrite Hlen|exact Hall].
Qed.

(** ** Assessment of all solutions *)

Lemma draws_preserved (w w' : World) :
  random_source w' = random_source w ->
  draws_in_unit_interval w -> draws_in_unit_interval w'.
Proof. intros H Hd k. rewrite H. apply Hd. Qed.

(** What one assessment guarantees about its solution. *)
Lemma assess_all_facts (solutions : list Solution) (w : World) :
  draws_in_unit_interval w ->
  exists assessments w',
    QualityStage.assess_all solutions w = Returned assessments w'
    /\ random_source w' = random_source w
    /\ Forall2 (fun s a =>
                  within (5 # 7) 1 (as_score a)
                  /\ (has_all_artifacts s ->
                      within 0.85 1 (as_score a)
                      /\ exceeds (as_completeness a) 0.9
                      /\ as_recommendations a = []))
               solutions assessments.
Proof.
  revert w. induction solutions as [|s rest IH]; intros w Hd.
  - exists [], w. repeat split. constructor.
  - destruct (assess_facts s w Hd)
      as (a & w1 & Hrun & Hsrc1 & _ & Hs & _ & _ & _ & Hcomp & Hrecs & Hscore).
    destruct (IH w1 (draws_preserved _ _ Hsrc1 Hd)) as (others & w2 & Hrest & Hsrc2 & Hall).
    exists (a :: others), w2.
    cbn [QualityStage.assess_all].
    rewrite (bind_returned _ _ _ _ _ Hrun), (bind_returned _ _ _ _ _ Hrest).
    split; [reflexivity|]. split; [congruence|].
    constructor; [|exact Hall].
    split; [exact Hs|]. intros Hc.
    split; [by apply Hscore|]. split; [by apply Hcomp|].
    apply Hrecs. destruct Hc as (_ & ? & ?). by split.
Qed.

Lemma sum_of_scores (lo hi : Q) (assessments : list Assessment) :
  Forall (fun a => within lo hi (as_score a)) assessments ->
  forall acc : Q,
  exists t : Q,
    fold_left (fun sum assessment => Js.add sum (as_score assessment)) assessments (Num acc)
    = Num t
    /\ (acc + inject_Z (Z.of_nat (length assessments)) * lo <= t)%Q
    /\ (t <= acc + inject_Z (Z.of_nat (length assessments)) * hi)%Q.
Proof.
  induction 1 as [|a l Ha Hl IH]; intros acc.
  - exists acc. split; [reflexivity|].
    change (inject_Z (Z.of_nat (length (@nil Assessment)))) with 0%Q. split; lra.
  - cbn [fold_left length].
    destruct (as_score a) as [q|]; [|contradiction]. simpl in Ha.
    destruct (IH (acc + q)%Q) as (t & Ht & Hlo & Hhi).
    exists t. split; [exact Ht|].
    rewrite Nat2Z.inj_succ. unfold Z.succ. rewrite inject_Z_plus.
    change (inject_Z 1) with 1%Q.
    split; lra.
Qed.

Lemma calculateOverallQuality_range (lo hi : Q) (assessments : list Assessment) :
  assessments <> [] ->
  Forall (fun a => within lo hi (as_score a)) assessments ->
  within lo hi (QualityStage.calculateOverallQuality assessments).
Proof.
  intros Hne Hall.
  unfold QualityStage.calculateOverallQuality.
  destruct assessments as [|a l]; [done|].
  destruct (sum_of_scores lo hi (a :: l) Hall 0) as (t & Ht & Hlo & Hhi).
  change (length (a :: l) =? 0)%nat with false. cbv iota zeta.
  rewrite Ht. unfold Js.of_nat, Js.div.
  set (n := inject_Z (Z.of_nat (length (a :: l)))) in *.
  assert (Hn : (0 < n)%Q).
  { unfold n. change 0%Q with (inject_Z 0). rewrite <- Zlt_Qlt. simpl. lia. }
  destruct (Qeq_bool n 0) eqn:E.
  - apply Qeq_bool_iff in E. lra.
  - simpl. split.
    + apply Qle_shift_div_l; [exact Hn|]. lra.
    + apply Qle_shift_div_r; [exact Hn|]. lra.
Qed.

Lemma generateQualityRecommendations_none (pr : Printer) (assessments : list Assessment) :
  Forall (fun a => within 0.8 1 (as_score a)) assessments ->
  QualityStage.generateQualityRecommendations pr assessments = [].
Proof.
  unfold QualityStage.generateQualityRecommendations.
  intros Hall.
  assert (H : forall (k : nat) (acc : list string),
             fold_left
               (fun recommendations (entry : nat * Assessment) =>
                  let '(index, assessment) := entry in
                  if Js.lt (as_score assessment) (Num 0.8)
                  then recommendations
                       ++ [ "Solution " +:+ show_nat pr (index + 1) +:+ ": "
                            +:+ String.concat ", " (as_recommendations assessment) ]
                  else recommendations)
               (zip (seq k (length assessments)) assessments) acc = acc).
  { induction Hall as [|a l Ha Hl IH]; intros k acc; [reflexivity|].
    cbn [length seq zip zip_with fold_left].
    destruct (as_score a) as [q|] eqn:E; [|contradiction].
    simpl in Ha.
    assert (Hlt : Js.lt (Num q) (Num 0.8) = false).
    { simpl. apply Qltb_false. lra. }
    rewrite Hlt. apply IH. }
  apply H.
Qed.

Lemma zip_with_assessed (solutions : list Solution) (assessments : list Assessment)
    (P : Solution -> Assessment -> Prop) :
  Forall2 P solutions assessments ->
  map asol_solution
      (zip_with (fun solution assessment =>
                   {| asol_solution := solution; asol_assessment := assessment |})
                solutions assessments) = solutions
  /\ map asol_assessment
         (zip_with (fun solution assessment =>
                      {| asol_solution := solution; asol_assessment := assessment |})
                   solutions assessments) = assessments
  /\ Forall (fun s => P (asol_solution s) (asol_assessment s))
            (zip_with (fun solution assessment =>
                         {| asol_solution := solution; asol_assessment := assessment |})
                      solutions assessments).
Proof.
  induction 1 as [|s a ss aa Hsa Hrest (IH1 & IH2 & IH3)]; simpl.
  - repeat split. constructor.
  - rewrite IH1, IH2. repeat split. by constructor.
Qed.

Lemma performQualityAssessment_facts (pr : Printer) (session : ESession)
    (solutions : list Solution) (w : World) :
  draws_in_unit_interval w ->
  exists validation w',
    QualityStage.performQualityAssessment pr session solutions w = Returned validation w'
    /\ map asol_solution (val_solutions validation) = solutions
    /\ val_overallQuality validation
       = QualityStage.calculateOverallQuality
           (map asol_assessment (val_solutions validation))
    /\ Forall (fun s =>
                 within (5 # 7) 1 (score_of s)
                 /\ (has_all_artifacts (asol_solution s) ->
                     within 0.85 1 (score_of s)
                     /\ exceeds (as_completeness (asol_assessment s)) 0.9
                     /\ as_recommendations (asol_assessment s) = []))
              (val_solutions validation)
    /\ (Forall has_all_artifacts solutions -> val_recommendations validation = []).
Proof.
  intros Hd.
  destruct (assess_all_facts solutions w Hd) as (assessments & w1 & Hrun & _ & Hall).
  unfold QualityStage.performQualityAssessment.
  rewrite (bind_returned _ _ _ _ _ Hrun).
  unfold mbind, mret, M_bind, M_ret, Date_now.
  eexists. eexists. split; [reflexivity|].
  cbn [val_solutions val_overallQuality val_recommendations].
  destruct (zip_with_assessed _ _ _ Hall) as (H1 & H2 & H3).
  split; [exact H1|]. split; [by rewrite H2|]. split; [exact H3|].
  intros Hcomplete.
  apply generateQualityRecommendations_none.
  clear -Hall Hcomplete.
  induction Hall as [|s a ss aa (_ & Hsa) Hrest IH]; [constructor|].
  inversion Hcomplete as [|? ? Hs Hss]; subst.
  constructor; [|by apply IH].
  destruct (Hsa Hs) as (Hscore & _).
  destruct (as_score a); simpl in *; [lra|contradiction].
Qed.

Lemma Forall_map_fst {A B} (P : B -> Prop) (f : A -> B) (l : list A) :
  Forall (fun x => P (f x)) l -> Forall P (map f l).
Proof. induction 1; simpl; by constructor. Qed.

(** X13: with the random source in [0, 1], the quality assessment
    carries the session's id and keeps the solutions in order, one
    assessed entry each; the overall quality is 0 for no solution and
    otherwise lies between 5/7 and 1; when every solution has code,
    tests and documentation the overall quality is above 0.8 and no
    recommendation line is produced. *)
Theorem performQualityAssessment_overall (pr : Printer) (session : ESession)
    (solutions : list Solution) (w : World) :
  draws_in_unit_interval w ->
  exists validation w',
    QualityStage.performQualityAssessment pr session solutions w = Returned validation w'
    /\ val_sessionId validation = es_id session
    /\ map asol_solution (val_solutions validation) = solutions
    /\ (solutions = [] -> val_overallQuality validation = Num 0)
    /\ (solutions <> [] -> within (5 # 7) 1 (val_overallQuality validation))
    /\ (solutions <> [] -> Forall has_all_artifacts solutions ->
        exceeds (val_overallQuality validation) 0.8)
    /\ (Forall has_all_artifacts solutions -> val_recommendations validation = []).
Proof.
  intros Hd.
  destruct (performQualityAssessment_facts pr session solutions w Hd)
    as (validation & w' & Hrun & Hsols & Hq & Hall & Hrecs).
  exists validation, w'. split; [exact Hrun|].
  split.
  { revert Hrun. unfold QualityStage.performQualityAssessment.
    destruct (assess_all_facts solutions w Hd) as (assessments & w1 & Ha & _).
    rewrite (bind_returned _ _ _ _ _ Ha).
    unfold mbind, mret, M_bind, M_ret, Date_now. by intros [= <- _]. }
  split; [exact Hsols|].
  assert (Hne : solutions <> [] -> map asol_assessment (val_solutions validation) <> []).
  { intros Hne E. apply Hne. rewrite <- Hsols.
    destruct (val_solutions validation); [reflexivity|discriminate]. }
  split.
  { intros ->. rewrite Hq.
    destruct (val_solutions validation); [reflexivity|discriminate]. }
  split.
  { intros Hn. rewrite Hq.
    apply calculateOverallQuality_range; [by apply Hne|].
    apply Forall_map_fst.
    eapply Forall_impl; [exact Hall|]. by intros s (H & _). }
  split; [|exact Hrecs].
  intros Hn Hcomplete.
  assert (Hhigh : within 0.85 1 (val_overallQuality validation)).
  { rewrite Hq.
    apply calculateOverallQuality_range; [by apply Hne|].
    apply Forall_map_fst.
    rewrite <- Hsols in Hcomplete.
    clear -Hall Hcomplete.
    induction Hall as [|s l (_ & Hs) Hl IH]; [constructor|].
    inversion Hcomplete as [|? ? Hc Hcs]; subst.
    constructor; [by apply Hs|by apply IH]. }
  destruct (val_overallQuality validation); simpl in *; [lra|contradiction].
Qed.

Lemma performQualityAssessment_overall_witness :
  exists validation w',
    QualityStage.performQualityAssessment decimal_printer analysed_session
      [complete_solution; bare_solution] quiet_world = Returned validation w'
    /\ val_sessionId validation = es_id analysed_session
    /\ map asol_solution (val_solutions validation) = [complete_solution; bare_solution]
    /\ ([complete_solution; bare_solution] = [] -> val_overallQuality validation = Num 0)
    /\ ([complete_solution; bare_solution] <> []
        -> within (5 # 7) 1 (val_overallQuality validation))
    /\ ([complete_solution; bare_solution] <> []
        -> Forall has_all_artifacts [complete_solution; bare_solution]
        -> exceeds (val_overallQuality validation) 0.8)
    /\ (Forall has_all_artifacts [complete_solution; bare_solution]
        -> val_recommendations validation = []).
Proof.
  apply (performQualityAssessment_overall decimal_printer analysed_session
           [complete_solution; bare_solution] quiet_world).
  intros k. simpl. split; apply Qle_bool_iff; reflexivity.
Defined.

(** ** Final output *)

Lemma scored_num (s : AssessedSolution) : scored s -> exists q, score_of s = Num q.
Proof. unfold scored. destruct (score_of s) as [q|]; [by exists q|done]. Qed.

Lemma better_cases (best current : nat * AssessedSolution) :
  scored best.2 -> scored current.2 ->
  (QualityStage.better best current = current
   /\ below (score_of best.2) (score_of current.2))
  \/ (QualityStage.better best current = best
      /\ not_above (score_of current.2) (score_of best.2)).
Proof.
  intros Hb Hc. unfold QualityStage.better.
  destruct (scored_num _ Hb) as (b & Eb), (scored_num _ Hc) as (c & Ec).
  unfold score_of in *. rewrite Eb, Ec. simpl.
  destruct (Js.Qltb b c) eqn:E.
  - left. split; [reflexivity|]. by apply Qltb_true.
  - right. split; [reflexivity|]. by apply Qltb_false.
Qed.

Lemma below_trans (x y z : number) : below x y -> below y z -> below x z.
Proof. destruct x, y, z; simpl; try tauto. lra. Qed.

Lemma not_above_below (x y z : number) : not_above x y -> below y z -> below x z.
Proof. destruct x, y, z; simpl; try tauto. lra. Qed.

Lemma not_above_trans (x y z : number) : not_above x y -> not_above y z -> not_above x z.
Proof. destruct x, y, z; simpl; try tauto. lra. Qed.

Lemma below_not_above (x y : number) : below x y -> not_above x y.
Proof. destruct x, y; simpl; try tauto. lra. Qed.

Lemma better_fold (rest : list (nat * AssessedSolution)) :
  forall best : nat * AssessedSolution,
    scored best.2 -> Forall (fun e => scored e.2) rest ->
    (fold_left QualityStage.better rest best = best
     /\ Forall (fun e => not_above (score_of e.2) (score_of best.2)) rest)
    \/ exists pre post,
         rest = pre ++ fold_left QualityStage.better rest best :: post
         /\ below (score_of best.2)
                  (score_of (fold_left QualityStage.better rest best).2)
         /\ Forall (fun e => below (score_of e.2)
                                   (score_of (fold_left QualityStage.better rest best).2)) pre
         /\ Forall (fun e => not_above (score_of e.2)
                                       (score_of (fold_left QualityStage.better rest best).2)) post.
Proof.
  induction rest as [|c l IH]; intros best Hb Hall.
  - left. split; [reflexivity|constructor].
  - inversion Hall as [|? ? Hc Hl]; subst.
    cbn [fold_left].
    destruct (better_cases best c Hb Hc) as [(E & Hlt)|(E & Hle)]; rewrite E.
    + right. destruct (IH c Hc Hl) as [(Er & Hrest)|(pre & post & Hsplit & Hlt' & Hpre & Hpost)].
      * rewrite Er. exists [], l. split; [reflexivity|]. split; [exact Hlt|].
        split; [constructor|exact Hrest].
      * exists (c :: pre), post.
        split; [simpl; by rewrite <- Hsplit|].
        split; [eapply below_trans; eassumption|].
        split; [by constructor|exact Hpost].
    + destruct (IH best Hb Hl) as [(Er & Hrest)|(pre & post & Hsplit & Hlt' & Hpre & Hpost)].
      * left. split; [exact Er|]. by constructor.
      * right. exists (c :: pre), post.
        split; [simpl; by rewrite <- Hsplit|].
        split; [exact Hlt'|].
        split; [|exact Hpost].
        constructor; [|exact Hpre].
        eapply not_above_below; eassumption.
Qed.

Lemma zip_seq_lookup {A} (l : list A) :
  forall (k j : nat) (x : nat * A),
    zip (seq k (length l)) l !! j = Some x -> x.1 = (k + j)%nat.
Proof.
  induction l as [|a l IH]; intros k j x; simpl.
  - by rewrite lookup_nil.
  - destruct j as [|j]; simpl.
    + intros [= <-]. simpl. lia.
    + intros H. apply IH in H. lia.
Qed.

Lemma zip_seq_snd {A} (l : list A) (k : nat) :
  map snd (zip (seq k (length l)) l) = l.
Proof.
  revert k. induction l as [|a l IH]; intros k; simpl; [reflexivity|].
  f_equal. apply IH.
Qed.

Lemma filter_keeps {A} (f : A -> bool) (l : list A) :
  Forall (fun x => f x = true) l -> List.filter f l = l.
Proof. induction 1 as [|x l Hx Hl IH]; simpl; [reflexivity|]. by rewrite Hx, IH. Qed.

(** Removing the entry of one position from the indexed list. *)
Lemma filter_other_positions {A} (l : list A) (pre post : list (nat * A)) (e : nat * A) :
  zip (seq 0 (length l)) l = pre ++ e :: post ->
  List.filter (fun s => negb (Nat.eqb s.1 e.1)) (zip (seq 0 (length l)) l) = pre ++ post.
Proof.
  intros Hsplit.
  assert (He : e.1 = length pre).
  { apply (zip_seq_lookup l 0 (length pre) e).
    rewrite Hsplit. by apply list_lookup_middle. }
  rewrite Hsplit. rewrite List.filter_app. cbn [List.filter].
  rewrite Nat.eqb_refl. cbn [negb].
  rewrite !filter_keeps; [reflexivity| |].
  - apply Forall_forall. intros x Hx.
    apply list_elem_of_lookup in Hx as (j & Hj).
    assert (Hx1 : x.1 = (length pre + S j)%nat).
    { apply (zip_seq_lookup l 0 (length pre + S j) x).
      rewrite Hsplit. rewrite lookup_app_r by lia.
      replace (length pre + S j - length pre)%nat with (S j) by lia. exact Hj. }
    apply negb_true_iff, Nat.eqb_neq. lia.
  - apply Forall_forall. intros x Hx.
    apply list_elem_of_lookup in Hx as (j & Hj).
    assert (Hlt : (j < length pre)%nat) by (eapply lookup_lt_Some; eassumption).
    assert (Hx1 : x.1 = j).
    { apply (zip_seq_lookup l 0 j x).
      rewrite Hsplit. by rewrite lookup_app_l. }
    apply negb_true_iff, Nat.eqb_neq. lia.
Qed.

Lemma Forall_of_map {A B} (P : B -> Prop) (f : A -> B) (l : list A) :
  Forall P (map f l) -> Forall (fun x => P (f x)) l.
Proof.
  induction l as [|x l IH]; simpl; intros H; [constructor|].
  inversion H; subst. constructor; [assumption|by apply IH].
Qed.

(** The entry the reduction picks splits the list of solutions. *)
Lemma best_of_solutions (solutions : list AssessedSolution)
    (first : nat * AssessedSolution) (rest : list (nat * AssessedSolution)) :
  zip (seq 0 (length solutions)) solutions = first :: rest ->
  Forall scored solutions ->
  exists pre post,
    first :: rest = pre ++ fold_left QualityStage.better rest first :: post
    /\ Forall (fun e => below (score_of e.2)
                              (score_of (fold_left QualityStage.better rest first).2)) pre
    /\ Forall (fun e => not_above (score_of e.2)
                                  (score_of (fold_left QualityStage.better rest first).2)) post.
Proof.
  intros Hzip Hall.
  assert (Hscored : Forall (fun e => scored e.2) (first :: rest)).
  { rewrite <- Hzip. rewrite <- (zip_seq_snd solutions 0) in Hall.
    by apply Forall_of_map in Hall. }
  inversion Hscored as [|? ? Hf Hr]; subst.
  destruct (better_fold rest first Hf Hr)
    as [(Er & Hrest)|(pre & post & Hsplit & Hlt & Hpre & Hpost)].
  - exists [], rest. rewrite Er. split; [reflexivity|]. split; [constructor|exact Hrest].
  - exists (first :: pre), post.
    split; [simpl; by rewrite <- Hsplit|].
    split; [by constructor|exact Hpost].
Qed.

(** X14: when the session has its analysis with a classification and
    every score is a number, [generateFinalOutput] returns the first
    solution of highest score: every earlier solution scores strictly
    less, every later one at most as much; its files, its score and
    its completeness are what the result carries, and the alternatives
    are the other solutions in their order. *)
Theorem generateFinalOutput_first_best (pr : Printer) (session : FinishedSession)
    (validation : Validation) (analysis : Analysis) (classification : Classification)
    (w : World) :
  es_analysis (fs_session session) = Val analysis ->
  an_neuralClassification analysis = Val classification ->
  val_solutions validation <> [] ->
  Forall scored (val_solutions validation) ->
  exists output w' pre best post,
    QualityStage.generateFinalOutput pr session validation w = Returned output w'
    /\ val_solutions validation = pre ++ best :: post
    /\ Forall (fun s => below (score_of s) (score_of best)) pre
    /\ Forall (fun s => not_above (score_of s) (score_of best)) post
    /\ fo_solution output = asol_solution best
    /\ impl_files (fo_implementation output) = Val (sol_files (asol_solution best))
    /\ q_score (fo_quality output) = score_of best
    /\ q_completeness (fo_quality output) = as_completeness (asol_assessment best)
    /\ fo_alternatives output = map asol_solution (pre ++ post).
Proof.
  intros Han Hcl Hne Hall.
  unfold QualityStage.generateFinalOutput, QualityStage.describeNeuralPathways. cbv zeta.
  destruct (zip (seq 0 (length (val_solutions validation))) (val_solutions validation))
    as [|first rest] eqn:Hzip.
  { destruct (val_solutions validation); [done|discriminate]. }
  destruct (best_of_solutions _ _ _ Hzip Hall) as (pre & post & Hsplit & Hpre & Hpost).
  rewrite Han.
  unfold receiver, mbind, mret, M_bind, M_ret, Date_now. rewrite Hcl.
  set (best := fold_left QualityStage.better rest first) in *.
  eexists. eexists. exists (map snd pre), best.2, (map snd post).
  split; [reflexivity|].
  cbn [fo_solution fo_implementation fo_quality fo_alternatives impl_files
       q_score q_completeness].
  split.
  { rewrite <- (zip_seq_snd (val_solutions validation) 0), Hzip, Hsplit.
    by rewrite List.map_app. }
  split; [by apply Forall_map_fst|].
  split; [by apply Forall_map_fst|].
  repeat split.
  rewrite <- Hzip.
  rewrite (filter_other_positions _ pre post best) by (by rewrite Hzip).
  rewrite <- List.map_app, List.map_map. reflexivity.
Qed.

Lemma generateFinalOutput_first_best_witness :
  exists output w' pre best post,
    QualityStage.generateFinalOutput decimal_printer finished_session sample_validation
      quiet_world
    = Returned output w'
    /\ val_solutions sample_validation = pre ++ best :: post
    /\ Forall (fun s => below (score_of s) (score_of best)) pre
    /\ Forall (fun s => not_above (score_of s) (score_of best)) post
    /\ fo_solution output = asol_solution best
    /\ impl_files (fo_implementation output) = Val (sol_files (asol_solution best))
    /\ q_score (fo_quality output) = score_of best
    /\ q_completeness (fo_quality output) = as_completeness (asol_assessment best)
    /\ fo_alternatives output = map asol_solution (pre ++ post).
Proof.
  apply (generateFinalOutput_first_best decimal_printer finished_session sample_validation
           classified_analysis
           {| cl_category := "bug"; cl_confidence := Num 60;
              cl_alternatives := []; cl_features := [] |}
           quiet_world).
  - reflexivity.
  - reflexivity.
  - discriminate.
  - repeat constructor; discriminate.
Defined.

(** X15: [generateFinalOutput] returns exactly when there is at least
    one assessed solution and the session has its analysis, with a
    classification; with no solution the reduction throws, without the
    analysis reading its patterns throws, and without the
    classification [describeNeuralPathways] throws. *)
Theorem generateFinalOutput_returns_iff (pr : Printer) (session : FinishedSession)
    (validation : Validation) (w : World) :
  (exists output w',
     QualityStage.generateFinalOutput pr session validation w = Returned output w')
  <-> val_solutions validation <> []
      /\ exists analysis classification,
           es_analysis (fs_session session) = Val analysis
           /\ an_neuralClassification analysis = Val classification.
Proof.
  unfold QualityStage.generateFinalOutput, QualityStage.describeNeuralPathways. cbv zeta.
  destruct (val_solutions validation) as [|s l].
  - simpl. split.
    + intros (output & w' & H). discriminate.
    + intros (H & _). done.
  - cbn [length seq zip zip_with].
    unfold receiver, mbind, mret, M_bind, M_ret, Date_now, throw.
    destruct (es_analysis (fs_session session)) as [| |analysis].
    + split; [intros (? & ? & ?); discriminate|intros (_ & ? & ? & ? & _); discriminate].
    + split; [intros (? & ? & ?); discriminate|intros (_ & ? & ? & ? & _); discriminate].
    + destruct (an_neuralClassification analysis) as [| |classification] eqn:Hcl.
      * split; [intros (? & ? & ?); discriminate|].
        intros (_ & a & c & [= <-] & Hc). rewrite Hcl in Hc. discriminate Hc.
      * split; [intros (? & ? & ?); discriminate|].
        intros (_ & a & c & [= <-] & Hc). rewrite Hcl in Hc. discriminate Hc.
      * split; [intros _; split; [discriminate|by exists analysis, classification]|].
        intros _. eexists. eexists. reflexivity.
Qed.

(** ** From synthesis to the pull request *)

Lemma fold_better_member (rest : list (nat * AssessedSolution))
    (first : nat * AssessedSolution) :
  fold_left QualityStage.better rest first ∈ first :: rest.
Proof.
  revert first. induction rest as [|c l IH]; intros first; simpl.
  - apply list_elem_of_here.
  - specialize (IH (QualityStage.better first c)).
    apply elem_of_cons in IH as [IH|IH].
    + rewrite IH. unfold QualityStage.better.
      destruct (Js.gt _ _).
      * apply list_elem_of_further, list_elem_of_here.
      * apply list_elem_of_here.
    + by do 2 apply list_elem_of_further.
Qed.

Lemma generateFinalOutput_member (pr : Printer) (session : FinishedSession)
    (validation : Validation) (w w' : World) (output : FinalOutput) :
  QualityStage.generateFinalOutput pr session validation w = Returned output w' ->
  exists best,
    best ∈ val_solutions validation
    /\ fo_implementation output
       = {| impl_approach := sol_approach (asol_solution best);
            impl_steps := sol_steps (asol_solution best);
            impl_files := Val (sol_files (asol_solution best));
            impl_code := sol_code (asol_solution best);
            impl_tests := sol_tests (asol_solution best);
            impl_documentation := sol_documentation (asol_solution best) |}
    /\ fo_solution output = asol_solution best
    /\ q_score (fo_quality output) = score_of best
    /\ q_completeness (fo_quality output) = as_completeness (asol_assessment best).
Proof.
  unfold QualityStage.generateFinalOutput, QualityStage.describeNeuralPathways. cbv zeta.
  destruct (zip (seq 0 (length (val_solutions validation))) (val_solutions validation))
    as [|first rest] eqn:Hzip; [discriminate|].
  unfold receiver, mbind, mret, M_bind, M_ret, Date_now, throw.
  destruct (es_analysis (fs_session session)) as [| |analysis]; try discriminate.
  destruct (an_neuralClassification analysis) as [| |classification]; try discriminate.
  intros [= <- _].
  exists (fold_left QualityStage.better rest first).2.
  split; [|repeat split].
  pose proof (fold_better_member rest first) as Hin.
  rewrite <- Hzip in Hin.
  rewrite <- (zip_seq_snd (val_solutions validation) 0).
  apply list_elem_of_In, List.in_map, list_elem_of_In, Hin.
Qed.

(** X16: a result the engine builds from its own generated solutions
    always passes the pull-request test of the orchestrator: whatever
    the random source returns, the selected solution scores above 0.8,
    is more than 0.9 complete and carries three files.  So for such a
    result a pull request is requested exactly when the comment was
    posted and [autoCreatePR] is on. *)
Theorem generated_result_passes_shouldCreatePR
    (pr : Printer) (uuid : nat -> string) (context : GenerationContext)
    (session : FinishedSession) (tables : FileTables) (opts : Options) (github : GitHub)
    (now : Z) (osession : OSession) (hiveMindResult : HiveMindResult)
    (solutions : list Solution) (validation : Validation)
    (w1 w1' w2 w2' w3 w3' : World) :
  draws_in_unit_interval w2 ->
  SolutionGenerationNetwork.generate pr uuid context w1 = Returned solutions w1' ->
  QualityStage.performQualityAssessment pr (fs_session session) solutions w2
  = Returned validation w2' ->
  QualityStage.generateFinalOutput pr session validation w3
  = Returned (hm_result hiveMindResult) w3' ->
  HiveMindOrchestrator.shouldCreatePR
    (HiveMindOrchestrator.processHiveMindResult tables now osession hiveMindResult) = true
  /\ (pull_request_requested
        (HiveMindOrchestrator.publishToGitHub opts github now osession
           (HiveMindOrchestrator.processHiveMindResult tables now osession hiveMindResult)).2
      <-> (exists c, gh_createComment github = ApiOk c) /\ autoCreatePR opts = true).
Proof.
  intros Hd Hgen Hqa Hout.
  assert (Hgate : HiveMindOrchestrator.shouldCreatePR
            (HiveMindOrchestrator.processHiveMindResult tables now osession hiveMindResult)
          = true).
  { unfold SolutionGenerationNetwork.generate in Hgen. cbv zeta in Hgen.
    destruct (generate_from_returns pr uuid context
                (Nat.min 3 (length (match gen_patterns context with
                                    | Val patterns => patterns
                                    | _ => []
                                    end) + 1)) 0 w1)
      as (sols & w1'' & Hrun & _ & _ & _ & Hall).
    rewrite Hrun in Hgen. injection Hgen as <- _.
    destruct (performQualityAssessment_facts pr (fs_session session) sols w2 Hd)
      as (validation' & w2'' & Hrun2 & Hsols & _ & Hfacts & _).
    rewrite Hrun2 in Hqa. injection Hqa as <- _.
    destruct (generateFinalOutput_member _ _ _ _ _ _ Hout)
      as (best & Hin & Himpl & Hsol & Hscore & Hcomp).
    assert (Hbest : has_all_artifacts (asol_solution best)
                    /\ length (sol_files (asol_solution best)) = 3%nat).
    { rewrite Forall_forall in Hall. apply Hall.
      rewrite <- Hsols. apply list_elem_of_In, List.in_map, list_elem_of_In, Hin. }
    rewrite Forall_forall in Hfacts.
    destruct (Hfacts best Hin) as (_ & Hgood).
    destruct (Hgood (proj1 Hbest)) as (Hs & Hc & _).
    apply shouldCreatePR_iff.
    cbn [HiveMindOrchestrator.processHiveMindResult pr_quality pr_artifacts].
    rewrite Hscore, Hcomp.
    split; [destruct (score_of best); simpl in *; [lra|contradiction]|].
    split; [exact Hc|].
    unfold HiveMindOrchestrator.generateImplementationArtifacts. cbv zeta.
    cbn [art_files]. rewrite Himpl. cbn [impl_files]. rewrite length_map.
    destruct Hbest as (_ & ->). lia. }
  split; [exact Hgate|].
  rewrite publishToGitHub_events. rewrite Hgate. tauto.
Qed.

Lemma generated_result_passes_shouldCreatePR_witness :
  exists hiveMindResult : HiveMindResult,
    HiveMindOrchestrator.shouldCreatePR
      (HiveMindOrchestrator.processHiveMindResult sample_tables 0 sample_session
         hiveMindResult) = true
    /\ (pull_request_requested
          (HiveMindOrchestrator.publishToGitHub sample_options willing_github 0
             sample_session
             (HiveMindOrchestrator.processHiveMindResult sample_tables 0 sample_session
                hiveMindResult)).2
        <-> (exists c, gh_createComment willing_github = ApiOk c)
            /\ autoCreatePR sample_options = true).
Proof.
  eexists {| hm_sessionId := "engine-session";
             hm_duration := 10;
             hm_agentsUsed := 2;
             hm_patternsRecognized := 0;
             hm_qualityScore := Num 0.85;
             hm_result := _ |}.
  eapply (generated_result_passes_shouldCreatePR decimal_printer sample_uuid
            sample_context finished_session sample_tables sample_options willing_github
            0 sample_session _ _ _ quiet_world _ quiet_world _ quiet_world _).
  - intros k. simpl. split; apply Qle_bool_iff; reflexivity.
  - vm_compute. reflexivity.
  - vm_compute. reflexivity.
  - vm_compute. reflexivity.
Defined.

(** ** Classification *)

Lemma score_categories_facts (analysis : Analysis) (cats : list string) (w : World) :
  draws_in_unit_interval w ->
  exists scores w',
    ProblemClassificationNetwork.score_categories analysis cats w = Returned scores w'
    /\ random_source w' = random_source w
    /\ map sc_category scores = cats
    /\ Forall (fun s => within 0.6 1 (sc_score s)) scores.
Proof.
  revert w. induction cats as [|c cats IH]; intros w Hd.
  - exists [], w. repeat split. constructor.
  - cbn [ProblemClassificationNetwork.score_categories].
    unfold mbind, mret, M_bind, M_ret, Math_random.
    set (w1 := {| random_source := random_source w;
                  random_used := S (random_used w);
                  clock_source := clock_source w;
                  clock_used := clock_used w |}).
    destruct (IH w1) as (others & w2 & Hrun & Hsrc & Hcats & Hall).
    { intros k. apply Hd. }
    unfold mbind, mret, M_bind, M_ret in Hrun. rewrite Hrun.
    eexists. eexists. split; [reflexivity|].
    split; [exact Hsrc|]. split; [simpl; by rewrite Hcats|].
    constructor; [|exact Hall].
    pose proof (Hd (random_used w)) as Hr.
    cbn [sc_score within Js.add Js.mul]. split; lra.
Qed.

Lemma best_of_cases (a b : nat * ScoredCategory) :
  sc_score a.2 <> NaN -> sc_score b.2 <> NaN ->
  ((if Js.gt (sc_score a.2) (sc_score b.2) then a else b) = a
   /\ below (sc_score b.2) (sc_score a.2))
  \/ ((if Js.gt (sc_score a.2) (sc_score b.2) then a else b) = b
      /\ not_above (sc_score a.2) (sc_score b.2)).
Proof.
  intros Ha Hb.
  destruct (sc_score a.2) as [x|]; [|done].
  destruct (sc_score b.2) as [y|]; [|done].
  simpl. destruct (Js.Qltb y x) eqn:E.
  - left. split; [reflexivity|]. by apply Qltb_true.
  - right. split; [reflexivity|]. by apply Qltb_false.
Qed.

Lemma best_of_fold (rest : list (nat * ScoredCategory)) :
  forall first : nat * ScoredCategory,
    sc_score first.2 <> NaN -> Forall (fun e => sc_score e.2 <> NaN) rest ->
    (ProblemClassificationNetwork.best_of rest first = first
     /\ Forall (fun e => below (sc_score e.2) (sc_score first.2)) rest)
    \/ exists pre post,
         rest = pre ++ ProblemClassificationNetwork.best_of rest first :: post
         /\ not_above (sc_score first.2)
                      (sc_score (ProblemClassificationNetwork.best_of rest first).2)
         /\ Forall (fun e => not_above (sc_score e.2)
                       (sc_score (ProblemClassificationNetwork.best_of rest first).2)) pre
         /\ Forall (fun e => below (sc_score e.2)
                       (sc_score (ProblemClassificationNetwork.best_of rest first).2)) post.
Proof.
  unfold ProblemClassificationNetwork.best_of.
  induction rest as [|c l IH]; intros first Hf Hall.
  - left. split; [reflexivity|constructor].
  - inversion Hall as [|? ? Hc Hl]; subst.
    cbn [fold_left].
    destruct (best_of_cases first c Hf Hc) as [(E & Hlt)|(E & Hle)]; rewrite E.
    + destruct (IH first Hf Hl) as [(Er & Hrest)|(pre & post & Hsplit & Hle' & Hpre & Hpost)].
      * left. split; [exact Er|]. by constructor.
      * right. exists (c :: pre), post.
        split; [simpl; by rewrite <- Hsplit|].
        split; [exact Hle'|].
        split; [|exact Hpost].
        constructor; [|exact Hpre].
        eapply not_above_trans; [apply below_not_above; exact Hlt|exact Hle'].
    + right.
      destruct (IH c Hc Hl) as [(Er & Hrest)|(pre & post & Hsplit & Hle' & Hpre & Hpost)].
      * rewrite Er. exists [], l. split; [reflexivity|]. split; [exact Hle|].
        split; [constructor|exact Hrest].
      * exists (c :: pre), post.
        split; [simpl; by rewrite <- Hsplit|].
        split; [eapply not_above_trans; eassumption|].
        split; [by constructor|exact Hpost].
Qed.

Lemma round_percent_range (q : Q) :
  (0.6 <= q <= 1)%Q -> within 60 100 (Js.Math_round (Js.mul (Num q) (Num 100))).
Proof.
  intros Hq. cbn [Js.mul Js.Math_round within].
  destruct (Qfloor_between (q * 100 + 0.5) 60 101) as (Hlo & Hhi).
  - change (inject_Z 60) with 60%Q. lra.
  - change (inject_Z 101) with 101%Q. lra.
  - set (z := Qfloor (q * 100 + 0.5)) in *.
    change 60%Q with (inject_Z 60). change 100%Q with (inject_Z 100).
    rewrite <- !Zle_Qle. lia.
Qed.

(** X17: with the random source in [0, 1], [classify] returns the
    last category of highest score (every earlier category scores at
    most as much, every later one strictly less), a confidence that is
    that score in percent, rounded, between 60 and 100, and as
    alternatives the five other categories, in descending order of
    score. *)
Theorem classify_last_maximum (analysis : Analysis) (w : World) :
  draws_in_unit_interval w ->
  exists classification w' pre best post,
    ProblemClassificationNetwork.classify analysis w = Returned classification w'
    /\ map sc_category (pre ++ best :: post) = ProblemClassificationNetwork.categories
    /\ Forall (fun s => not_above (sc_score s) (sc_score best)) pre
    /\ Forall (fun s => below (sc_score s) (sc_score best)) post
    /\ cl_category classification = sc_category best
    /\ cl_features classification = sc_features best
    /\ cl_confidence classification = Js.Math_round (Js.mul (sc_score best) (Num 100))
    /\ within 60 100 (cl_confidence classification)
    /\ cl_alternatives classification ≡ₚ pre ++ post
    /\ StronglySorted category_score_ge (cl_alternatives classification).
Proof.
  intros Hd.
  destruct (score_categories_facts analysis ProblemClassificationNetwork.categories w Hd)
    as (scores & w1 & Hrun & _ & Hcats & Hrange).
  unfold ProblemClassificationNetwork.classify.
  rewrite (bind_returned _ _ _ _ _ Hrun).
  assert (Hnum : Forall (fun s => sc_score s <> NaN) scores).
  { eapply Forall_impl; [exact Hrange|]. intros s Hs. simpl in Hs.
    destruct (sc_score s); [discriminate|contradiction]. }
  destruct (zip (seq 0 (length scores)) scores) as [|first rest] eqn:Hzip.
  { destruct scores; [discriminate Hcats|discriminate Hzip]. }
  assert (Hnum' : Forall (fun e : nat * ScoredCategory => sc_score e.2 <> NaN) (first :: rest)).
  { rewrite <- Hzip. rewrite <- (zip_seq_snd scores 0) in Hnum.
    by apply Forall_of_map in Hnum. }
  inversion Hnum' as [|? ? Hf Hr]; subst.
  assert (Hsplit : exists pre post,
             first :: rest = pre ++ ProblemClassificationNetwork.best_of rest first :: post
             /\ Forall (fun e => not_above (sc_score e.2)
                         (sc_score (ProblemClassificationNetwork.best_of rest first).2)) pre
             /\ Forall (fun e => below (sc_score e.2)
                         (sc_score (ProblemClassificationNetwork.best_of rest first).2)) post).
  { destruct (best_of_fold rest first Hf Hr)
      as [(Er & Hrest)|(pre & post & Hs & Hle & Hpre & Hpost)].
    - exists [], rest. rewrite Er. split; [reflexivity|]. split; [constructor|exact Hrest].
    - exists (first :: pre), post.
      split; [simpl; by rewrite <- Hs|]. split; [by constructor|exact Hpost]. }
  destruct Hsplit as (pre & post & Hs & Hpre & Hpost).
  set (best := ProblemClassificationNetwork.best_of rest first) in *.
  assert (Hscores : scores = map snd pre ++ best.2 :: map snd post).
  { rewrite <- (zip_seq_snd scores 0), Hzip, Hs. by rewrite List.map_app. }
  unfold mret, M_ret.
  eexists. eexists. exists (map snd pre), best.2, (map snd post).
  split; [reflexivity|].
  cbn [cl_category cl_features cl_confidence cl_alternatives].
  split; [by rewrite <- Hscores|].
  split; [by apply Forall_map_fst|].
  split; [by apply Forall_map_fst|].
  split; [reflexivity|]. split; [reflexivity|]. split; [reflexivity|].
  assert (Hbest : within 0.6 1 (sc_score best.2)).
  { rewrite Forall_forall in Hrange. apply Hrange.
    rewrite Hscores. apply elem_of_app. right. apply list_elem_of_here. }
  split.
  { destruct (sc_score best.2) as [q|]; [|contradiction].
    by apply round_percent_range. }
  rewrite <- Hzip.
  rewrite (filter_other_positions _ pre post best) by (by rewrite Hzip).
  split.
  { rewrite Array_sort_perm. by rewrite List.map_app. }
  apply (Array_sort_sorted _ category_score_ge (fun s => sc_score s <> NaN)).
  - intros a b c. unfold category_score_ge. intros Hab Hbc.
    eapply not_above_trans; eassumption.
  - intros a b Ha Hb. unfold category_score_ge.
    destruct (sc_score a) as [x|]; [|done]. destruct (sc_score b) as [y|]; [|done].
    simpl. intros H. apply Qle_bool_iff in H. lra.
  - intros a b Ha Hb. unfold category_score_ge.
    destruct (sc_score a) as [x|]; [|done]. destruct (sc_score b) as [y|]; [|done].
    simpl. intros H.
    destruct (Qlt_le_dec 0 (y - x)) as [Hlt|Hle]; [lra|].
    apply Qle_bool_iff in Hle. congruence.
  - rewrite List.map_app. rewrite Hscores in Hnum.
    apply Forall_app in Hnum as (Hp & Hq). apply Forall_cons in Hq as (_ & Hq).
    apply Forall_app. by split.
Qed.

Lemma classify_last_maximum_witness :
  exists classification w' pre best post,
    ProblemClassificationNetwork.classify sample_analysis quiet_world
    = Returned classification w'
    /\ map sc_category (pre ++ best :: post) = ProblemClassificationNetwork.categories
    /\ Forall (fun s => not_above (sc_score s) (sc_score best)) pre
    /\ Forall (fun s => below (sc_score s) (sc_score best)) post
    /\ cl_category classification = sc_category best
    /\ cl_features classification = sc_features best
    /\ cl_confidence classification = Js.Math_round (Js.mul (sc_score best) (Num 100))
    /\ within 60 100 (cl_confidence classification)
    /\ cl_alternatives classification ≡ₚ pre ++ post
    /\ StronglySorted category_score_ge (cl_alternatives classification).
Proof.
  apply (classify_last_maximum sample_analysis quiet_world).
  intros k. simpl. split; apply Qle_bool_iff; reflexivity.
Defined.

(** ** The orchestrator's registries and records *)

Lemma publishToGitHub_pair opts github now session result :
  exists githubResult published,
    HiveMindOrchestrator.publishToGitHub opts github now session result
    = (githubResult, published).
Proof.
  destruct (HiveMindOrchestrator.publishToGitHub opts github now session result) as [g p].
  by exists g, p.
Qed.

(** X18: a call of [resolveIssue] under an identifier that names no
    active session and no engine leaves both registries and the
    options as it found them, whether it resolves or fails at the
    capacity check, the fetch, or inside the engine. *)
Theorem resolveIssue_registries_restored (tables : FileTables) (orch : Orchestrator)
    (issueData : Issue) (env : CallEnv) :
  activeSessions orch !! env_uuid env = None ->
  env_uuid env ∉ engines orch ->
  activeSessions (HiveMindOrchestrator.resolveIssue tables orch issueData env).2
  = activeSessions orch
  /\ engines (HiveMindOrchestrator.resolveIssue tables orch issueData env).2 = engines orch
  /\ options (HiveMindOrchestrator.resolveIssue tables orch issueData env).2 = options orch.
Proof.
  intros Hfresh Hengine.
  assert (Hset : ({[env_uuid env]} ∪ engines orch) ∖ {[env_uuid env]} = engines orch).
  { apply set_eq. intros id.
    rewrite elem_of_difference, elem_of_union, !elem_of_singleton.
    split.
    - intros [[E|Hin] Hne]; [by destruct Hne|exact Hin].
    - intros Hin. split; [by right|]. intros ->. by apply Hengine. }
  unfold HiveMindOrchestrator.resolveIssue, HiveMindOrchestrator.resolveIssue_try.
  cbv zeta.
  destruct (maxConcurrentSessions (options orch) <=? Z.of_nat (size (activeSessions orch)))%Z.
  { by rewrite Hfresh. }
  destruct (gh_fetchIssue (env_github env)) as [completeIssue|message status].
  2: { cbn [HiveMindOrchestrator.record activeSessions]. by rewrite Hfresh. }
  destruct (env_hiveMind env) as [hiveMindResult|message].
  - match goal with
    | |- context [HiveMindOrchestrator.publishToGitHub ?o ?g ?n ?s ?r] =>
        destruct (publishToGitHub_pair o g n s r) as (githubResult & published & ->)
    end.
    unfold HiveMindOrchestrator.persistResults.
    destruct (env_storage_writable env);
      cbn [snd HiveMindOrchestrator.cleanup HiveMindOrchestrator.record
           activeSessions engines options];
      rewrite delete_insert_id by exact Hfresh; by rewrite Hset.
  - cbn [activeSessions]. rewrite lookup_insert_eq.
    unfold HiveMindOrchestrator.persistResults.
    destruct (env_storage_writable env);
      cbn [snd HiveMindOrchestrator.cleanup HiveMindOrchestrator.record
           activeSessions engines options];
      rewrite delete_insert_id by exact Hfresh; by rewrite Hset.
Qed.

Lemma resolveIssue_registries_restored_witness :
  activeSessions (HiveMindOrchestrator.resolveIssue sample_tables idle_orchestrator
                    plain_issue successful_call).2
  = activeSessions idle_orchestrator
  /\ engines (HiveMindOrchestrator.resolveIssue sample_tables idle_orchestrator
                plain_issue successful_call).2 = engines idle_orchestrator
  /\ options (HiveMindOrchestrator.resolveIssue sample_tables idle_orchestrator
                plain_issue successful_call).2 = options idle_orchestrator.
Proof.
  apply (resolveIssue_registries_restored sample_tables idle_orchestrator plain_issue
           successful_call).
  - reflexivity.
  - apply not_elem_of_empty.
Defined.

(** X19: [resolveIssue] resolves exactly when the orchestrator is
    below its capacity, the issue could be fetched and the engine
    returned a result; a failure while publishing (comment, labels or
    pull request) never fails the call.  The error of a failed call
    tells which of the three went wrong, in that order. *)
Theorem resolveIssue_outcome (tables : FileTables) (orch : Orchestrator)
    (issueData : Issue) (env : CallEnv) :
  match (HiveMindOrchestrator.resolveIssue tables orch issueData env).1 with
  | Resolved resolution =>
      (Z.of_nat (size (activeSessions orch)) < maxConcurrentSessions (options orch))%Z
      /\ exists completeIssue hiveMindResult,
           gh_fetchIssue (env_github env) = ApiOk completeIssue
           /\ env_hiveMind env = inl hiveMindResult
           /\ res_orchestrationId resolution = env_uuid env
           /\ res_issueNumber resolution = issue_number completeIssue
           /\ res_engines resolution = 1%nat
           /\ res_agents resolution = hm_agentsUsed hiveMindResult
           /\ res_qualityScore resolution = hm_qualityScore hiveMindResult
  | Rejected MaximumConcurrentSessionsReached =>
      (maxConcurrentSessions (options orch) <= Z.of_nat (size (activeSessions orch)))%Z
  | Rejected (UnableToFetchIssue issueNumber cause) =>
      (Z.of_nat (size (activeSessions orch)) < maxConcurrentSessions (options orch))%Z
      /\ issueNumber = issue_number issueData
      /\ exists status, gh_fetchIssue (env_github env) = ApiError cause status
  | Rejected (EngineFailure message) =>
      (Z.of_nat (size (activeSessions orch)) < maxConcurrentSessions (options orch))%Z
      /\ (exists completeIssue, gh_fetchIssue (env_github env) = ApiOk completeIssue)
      /\ env_hiveMind env = inr message
  end.
Proof.
  unfold HiveMindOrchestrator.resolveIssue, HiveMindOrchestrator.resolveIssue_try.
  cbv zeta.
  destruct (Z.leb_spec (maxConcurrentSessions (options orch))
                       (Z.of_nat (size (activeSessions orch)))) as [Hfull|Hfree].
  { by destruct (activeSessions orch !! env_uuid env). }
  destruct (gh_fetchIssue (env_github env)) as [completeIssue|message status].
  2: { cbn [HiveMindOrchestrator.record activeSessions].
       destruct (activeSessions orch !! env_uuid env); cbn [fst];
         (split; [exact Hfree|split; [reflexivity|by exists status]]). }
  destruct (env_hiveMind env) as [hiveMindResult|message].
  - match goal with
    | |- context [HiveMindOrchestrator.publishToGitHub ?o ?g ?n ?s ?r] =>
        destruct (publishToGitHub_pair o g n s r) as (githubResult & published & ->)
    end.
    cbn [fst]. split; [exact Hfree|].
    exists completeIssue, hiveMindResult. by repeat split.
  - cbn [activeSessions]. rewrite lookup_insert_eq. cbn [fst].
    split; [exact Hfree|]. split; [by exists completeIssue|reflexivity].
Qed.

(** X20: what a call leaves in the results file when the file can be
    written.  A resolved call stores, under its identifier, a record
    with status "completed", success and no error; a call that failed
    inside the engine stores one with status "failed", no success and
    the error; a call that failed at the capacity check or at the
    fetch stores nothing.  Records under other identifiers are never
    touched. *)
Theorem resolveIssue_results_file (tables : FileTables) (orch : Orchestrator)
    (issueData : Issue) (env : CallEnv) :
  env_storage_writable env = true ->
  activeSessions orch !! env_uuid env = None ->
  let after := results_file (HiveMindOrchestrator.resolveIssue tables orch issueData env).2 in
  (forall id, id <> env_uuid env -> after !! id = results_file orch !! id)
  /\ match (HiveMindOrchestrator.resolveIssue tables orch issueData env).1 with
     | Resolved resolution =>
         after !! env_uuid env
         = Some {| rec_timestamp := env_now env;
                   rec_issueNumber := res_issueNumber resolution;
                   rec_status := "completed";
                   rec_success := true;
                   rec_error := None |}
     | Rejected (EngineFailure message) =>
         exists issueNumber,
           after !! env_uuid env
           = Some {| rec_timestamp := env_now env;
                     rec_issueNumber := issueNumber;
                     rec_status := "failed";
                     rec_success := false;
                     rec_error := Some {| err_error := EngineFailure message;
                                          err_timestamp := env_now env |} |}
     | Rejected _ => after = results_file orch
     end.
Proof.
  intros Hwrite Hfresh after. subst after.
  unfold HiveMindOrchestrator.resolveIssue, HiveMindOrchestrator.resolveIssue_try.
  cbv zeta.
  destruct (maxConcurrentSessions (options orch) <=? Z.of_nat (size (activeSessions orch)))%Z.
  { rewrite Hfresh. by split. }
  destruct (gh_fetchIssue (env_github env)) as [completeIssue|message status].
  2: { cbn [HiveMindOrchestrator.record activeSessions]. rewrite Hfresh. by split. }
  destruct (env_hiveMind env) as [hiveMindResult|message].
  - match goal with
    | |- context [HiveMindOrchestrator.publishToGitHub ?o ?g ?n ?s ?r] =>
        destruct (publishToGitHub_pair o g n s r) as (githubResult & published & ->)
    end.
    unfold HiveMindOrchestrator.persistResults. rewrite Hwrite.
    cbn [fst snd HiveMindOrchestrator.cleanup HiveMindOrchestrator.record
         HiveMindOrchestrator.set_status results_file os_id os_status os_error
         os_issueNumber res_issueNumber].
    split.
    + intros id Hid. by rewrite lookup_insert_ne.
    + by rewrite lookup_insert_eq.
  - cbn [activeSessions]. rewrite lookup_insert_eq.
    unfold HiveMindOrchestrator.persistResults. rewrite Hwrite.
    cbn [fst snd HiveMindOrchestrator.cleanup HiveMindOrchestrator.record
         results_file os_id os_status os_error os_issueNumber].
    split.
    + intros id Hid. by rewrite lookup_insert_ne.
    + eexists. by rewrite lookup_insert_eq.
Qed.

Lemma resolveIssue_results_file_witness :
  let after := results_file (HiveMindOrchestrator.resolveIssue sample_tables idle_orchestrator
                               plain_issue successful_call).2 in
  (forall id, id <> env_uuid successful_call
              -> after !! id = results_file idle_orchestrator !! id)
  /\ match (HiveMindOrchestrator.resolveIssue sample_tables idle_orchestrator plain_issue
              successful_call).1 with
     | Resolved resolution =>
         after !! env_uuid successful_call
         = Some {| rec_timestamp := env_now successful_call;
                   rec_issueNumber := res_issueNumber resolution;
                   rec_status := "completed";
                   rec_success := true;
                   rec_error := None |}
     | Rejected (EngineFailure message) =>
         exists issueNumber,
           after !! env_uuid successful_call
           = Some {| rec_timestamp := env_now successful_call;
                     rec_issueNumber := issueNumber;
                     rec_status := "failed";
                     rec_success := false;
                     rec_error := Some {| err_error := EngineFailure message;
                                          err_timestamp := env_now successful_call |} |}
     | Rejected _ => after = results_file idle_orchestrator
     end.
Proof.
  apply (resolveIssue_results_file sample_tables idle_orchestrator plain_issue
           successful_call).
  - reflexivity.
  - reflexivity.
Defined.

(** ** Collaboration and consensus *)

Lemma arr_includes_elem_of (l : list string) (x : string) :
  Js.arr_includes l x = true <-> x ∈ l.
Proof.
  unfold Js.arr_includes. rewrite existsb_exists. split.
  - intros (y & Hy & E). apply String.eqb_eq in E. subst. by apply list_elem_of_In.
  - intros H. exists x. split; [by apply list_elem_of_In|apply String.eqb_refl].
Qed.

Lemma Set_add_elem_of (topics : list string) (topic t : string) :
  t ∈ Collaboration.Set_add topics topic <-> t ∈ topics \/ t = topic.
Proof.
  unfold Collaboration.Set_add.
  destruct (Js.arr_includes topics topic) eqn:E.
  - apply arr_includes_elem_of in E. split; [by left|]. intros [H| ->]; assumption.
  - rewrite elem_of_app, list_elem_of_singleton. reflexivity.
Qed.

Lemma Set_add_NoDup (topics : list string) (topic : string) :
  NoDup topics -> NoDup (Collaboration.Set_add topics topic).
Proof.
  intros Hnd. unfold Collaboration.Set_add.
  destruct (Js.arr_includes topics topic) eqn:E; [exact Hnd|].
  apply NoDup_app. split; [exact Hnd|]. split.
  - intros x Hx Hx'. apply list_elem_of_singleton in Hx'. subst.
    apply arr_includes_elem_of in Hx. congruence.
  - apply NoDup_singleton.
Qed.

(** A loop that only adds to a set kept as a list. *)
Section GrowingSet.
Context {A : Type} (step : list string -> A -> list string) (adds : A -> string -> Prop).
Hypothesis step_NoDup : forall topics x, NoDup topics -> NoDup (step topics x).
Hypothesis step_elem_of :
  forall topics x t, t ∈ step topics x <-> t ∈ topics \/ adds x t.

Lemma fold_grows_NoDup (l : list A) (topics : list string) :
  NoDup topics -> NoDup (fold_left step l topics).
Proof.
  revert topics. induction l as [|x l IH]; intros topics Hnd; [exact Hnd|].
  simpl. apply IH, step_NoDup, Hnd.
Qed.

Lemma fold_grows_elem_of (l : list A) (topics : list string) (t : string) :
  t ∈ fold_left step l topics <-> t ∈ topics \/ exists x, x ∈ l /\ adds x t.
Proof.
  revert topics. induction l as [|x l IH]; intros topics; simpl.
  - split; [by left|]. intros [H|(x & Hx & _)]; [exact H|]. by apply elem_of_nil in Hx.
  - rewrite IH, step_elem_of. split.
    + intros [[H|H]|(y & Hy & H)].
      * by left.
      * right. exists x. split; [apply list_elem_of_here|exact H].
      * right. exists y. split; [by apply list_elem_of_further|exact H].
    + intros [H|(y & Hy & H)]; [by left; left|].
      apply elem_of_cons in Hy as [->|Hy]; [by left; right|].
      right. by exists y.
Qed.

End GrowingSet.

Lemma finding_adds_cases (finding topic : string) :
  finding_adds finding topic
  <-> (includes finding "complexity" = true /\ topic = "complexity-assessment")
      \/ (includes finding "approach" = true /\ topic = "solution-approach")
      \/ (includes finding "risk" = true /\ topic = "risk-mitigation")
      \/ (includes finding "testing" = true /\ topic = "testing-strategy").
Proof.
  unfold finding_adds, topic_keywords. split.
  - intros (keyword & Hin & Hinc).
    repeat (apply elem_of_cons in Hin as [Hin|Hin];
            [injection Hin as -> ->; tauto|]).
    by apply elem_of_nil in Hin.
  - intros [(H & ->)|[(H & ->)|[(H & ->)|(H & ->)]]].
    + exists "complexity". split; [|exact H]. apply list_elem_of_here.
    + exists "approach". split; [|exact H].
      apply list_elem_of_further, list_elem_of_here.
    + exists "risk". split; [|exact H].
      do 2 apply list_elem_of_further. apply list_elem_of_here.
    + exists "testing". split; [|exact H].
      do 3 apply list_elem_of_further. apply list_elem_of_here.
Qed.

(** X21: the discussion topics are a duplicate-free list of at most
    four of the names complexity-assessment, solution-approach,
    risk-mitigation and testing-strategy, and a name is listed exactly
    when some finding of some analysis contains its keyword
    (complexity, approach, risk, testing), in lower case. *)
Theorem identifyDiscussionTopics_topics (analyses : list AgentAnalysis) :
  NoDup (Collaboration.identifyDiscussionTopics analyses)
  /\ (forall topic, topic ∈ Collaboration.identifyDiscussionTopics analyses
                    -> topic ∈ topic_names)
  /\ (length (Collaboration.identifyDiscussionTopics analyses) <= 4)%nat
  /\ (forall keyword topic,
        (keyword, topic) ∈ topic_keywords ->
        (topic ∈ Collaboration.identifyDiscussionTopics analyses
         <-> mentioned analyses keyword)).
Proof.
  set (inner := fun (topics : list string) (finding : string) =>
         let topics :=
           if includes finding "complexity"
           then Collaboration.Set_add topics "complexity-assessment" else topics in
         let topics :=
           if includes finding "approach"
           then Collaboration.Set_add topics "solution-approach" else topics in
         let topics :=
           if includes finding "risk"
           then Collaboration.Set_add topics "risk-mitigation" else topics in
         let topics :=
           if includes finding "testing"
           then Collaboration.Set_add topics "testing-strategy" else topics in
         topics).
  set (outer := fun (topics : list string) (analysis : AgentAnalysis) =>
         fold_left inner (aa_findings analysis) topics).
  assert (Hinner_nd : forall topics f, NoDup topics -> NoDup (inner topics f)).
  { intros topics f Hnd. unfold inner.
    destruct (includes f "complexity"), (includes f "approach"),
      (includes f "risk"), (includes f "testing");
      cbv zeta; repeat apply Set_add_NoDup; exact Hnd. }
  assert (Hinner_in : forall topics f t,
             t ∈ inner topics f <-> t ∈ topics \/ finding_adds f t).
  { intros topics f t. rewrite finding_adds_cases. unfold inner.
    destruct (includes f "complexity"), (includes f "approach"),
      (includes f "risk"), (includes f "testing");
      cbv zeta; rewrite ?Set_add_elem_of;
      intuition (discriminate || auto). }
  assert (Houter_nd : forall topics a, NoDup topics -> NoDup (outer topics a)).
  { intros topics a Hnd. unfold outer.
    by apply (fold_grows_NoDup inner Hinner_nd). }
  assert (Houter_in : forall topics a t,
             t ∈ outer topics a
             <-> t ∈ topics \/ exists f, f ∈ aa_findings a /\ finding_adds f t).
  { intros topics a t. unfold outer.
    apply (fold_grows_elem_of inner finding_adds Hinner_in). }
  assert (Hall : forall t,
             t ∈ Collaboration.identifyDiscussionTopics analyses
             <-> exists a, a ∈ analyses /\ exists f, f ∈ aa_findings a /\ finding_adds f t).
  { intros t.
    change (Collaboration.identifyDiscussionTopics analyses)
      with (fold_left outer analyses []).
    rewrite (fold_grows_elem_of outer
               (fun a t => exists f, f ∈ aa_findings a /\ finding_adds f t) Houter_in).
    split; [|by right].
    intros [H|H]; [by apply elem_of_nil in H|exact H]. }
  assert (Hnd : NoDup (Collaboration.identifyDiscussionTopics analyses)).
  { change (Collaboration.identifyDiscussionTopics analyses)
      with (fold_left outer analyses []).
    apply (fold_grows_NoDup outer Houter_nd). apply NoDup_nil_2. }
  assert (Hsub : forall topic, topic ∈ Collaboration.identifyDiscussionTopics analyses
                               -> topic ∈ topic_names).
  { intros t Ht. apply Hall in Ht as (a & _ & f & _ & Hadds).
    apply finding_adds_cases in Hadds.
    unfold topic_names.
    destruct Hadds as [(_ & ->)|[(_ & ->)|[(_ & ->)|(_ & ->)]]].
    - apply list_elem_of_here.
    - apply list_elem_of_further, list_elem_of_here.
    - do 2 apply list_elem_of_further. apply list_elem_of_here.
    - do 3 apply list_elem_of_further. apply list_elem_of_here. }
  split; [exact Hnd|]. split; [exact Hsub|]. split.
  { change 4%nat with (length topic_names).
    apply submseteq_length, NoDup_submseteq; [exact Hnd|exact Hsub]. }
  intros keyword topic Hin. rewrite Hall. unfold mentioned. split.
  - intros (a & Ha & f & Hf & kw & Hkw & Hinc).
    exists a, f. split; [exact Ha|]. split; [exact Hf|].
    assert (kw = keyword); [|by subst].
    unfold topic_keywords in *.
    repeat (apply elem_of_cons in Hin as [Hin|Hin];
            [injection Hin as -> ->|]);
      try (by apply elem_of_nil in Hin);
      repeat (apply elem_of_cons in Hkw as [Hkw|Hkw];
              [injection Hkw as ->; try reflexivity; try discriminate|]);
      try (by apply elem_of_nil in Hkw).
  - intros (a & f & Ha & Hf & Hinc).
    exists a. split; [exact Ha|]. exists f. split; [exact Hf|].
    by exists keyword.
Qed.

(** Nested loops that push onto an array. *)
Lemma nested_push {A B C} (inner : A -> list B) (keep : B -> bool) (make : B -> C)
    (outer : list A) :
  forall acc : list C,
    fold_left
      (fun acc a =>
         fold_left (fun acc b => if keep b then acc ++ [make b] else acc) (inner a) acc)
      outer acc
    = acc ++ map make (List.filter keep (flat_map inner outer)).
Proof.
  assert (Hin : forall (l : list B) (acc : list C),
             fold_left (fun acc b => if keep b then acc ++ [make b] else acc) l acc
             = acc ++ map make (List.filter keep l)).
  { induction l as [|b l IH]; intros acc; simpl; [by rewrite app_nil_r|].
    rewrite IH. destruct (keep b); [|reflexivity].
    simpl. by rewrite <- app_assoc. }
  induction outer as [|a outer IH]; intros acc; simpl; [by rewrite app_nil_r|].
  rewrite IH, Hin, List.filter_app, List.map_app. by rewrite app_assoc.
Qed.

Lemma measureConvergence_mean (discussions : list Discussion) :
  (Coordination.measureConvergence discussions ==
   if (0 <? length (all_insights discussions))%nat
   then Qsum (map insight_confidence (agreed discussions))
        / inject_Z (Z.of_nat (length (all_insights discussions)))
   else 0.5)%Q
  /\ (all_insights discussions = [] -> Coordination.measureConvergence discussions = 0.5%Q).
Proof.
  assert (E : Coordination.measureConvergence discussions =
              let '(convergenceScore, totalInsights) :=
                fold_left (fun acc discussion =>
                             fold_left tally_insight (disc_insights discussion) acc)
                          discussions (0%Q, 0%nat) in
              if (0 <? totalInsights)%nat
              then (convergenceScore / inject_Z (Z.of_nat totalInsights))%Q
              else 0.5%Q) by reflexivity.
  rewrite E. clear E.
  destruct (measureConvergence_outer discussions 0%Q 0%nat) as (s' & -> & Hs').
  cbn [Nat.add]. split.
  - destruct (0 <? length (all_insights discussions))%nat; [|reflexivity].
    rewrite Hs'. unfold agreed. apply Qdiv_comp; [lra|reflexivity].
  - intros ->. reflexivity.
Qed.

Lemma Qsum_bounds (l : list Q) (lo hi : Q) :
  Forall (fun q => (lo <= q <= hi)%Q) l ->
  (inject_Z (Z.of_nat (length l)) * lo <= Qsum l)%Q
  /\ (Qsum l <= inject_Z (Z.of_nat (length l)) * hi)%Q.
Proof.
  induction 1 as [|q l Hq Hl IH].
  - change (inject_Z (Z.of_nat (length (@nil Q)))) with 0%Q.
    change (Qsum []) with 0%Q. split; lra.
  - change (Qsum (q :: l)) with (q + Qsum l)%Q.
    cbn [length]. rewrite Nat2Z.inj_succ. unfold Z.succ. rewrite inject_Z_plus.
    change (inject_Z 1) with 1%Q. split; lra.
Qed.

Lemma kept_length_le {A} (f : A -> bool) (l : list A) :
  (length (List.filter f l) <= length l)%nat.
Proof. induction l as [|x l IH]; simpl; [lia|]. destruct (f x); simpl; lia. Qed.

Lemma Forall_filter_keep {A} (P : A -> Prop) (f : A -> bool) (l : list A) :
  Forall P l -> Forall P (List.filter f l).
Proof.
  induction 1 as [|x l Hx Hl IH]; simpl; [constructor|].
  destruct (f x); [by constructor|exact IH].
Qed.

(** With confidences in [0, 1] the convergence lies in [0, 1], and a
    convergence above 0.7 needs more than 70 % of the insights in
    consensus. *)
Lemma measureConvergence_range (discussions : list Discussion) :
  Forall (fun i => (0 <= insight_confidence i <= 1)%Q) (all_insights discussions) ->
  (0 <= Coordination.measureConvergence discussions <= 1)%Q
  /\ ((0.7 < Coordination.measureConvergence discussions)%Q ->
      (0.7 * inject_Z (Z.of_nat (length (all_insights discussions)))
       < inject_Z (Z.of_nat (length (agreed discussions))))%Q).
Proof.
  intros Hall.
  destruct (measureConvergence_mean discussions) as (Hmean & _).
  assert (Hagreed : Forall (fun q => (0 <= q <= 1)%Q)
                           (map insight_confidence (agreed discussions))).
  { apply Forall_map_fst. unfold agreed. by apply Forall_filter_keep. }
  destruct (Qsum_bounds _ 0 1 Hagreed) as (Hlo & Hhi).
  rewrite length_map in Hlo, Hhi.
  assert (Hle : (inject_Z (Z.of_nat (length (agreed discussions)))
                 <= inject_Z (Z.of_nat (length (all_insights discussions))))%Q).
  { rewrite <- Zle_Qle. apply inj_le. unfold agreed. apply kept_length_le. }
  set (total := inject_Z (Z.of_nat (length (all_insights discussions)))) in *.
  set (count := inject_Z (Z.of_nat (length (agreed discussions)))) in *.
  set (sum := Qsum (map insight_confidence (agreed discussions))) in *.
  destruct (0 <? length (all_insights discussions))%nat eqn:E.
  - apply Nat.ltb_lt in E.
    assert (Htotal : (0 < total)%Q).
    { unfold total. change 0%Q with (inject_Z 0). rewrite <- Zlt_Qlt. lia. }
    rewrite Hmean. split.
    + split.
      * apply Qle_shift_div_l; [exact Htotal|]. lra.
      * apply Qle_shift_div_r; [exact Htotal|]. lra.
    + intros Hgt.
      assert (H : (0.7 * total < sum)%Q).
      { apply Qlt_shift_div_l in Hgt || idtac.
        destruct (Qlt_le_dec (0.7 * total) sum) as [Hlt|Hge]; [exact Hlt|].
        exfalso. apply (Qlt_not_le _ _ Hgt).
        apply Qle_shift_div_r; [exact Htotal|]. lra. }
      lra.
  - rewrite Hmean. split; [lra|]. intros Hgt. lra.
Qed.

Lemma Math_random_value_run (w : World) :
  Math_random_value w
  = Returned (random_source w (random_used w))
      {| random_source := random_source w;
         random_used := S (random_used w);
         clock_source := clock_source w;
         clock_used := clock_used w |}.
Proof. reflexivity. Qed.

Lemma discuss_facts (topics : list string) (w : World) :
  draws_in_unit_interval w ->
  exists insights w',
    Collaboration.discuss topics w = Returned insights w'
    /\ random_source w' = random_source w
    /\ map insight_topic insights = topics
    /\ Forall (fun i => (0.6 <= insight_confidence i <= 1)%Q) insights.
Proof.
  revert w. induction topics as [|t topics IH]; intros w Hd.
  - exists [], w. repeat split. constructor.
  - cbn [Collaboration.discuss].
    rewrite (bind_returned _ _ _ _ _ (Math_random_value_run w)).
    match goal with
    | |- context [(Math_random_value ≫= _) ?w1] =>
        rewrite (bind_returned _ _ _ _ _ (Math_random_value_run w1));
        cbn [random_source random_used clock_source clock_used]
    end.
    match goal with
    | |- context [(Collaboration.discuss topics ≫= _) ?w2] =>
        destruct (IH w2) as (others & w' & Hrun & Hsrc & Htopics & Hall);
          [intros k; apply Hd|]
    end.
    rewrite (bind_returned _ _ _ _ _ Hrun).
    eexists. eexists. split; [reflexivity|].
    split; [exact Hsrc|]. split; [simpl; by rewrite Htopics|].
    constructor; [|exact Hall].
    pose proof (Hd (S (random_used w))) as Hr.
    cbn [insight_confidence]. split; lra.
Qed.

Lemma simulateAgentDiscussion_facts (agents : list Agent) (analyses : list AgentAnalysis)
    (round : nat) (w : World) :
  draws_in_unit_interval w ->
  exists discussion w',
    Collaboration.simulateAgentDiscussion agents analyses round w
    = Returned discussion w'
    /\ random_source w' = random_source w
    /\ disc_round discussion = S round
    /\ disc_topics discussion = Collaboration.identifyDiscussionTopics analyses
    /\ map insight_topic (disc_insights discussion) = disc_topics discussion
    /\ disc_participants discussion
       = map agent_id (take (Nat.min 4 (length agents)) agents)
    /\ Forall (fun i => (0.6 <= insight_confidence i <= 1)%Q) (disc_insights discussion).
Proof.
  intros Hd.
  unfold Collaboration.simulateAgentDiscussion. cbv zeta.
  destruct (discuss_facts (Collaboration.identifyDiscussionTopics analyses) w Hd)
    as (insights & w1 & Hrun & Hsrc & Htopics & Hall).
  rewrite (bind_returned _ _ _ _ _ Hrun).
  unfold mbind, mret, M_bind, M_ret, Date_now.
  eexists. eexists. split; [reflexivity|].
  cbn [random_source disc_round disc_topics disc_insights disc_participants].
  split; [exact Hsrc|]. split; [lia|]. by repeat split.
Qed.

Lemma discussions_from_facts (agents : list Agent) (analyses : list AgentAnalysis)
    (count round : nat) (w : World) :
  draws_in_unit_interval w ->
  exists discussions w',
    Collaboration.discussions_from agents analyses round count w
    = Returned discussions w'
    /\ random_source w' = random_source w
    /\ map disc_round discussions = seq (S round) count
    /\ Forall (fun d =>
                 disc_topics d = Collaboration.identifyDiscussionTopics analyses
                 /\ map insight_topic (disc_insights d) = disc_topics d
                 /\ disc_participants d
                    = map agent_id (take (Nat.min 4 (length agents)) agents)
                 /\ Forall (fun i => (0.6 <= insight_confidence i <= 1)%Q)
                           (disc_insights d))
              discussions.
Proof.
  revert round w. induction count as [|count IH]; intros round w Hd.
  - exists [], w. repeat split. constructor.
  - cbn [Collaboration.discussions_from].
    destruct (simulateAgentDiscussion_facts agents analyses round w Hd)
      as (d & w1 & Hrun & Hsrc & Hround & Htopics & Hins & Hpart & Hall).
    destruct (IH (S round) w1 (draws_preserved _ _ Hsrc Hd))
      as (rest & w' & Hrest & Hsrc' & Hrounds & Hforall).
    rewrite (bind_returned _ _ _ _ _ Hrun), (bind_returned _ _ _ _ _ Hrest).
    eexists. eexists. split; [reflexivity|].
    split; [congruence|].
    split; [simpl; by rewrite Hrounds, Hround|].
    constructor; [by repeat split|exact Hforall].
Qed.

Lemma all_insights_range (discussions : list Discussion) (P : Insight -> Prop) :
  Forall (fun d => Forall P (disc_insights d)) discussions ->
  Forall P (all_insights discussions).
Proof.
  induction 1 as [|d l Hd Hl IH]; [constructor|].
  unfold all_insights in *. simpl. apply Forall_app. by split.
Qed.

Lemma facilitateAgentCollaboration_facts (agents : list Agent)
    (analyses : list AgentAnalysis) (w : World) :
  draws_in_unit_interval w ->
  exists collaboration w',
    Collaboration.facilitateAgentCollaboration agents analyses w
    = Returned collaboration w'
    /\ col_rounds collaboration = Nat.min 3 ((length agents + 1) / 2)
    /\ col_convergence collaboration
       = Coordination.measureConvergence (col_discussions collaboration)
    /\ col_emergentInsights collaboration
       = Collaboration.extractEmergentInsights (col_discussions collaboration)
    /\ map disc_round (col_discussions collaboration)
       = seq 1 (col_rounds collaboration)
    /\ Forall (fun d =>
                 disc_topics d = Collaboration.identifyDiscussionTopics analyses
                 /\ map insight_topic (disc_insights d) = disc_topics d
                 /\ disc_participants d
                    = map agent_id (take (Nat.min 4 (length agents)) agents)
                 /\ Forall (fun i => (0.6 <= insight_confidence i <= 1)%Q)
                           (disc_insights d))
              (col_discussions collaboration).
Proof.
  intros Hd.
  unfold Collaboration.facilitateAgentCollaboration. cbv zeta.
  destruct (discussions_from_facts agents analyses
              (Nat.min 3 ((length agents + 1) / 2)) 0 w Hd)
    as (discussions & w' & Hrun & _ & Hrounds & Hall).
  rewrite (bind_returned _ _ _ _ _ Hrun).
  eexists. eexists. split; [reflexivity|].
  cbn [col_rounds col_convergence col_emergentInsights col_discussions].
  by repeat split.
Qed.

Lemma all_insights_length (discussions : list Discussion) (n : nat) :
  Forall (fun d => length (disc_insights d) = n) discussions ->
  length (all_insights discussions) = (length discussions * n)%nat.
Proof.
  induction 1 as [|d l Hd Hl IH]; [reflexivity|].
  unfold all_insights in *. simpl. rewrite length_app, IH, Hd. lia.
Qed.

(** X22: with the random source in [0, 1], the collaboration runs
    min(3, ceil(agents / 2)) rounds, numbered from 1; every round has
    the first four agents at most as participants, discusses the
    identified topics and has one insight per topic, in order, with a
    confidence between 0.6 and 1; the convergence lies in [0, 1], and
    it is the default 0.5, with no emergent insight, when there is no
    agent or no topic. *)
Theorem facilitateAgentCollaboration_shape (agents : list Agent)
    (analyses : list AgentAnalysis) (w : World) :
  draws_in_unit_interval w ->
  exists collaboration w',
    Collaboration.facilitateAgentCollaboration agents analyses w
    = Returned collaboration w'
    /\ col_rounds collaboration = Nat.min 3 ((length agents + 1) / 2)
    /\ map disc_round (col_discussions collaboration)
       = seq 1 (col_rounds collaboration)
    /\ Forall (fun d =>
                 disc_topics d = Collaboration.identifyDiscussionTopics analyses
                 /\ map insight_topic (disc_insights d) = disc_topics d
                 /\ length (disc_participants d) = Nat.min 4 (length agents)
                 /\ Forall (fun i => (0.6 <= insight_confidence i <= 1)%Q)
                           (disc_insights d))
              (col_discussions collaboration)
    /\ length (all_insights (col_discussions collaboration))
       = (col_rounds collaboration
          * length (Collaboration.identifyDiscussionTopics analyses))%nat
    /\ (0 <= col_convergence collaboration <= 1)%Q
    /\ (agents = [] \/ Collaboration.identifyDiscussionTopics analyses = [] ->
        col_convergence collaboration = 0.5%Q
        /\ col_emergentInsights collaboration = []).
Proof.
  intros Hd.
  destruct (facilitateAgentCollaboration_facts agents analyses w Hd)
    as (col & w' & Hrun & Hrounds & Hconv & Hem & Hnum & Hall).
  exists col, w'. split; [exact Hrun|]. split; [exact Hrounds|].
  split; [exact Hnum|].
  assert (Hlen : length (col_discussions col) = col_rounds col).
  { rewrite <- (length_map disc_round), Hnum. apply length_seq. }
  assert (Hcount : length (all_insights (col_discussions col))
                   = (col_rounds col
                      * length (Collaboration.identifyDiscussionTopics analyses))%nat).
  { rewrite <- Hlen. apply all_insights_length.
    eapply Forall_impl; [exact Hall|].
    intros d (Ht & Hi & _). simpl. by rewrite <- Ht, <- Hi, length_map. }
  split.
  { eapply Forall_impl; [exact Hall|].
    intros d (Ht & Hi & Hp & Hc). cbv beta.
    split; [exact Ht|]. split; [exact Hi|]. split; [|exact Hc].
    rewrite Hp, length_map, length_take. lia. }
  split; [exact Hcount|].
  split.
  { rewrite Hconv. apply measureConvergence_range.
    apply all_insights_range.
    eapply Forall_impl; [exact Hall|]. intros d (_ & _ & _ & Hc). simpl.
    eapply Forall_impl; [exact Hc|]. intros i Hi. simpl in Hi. lra. }
  intros Hempty.
  assert (Hnone : all_insights (col_discussions col) = []).
  { apply length_zero_iff_nil. rewrite Hcount.
    destruct Hempty as [->| ->]; [rewrite Hrounds|]; simpl; lia. }
  split.
  - rewrite Hconv. by apply measureConvergence_mean.
  - rewrite Hem. unfold Collaboration.extractEmergentInsights.
    rewrite (nested_push disc_insights strongly_agreed
               (fun i => "Strong consensus on " +:+ insight_topic i)).
    fold (all_insights (col_discussions col)). by rewrite Hnone.
Qed.

Lemma facilitateAgentCollaboration_shape_witness :
  exists collaboration w',
    Collaboration.facilitateAgentCollaboration sample_agents sample_analyses quiet_world
    = Returned collaboration w'
    /\ col_rounds collaboration = Nat.min 3 ((length sample_agents + 1) / 2)
    /\ map disc_round (col_discussions collaboration)
       = seq 1 (col_rounds collaboration)
    /\ Forall (fun d =>
                 disc_topics d = Collaboration.identifyDiscussionTopics sample_analyses
                 /\ map insight_topic (disc_insights d) = disc_topics d
                 /\ length (disc_participants d) = Nat.min 4 (length sample_agents)
                 /\ Forall (fun i => (0.6 <= insight_confidence i <= 1)%Q)
                           (disc_insights d))
              (col_discussions collaboration)
    /\ length (all_insights (col_discussions collaboration))
       = (col_rounds collaboration
          * length (Collaboration.identifyDiscussionTopics sample_analyses))%nat
    /\ (0 <= col_convergence collaboration <= 1)%Q
    /\ (sample_agents = [] \/ Collaboration.identifyDiscussionTopics sample_analyses = [] ->
        col_convergence collaboration = 0.5%Q
        /\ col_emergentInsights collaboration = []).
Proof.
  apply (facilitateAgentCollaboration_shape sample_agents sample_analyses quiet_world).
  intros k. simpl. split; apply Qle_bool_iff; reflexivity.
Defined.

Lemma kept_length_mono {A} (f g : A -> bool) (l : list A) :
  (forall x, f x = true -> g x = true) ->
  (length (List.filter f l) <= length (List.filter g l))%nat.
Proof.
  intros Hfg. induction l as [|x l IH]; simpl; [lia|].
  destruct (f x) eqn:E.
  - rewrite (Hfg x E). simpl. lia.
  - destruct (g x); simpl; lia.
Qed.

Lemma firmly_agreed_spec (i : Insight) :
  firmly_agreed i = true <-> insight_consensus i = true /\ (0.7 < insight_confidence i)%Q.
Proof. unfold firmly_agreed. by rewrite andb_true_iff, Qltb_true. Qed.

Lemma strongly_agreed_spec (i : Insight) :
  strongly_agreed i = true <-> insight_consensus i = true /\ (0.8 < insight_confidence i)%Q.
Proof. unfold strongly_agreed. by rewrite andb_true_iff, Qltb_true. Qed.

(** X23: the consensus built after a collaboration, with the random
    source in [0, 1].  Its items are the insights that reached
    consensus with a confidence above 0.7, in order, each supported by
    at least 70 % of the agents and by at most all of them; it is
    ready for implementation only if more than 70 % of all insights
    reached consensus; every emergent insight of the collaboration has
    its item, so there are at most as many of them as items; and with
    no agent it has no item and is not ready. *)
Theorem consensus_after_collaboration (agents : list Agent)
    (analyses : list AgentAnalysis) (w : World) :
  draws_in_unit_interval w ->
  exists collaboration w1 consensus w2,
    Collaboration.facilitateAgentCollaboration agents analyses w
    = Returned collaboration w1
    /\ Collaboration.buildAgentConsensus agents collaboration w1 = Returned consensus w2
    /\ con_overallConsensus consensus = col_convergence collaboration
    /\ con_items consensus
       = map (item_of (length agents))
             (List.filter firmly_agreed (all_insights (col_discussions collaboration)))
    /\ Forall (fun item =>
                 (0.7 < ci_agreement item <= 1)%Q
                 /\ (7 * Z.of_nat (length agents) <= 10 * ci_supportingAgents item)%Z
                 /\ (ci_supportingAgents item <= Z.of_nat (length agents))%Z)
              (con_items consensus)
    /\ (con_readyForImplementation consensus = true ->
        (0.7 * inject_Z (Z.of_nat (length (all_insights (col_discussions collaboration))))
         < inject_Z (Z.of_nat (length (agreed (col_discussions collaboration)))))%Q)
    /\ col_emergentInsights collaboration
       = map (fun i => "Strong consensus on " +:+ insight_topic i)
             (List.filter strongly_agreed (all_insights (col_discussions collaboration)))
    /\ (length (col_emergentInsights collaboration) <= length (con_items consensus))%nat
    /\ (agents = [] ->
        con_items consensus = [] /\ con_readyForImplementation consensus = false).
Proof.
  intros Hd.
  destruct (facilitateAgentCollaboration_facts agents analyses w Hd)
    as (col & w1 & Hrun & Hrounds & Hconv & Hem & Hnum & Hall).
  exists col, w1.
  unfold Collaboration.buildAgentConsensus. cbv zeta.
  unfold mbind, mret, M_bind, M_ret, Date_now.
  eexists. eexists. split; [exact Hrun|]. split; [reflexivity|].
  cbn [con_items con_overallConsensus con_readyForImplementation].
  assert (Hrange : Forall (fun i => (0.6 <= insight_confidence i <= 1)%Q)
                          (all_insights (col_discussions col))).
  { apply all_insights_range.
    eapply Forall_impl; [exact Hall|]. by intros d (_ & _ & _ & Hc). }
  assert (Hitems :
            fold_left
              (fun consensusItems discussion =>
                 fold_left
                   (fun consensusItems insight =>
                      if insight_consensus insight && Js.Qltb 0.7 (insight_confidence insight)
                      then consensusItems
                           ++ [ {| ci_topic := insight_topic insight;
                                   ci_agreement := insight_confidence insight;
                                   ci_supportingAgents :=
                                     Qceiling (inject_Z (Z.of_nat (length agents))
                                               * insight_confidence insight) |} ]
                      else consensusItems)
                   (disc_insights discussion) consensusItems)
              (col_discussions col) []
            = map (item_of (length agents))
                  (List.filter firmly_agreed (all_insights (col_discussions col)))).
  { apply (nested_push disc_insights firmly_agreed (item_of (length agents))). }
  assert (Hemergent :
            col_emergentInsights col
            = map (fun i => "Strong consensus on " +:+ insight_topic i)
                  (List.filter strongly_agreed (all_insights (col_discussions col)))).
  { rewrite Hem.
    apply (nested_push disc_insights strongly_agreed
             (fun i => "Strong consensus on " +:+ insight_topic i)). }
  rewrite Hitems.
  split; [reflexivity|]. split; [reflexivity|].
  split.
  { apply Forall_map_fst. apply Forall_forall. intros i Hi.
    apply list_elem_of_In, List.filter_In in Hi as (Hin & Hfirm).
    apply firmly_agreed_spec in Hfirm as (_ & Hgt).
    rewrite Forall_forall in Hrange.
    apply list_elem_of_In in Hin.
    pose proof (Hrange i Hin) as Hc. simpl in Hc.
    cbn [item_of ci_agreement ci_supportingAgents].
    set (n := Z.of_nat (length agents)).
    assert (Hn : (0 <= inject_Z n)%Q).
    { change 0%Q with (inject_Z 0). rewrite <- Zle_Qle. lia. }
    split; [lra|]. split.
    - pose proof (Qle_ceiling (inject_Z n * insight_confidence i)) as Hceil.
      assert (H : (inject_Z (7 * n)%Z
                   < inject_Z (10 * Qceiling (inject_Z n * insight_confidence i))%Z)%Q
                  \/ n = 0%Z).
      { destruct (Z.eq_dec n 0%Z) as [E|E]; [by right|left].
        assert (Hpos : (0 < inject_Z n)%Q).
        { change 0%Q with (inject_Z 0). rewrite <- Zlt_Qlt. lia. }
        rewrite !inject_Z_mult.
        change (inject_Z 7) with 7%Q. change (inject_Z 10) with 10%Q.
        assert (Hprod : (0.7 * inject_Z n < inject_Z n * insight_confidence i)%Q) by nra.
        lra. }
      destruct H as [H|E].
      + rewrite <- Zlt_Qlt in H. lia.
      + exfalso. (* with no agent there is no discussion *)
        assert (Hnone : all_insights (col_discussions col) = []).
        { assert (Hlen : length (col_discussions col) = col_rounds col).
          { rewrite <- (length_map disc_round), Hnum. apply length_seq. }
          assert (Hz : length agents = 0%nat) by lia.
          rewrite Hrounds, Hz in Hlen. simpl in Hlen.
          apply length_zero_iff_nil in Hlen. by rewrite Hlen. }
        rewrite Hnone in Hin. by apply elem_of_nil in Hin.
    - apply Qceiling_upper.
      assert (Hprod : (inject_Z n * insight_confidence i <= inject_Z n * 1)%Q) by nra.
      lra. }
  split.
  { intros Hready. apply Qltb_true in Hready.
    rewrite Hconv in Hready.
    apply measureConvergence_range; [|exact Hready].
    eapply Forall_impl; [exact Hrange|]. intros i Hi. simpl in Hi. lra. }
  split; [exact Hemergent|].
  split.
  { rewrite Hemergent, !length_map. apply kept_length_mono.
    intros i Hi. apply strongly_agreed_spec in Hi as (Hc & Hgt).
    apply firmly_agreed_spec. split; [exact Hc|lra]. }
  intros ->.
  assert (Hnone : col_discussions col = []).
  { apply length_zero_iff_nil.
    rewrite <- (length_map disc_round), Hnum, length_seq, Hrounds. reflexivity. }
  rewrite Hconv, Hnone. split; reflexivity.
Qed.

Lemma consensus_after_collaboration_witness :
  exists collaboration w1 consensus w2,
    Collaboration.facilitateAgentCollaboration sample_agents sample_analyses lively_world
    = Returned collaboration w1
    /\ Collaboration.buildAgentConsensus sample_agents collaboration w1
       = Returned consensus w2
    /\ con_overallConsensus consensus = col_convergence collaboration
    /\ con_items consensus
       = map (item_of (length sample_agents))
             (List.filter firmly_agreed (all_insights (col_discussions collaboration)))
    /\ Forall (fun item =>
                 (0.7 < ci_agreement item <= 1)%Q
                 /\ (7 * Z.of_nat (length sample_agents) <= 10 * ci_supportingAgents item)%Z
                 /\ (ci_supportingAgents item <= Z.of_nat (length sample_agents))%Z)
              (con_items consensus)
    /\ (con_readyForImplementation consensus = true ->
        (0.7 * inject_Z (Z.of_nat (length (all_insights (col_discussions collaboration))))
         < inject_Z (Z.of_nat (length (agreed (col_discussions collaboration)))))%Q)
    /\ col_emergentInsights collaboration
       = map (fun i => "Strong consensus on " +:+ insight_topic i)
             (List.filter strongly_agreed (all_insights (col_discussions collaboration)))
    /\ (length (col_emergentInsights collaboration) <= length (con_items consensus))%nat
    /\ (sample_agents = [] ->
        con_items consensus = [] /\ con_readyForImplementation consensus = false).
Proof.
  apply (consensus_after_collaboration sample_agents sample_analyses lively_world).
  intros k. simpl. destruct (k =? 1)%nat; split; apply Qle_bool_iff; reflexivity.
Defined.

(** ** The running average of the resolution time *)

Lemma session_succeeded_step (metrics : EngineMetrics) (duration : Z) (q total : Q) :
  averageResolutionTime metrics = Num q ->
  (q * inject_Z (Z.of_nat (successfulResolutions metrics)) == total)%Q ->
  exists q',
    averageResolutionTime (EngineStatistics.session_succeeded metrics duration) = Num q'
    /\ successfulResolutions (EngineStatistics.session_succeeded metrics duration)
       = S (successfulResolutions metrics)
    /\ (q' * inject_Z (Z.of_nat (S (successfulResolutions metrics)))
        == total + inject_Z duration)%Q.
Proof.
  intros Havg Hinv.
  unfold EngineStatistics.session_succeeded, EngineStatistics.updateAverageResolutionTime.
  cbn [successfulResolutions averageResolutionTime]. rewrite Havg.
  unfold Js.of_nat, Js.of_Z. cbn [Js.sub Js.mul Js.add Js.div].
  set (k := successfulResolutions metrics) in *.
  assert (Hk : (inject_Z (Z.of_nat (S k)) == inject_Z (Z.of_nat k) + 1)%Q).
  { rewrite Nat2Z.inj_succ. unfold Z.succ. rewrite inject_Z_plus. reflexivity. }
  assert (Hpos : (0 < inject_Z (Z.of_nat (S k)))%Q).
  { change 0%Q with (inject_Z 0). rewrite <- Zlt_Qlt. lia. }
  destruct (Qeq_bool (inject_Z (Z.of_nat (S k))) 0) eqn:E.
  { apply Qeq_bool_iff in E. lra. }
  eexists. split; [reflexivity|]. split; [reflexivity|].
  set (c := inject_Z (Z.of_nat (S k))) in *.
  set (c' := inject_Z (Z.of_nat k)) in *.
  assert (Hne : ~ (c == 0)%Q) by lra.
  transitivity (q * (c - 1) + inject_Z duration)%Q.
  - field. exact Hne.
  - rewrite Hk. rewrite <- Hinv. ring.
Qed.

Lemma average_invariant (durations : list Z) :
  forall (metrics : EngineMetrics) (q total : Q),
    averageResolutionTime metrics = Num q ->
    (q * inject_Z (Z.of_nat (successfulResolutions metrics)) == total)%Q ->
    exists q',
      averageResolutionTime (fold_left EngineStatistics.session_succeeded durations metrics)
      = Num q'
      /\ successfulResolutions
           (fold_left EngineStatistics.session_succeeded durations metrics)
         = (successfulResolutions metrics + length durations)%nat
      /\ (q' * inject_Z (Z.of_nat (successfulResolutions metrics + length durations))
          == total + inject_Z (Zsum durations))%Q.
Proof.
  induction durations as [|d l IH]; intros metrics q total Havg Hinv.
  - exists q. split; [exact Havg|]. split; [simpl; lia|].
    rewrite Nat.add_0_r, Hinv. unfold Zsum. simpl. change (inject_Z 0) with 0%Q. ring.
  - cbn [fold_left].
    destruct (session_succeeded_step metrics d q total Havg Hinv) as (q1 & Havg1 & Hcount1 & Hinv1).
    rewrite <- Hcount1 in Hinv1.
    destruct (IH _ q1 (total + inject_Z d)%Q Havg1 Hinv1) as (q' & Havg' & Hcount' & Hinv').
    exists q'. split; [exact Havg'|].
    rewrite Hcount1 in Hcount', Hinv'.
    split; [rewrite Hcount'; simpl; lia|].
    replace (successfulResolutions metrics + length (d :: l))%nat
      with (S (successfulResolutions metrics) + length l)%nat by (simpl; lia).
    rewrite Hinv'. unfold Zsum. cbn [foldr]. rewrite inject_Z_plus. ring.
Qed.

(** X24: starting from the initial metrics, after any non-empty
    sequence of successful sessions the counter is the number of
    sessions and the average resolution time is the arithmetic mean of
    their durations. *)
Theorem averageResolutionTime_is_mean (durations : list Z) :
  durations <> [] ->
  successfulResolutions
    (fold_left EngineStatistics.session_succeeded durations EngineStatistics.initial)
  = length durations
  /\ num_is (averageResolutionTime
               (fold_left EngineStatistics.session_succeeded durations
                  EngineStatistics.initial))
            (inject_Z (Zsum durations) / inject_Z (Z.of_nat (length durations))).
Proof.
  intros Hne.
  destruct (average_invariant durations EngineStatistics.initial 0 0)
    as (q & Havg & Hcount & Hinv).
  { reflexivity. }
  { simpl. ring. }
  cbn [EngineStatistics.initial successfulResolutions Nat.add] in Hcount, Hinv.
  split; [exact Hcount|].
  rewrite Havg. cbn [num_is].
  assert (Hpos : (0 < inject_Z (Z.of_nat (length durations)))%Q).
  { change 0%Q with (inject_Z 0). rewrite <- Zlt_Qlt.
    destruct durations; [done|simpl; lia]. }
  set (n := inject_Z (Z.of_nat (length durations))) in *.
  assert (Hn : ~ (n == 0)%Q) by lra.
  assert (E : (inject_Z (Zsum durations) == q * n)%Q) by (rewrite Hinv; ring).
  rewrite E. field. exact Hn.
Qed.

Lemma averageResolutionTime_is_mean_witness :
  successfulResolutions
    (fold_left EngineStatistics.session_succeeded [1000; 3000; 500]%Z
       EngineStatistics.initial)
  = length [1000; 3000; 500]%Z
  /\ num_is (averageResolutionTime
               (fold_left EngineStatistics.session_succeeded [1000; 3000; 500]%Z
                  EngineStatistics.initial))
            (inject_Z (Zsum [1000; 3000; 500]%Z)
             / inject_Z (Z.of_nat (length [1000; 3000; 500]%Z))).
Proof.
  apply (averageResolutionTime_is_mean [1000; 3000; 500]%Z). discriminate.
Defined.

(** ** The team a strategy plans *)

Lemma recommended_cases (complexity : string) :
  (Js.arr_includes AgentCoordinationNetwork.Object_prototype_members complexity = true
   /\ ~ is_tier complexity
   /\ Js.Math_max (Num 2)
        (Js.Math_ceil (AgentCoordinationNetwork.complexityToAgentCount complexity)) = NaN)
  \/ exists k : Z,
       (2 <= k <= 8)%Z
       /\ Js.Math_max (Num 2)
            (Js.Math_ceil (AgentCoordinationNetwork.complexityToAgentCount complexity))
          = Num (inject_Z k)
       /\ (~ is_tier complexity ->
           Js.arr_includes AgentCoordinationNetwork.Object_prototype_members complexity
           = false ->
           k = 3%Z)
       /\ (is_tier complexity \/
           Js.arr_includes AgentCoordinationNetwork.Object_prototype_members complexity
           = false).
Proof.
  unfold AgentCoordinationNetwork.complexityToAgentCount, is_tier.
  destruct (String.eqb_spec complexity "low") as [->|H1].
  { right. exists 2%Z. split; [lia|]. split; [reflexivity|].
    split; [intros H; destruct H|]; tauto. }
  destruct (String.eqb_spec complexity "medium") as [->|H2].
  { right. exists 4%Z. split; [lia|]. split; [reflexivity|].
    split; [intros H; destruct H|]; tauto. }
  destruct (String.eqb_spec complexity "high") as [->|H3].
  { right. exists 6%Z. split; [lia|]. split; [reflexivity|].
    split; [intros H; destruct H|]; tauto. }
  destruct (String.eqb_spec complexity "very-high") as [->|H4].
  { right. exists 8%Z. split; [lia|]. split; [reflexivity|].
    split; [intros H; destruct H|]; tauto. }
  destruct (Js.arr_includes AgentCoordinationNetwork.Object_prototype_members complexity).
  - left. split; [reflexivity|]. split; [tauto|reflexivity].
  - right. exists 3%Z. split; [lia|]. split; [reflexivity|]. split; [reflexivity|by right].
Qed.

Lemma first_agentTypes (n : nat) :
  (n <= 8)%nat ->
  map (fun i => nth (i mod length AgentCoordinationNetwork.agentTypes)
                    AgentCoordinationNetwork.agentTypes "")
      (seq 0 n)
  = take n AgentCoordinationNetwork.agentTypes.
Proof.
  intros Hn.
  do 9 (destruct n as [|n]; [reflexivity|]). lia.
Qed.

(** X25: the team [generateStrategy] plans, for every complexity
    string and every [maxAgents].  It has at most eight agents, whose
    types are the first ones of the type list, in order and without
    repetition, each with the specialization and the capabilities of
    its type.  For a complexity that is no tier the team has
    min(3, maxAgents) agents, except that a name every object
    inherits (such as constructor) gives an empty team. *)
Theorem generateStrategy_team (context : StrategyContext) :
  let agents := st_agents (AgentCoordinationNetwork.generateStrategy context) in
  (length agents <= 8)%nat
  /\ (Z.of_nat (length agents) <= Z.max 0 (ctx_maxAgents context))%Z
  /\ map spec_type agents = take (length agents) AgentCoordinationNetwork.agentTypes
  /\ NoDup (map spec_type agents)
  /\ Forall (fun a =>
               spec_specialization a
               = AgentCoordinationNetwork.getSpecialization (spec_type a)
               /\ spec_capabilities a
                  = AgentCoordinationNetwork.getCapabilities (spec_type a))
            agents
  /\ (Js.arr_includes AgentCoordinationNetwork.Object_prototype_members
        (ctx_complexity context) = true -> agents = [])
  /\ (~ is_tier (ctx_complexity context) ->
      Js.arr_includes AgentCoordinationNetwork.Object_prototype_members
        (ctx_complexity context) = false ->
      Z.of_nat (length agents) = Z.max 0 (Z.min 3 (ctx_maxAgents context))).
Proof.
  intros agents. subst agents.
  unfold AgentCoordinationNetwork.generateStrategy. cbv zeta. cbn [st_agents].
  set (n := AgentCoordinationNetwork.loop_count _).
  assert (Hn : (n = 0%nat
                /\ ~ is_tier (ctx_complexity context)
                /\ Js.arr_includes AgentCoordinationNetwork.Object_prototype_members
                     (ctx_complexity context) = true)
               \/ exists k : Z,
                    (2 <= k <= 8)%Z
                    /\ Z.of_nat n = Z.max 0 (Z.min k (ctx_maxAgents context))
                    /\ (~ is_tier (ctx_complexity context) ->
                        Js.arr_includes AgentCoordinationNetwork.Object_prototype_members
                          (ctx_complexity context) = false ->
                        k = 3%Z)
                    /\ (is_tier (ctx_complexity context) \/
                        Js.arr_includes AgentCoordinationNetwork.Object_prototype_members
                          (ctx_complexity context) = false)).
  { subst n.
    destruct (recommended_cases (ctx_complexity context))
      as [(Hmember & Hnot & ->)|(k & Hk & -> & Hthree & Hor)].
    - left. split; [reflexivity|]. by split.
    - right. exists k. split; [exact Hk|].
      unfold Js.of_Z, Js.Math_min, AgentCoordinationNetwork.loop_count.
      rewrite (Qceiling_comp _ _ (Qmin_inject_Z _ _)), Qceiling_Z.
      split; [lia|]. by split. }
  assert (Hle : (n <= 8)%nat).
  { destruct Hn as [(-> & _)|(k & Hk & Hnk & _)]; lia. }
  rewrite length_map, length_seq.
  split; [exact Hle|].
  split; [destruct Hn as [(-> & _)|(k & Hk & Hnk & _)]; lia|].
  match goal with
  | |- context [map ?f (seq 0 n)] => set (plan := f)
  end.
  assert (Htypes : map spec_type (map plan (seq 0 n))
                   = take n AgentCoordinationNetwork.agentTypes).
  { rewrite List.map_map. exact (first_agentTypes n Hle). }
  split; [exact Htypes|].
  split.
  { rewrite Htypes.
    assert (Hnd : NoDup AgentCoordinationNetwork.agentTypes).
    { unfold AgentCoordinationNetwork.agentTypes.
      repeat (apply NoDup_cons; split;
              [intros Hin;
               repeat (apply elem_of_cons in Hin as [Hin|Hin]; [discriminate Hin|]);
               by apply elem_of_nil in Hin|]).
      apply NoDup_nil_2. }
    rewrite <- (take_drop n AgentCoordinationNetwork.agentTypes) in Hnd.
    by apply NoDup_app in Hnd as (Hnd & _). }
  split.
  { apply Forall_map_fst. apply Forall_forall. intros i _. by split. }
  split.
  { intros Hmember.
    destruct Hn as [(-> & _)|(k & _ & _ & _ & [Ht|Hnot])];
      [reflexivity| |congruence].
    exfalso. destruct Ht as [E|[E|[E|E]]]; rewrite E in Hmember; discriminate Hmember. }
  intros Htier Hnot.
  destruct Hn as [(_ & _ & Hmember)|(k & _ & Hnk & Hthree & _)]; [congruence|].
  rewrite Hnk, (Hthree Htier Hnot). reflexivity.
Qed.

(** ** The artifacts of a generated result *)

Lemma generate_from_shape (pr : Printer) (uuid : nat -> string)
    (context : GenerationContext) (count index : nat) (w : World) :
  exists sols w',
    SolutionGenerationNetwork.generate_from pr uuid context index count w = Returned sols w'
    /\ Forall (fun s => exists i, (i < index + count)%nat /\ generated_at pr i s) sols.
Proof.
  revert index w. induction count as [|count IH]; intros index w.
  - exists [], w. split; [reflexivity|constructor].
  - cbn [SolutionGenerationNetwork.generate_from].
    assert (Hs : exists s w1,
               SolutionGenerationNetwork.generateSingleSolution pr (uuid index) context index w
               = Returned s w1 /\ generated_at pr index s).
    { unfold SolutionGenerationNetwork.generateSingleSolution,
        SolutionGenerationNetwork.generateCode.
      unfold mbind, mret, M_bind, M_ret, Math_random.
      eexists. eexists. split; [reflexivity|].
      unfold generated_at. cbn [sol_files sol_approach sol_tests sol_documentation].
      repeat split. }
    destruct Hs as (s & w1 & Hs & Hshape).
    destruct (IH (S index) w1) as (rest & w2 & Hrest & Hall).
    exists (s :: rest), w2.
    rewrite (bind_returned _ _ _ _ _ Hs), (bind_returned _ _ _ _ _ Hrest).
    split; [reflexivity|].
    constructor.
    + exists index. split; [lia|exact Hshape].
    + eapply Forall_impl; [exact Hall|]. intros x (i & Hi & Hx). exists i. split; [lia|exact Hx].
Qed.

(** X26: the artifacts the orchestrator derives from a result the
    engine built from its own generated solutions.  There are three
    file artifacts, with the paths solution-N.js, tests/solution-N.test.js
    and docs/solution-N.md of the selected solution, and all three
    carry the same content, the generated code; the generated tests and
    the generated documentation appear once each, under the fixed
    paths tests/hive-mind-solution.test.js and docs/hive-mind-solution.md;
    no placeholder is used and there is no configuration artifact. *)
Theorem generated_result_artifacts
    (pr : Printer) (uuid : nat -> string) (context : GenerationContext)
    (session : FinishedSession) (tables : FileTables)
    (solutions : list Solution) (validation : Validation) (output : FinalOutput)
    (w1 w1' w2 w2' w3 w3' : World) :
  draws_in_unit_interval w2 ->
  SolutionGenerationNetwork.generate pr uuid context w1 = Returned solutions w1' ->
  QualityStage.performQualityAssessment pr (fs_session session) solutions w2
  = Returned validation w2' ->
  QualityStage.generateFinalOutput pr session validation w3 = Returned output w3' ->
  exists (index : nat) (code : string),
    (index < length solutions)%nat
    /\ impl_code (fo_implementation output) = Val code
    /\ art_files (HiveMindOrchestrator.generateImplementationArtifacts tables output)
       = map (fun path => {| art_path := path;
                             art_content := code;
                             art_kind := determineFileType tables path |})
             [ "solution-" +:+ show_nat pr (index + 1) +:+ ".js";
               "tests/solution-" +:+ show_nat pr (index + 1) +:+ ".test.js";
               "docs/solution-" +:+ show_nat pr (index + 1) +:+ ".md" ]
    /\ art_tests (HiveMindOrchestrator.generateImplementationArtifacts tables output)
       = [ {| art_path := "tests/hive-mind-solution.test.js";
              art_content := SolutionGenerationNetwork.generateTests pr index;
              art_kind := "jest" |} ]
    /\ art_documentation (HiveMindOrchestrator.generateImplementationArtifacts tables output)
       = [ {| art_path := "docs/hive-mind-solution.md";
              art_content := SolutionGenerationNetwork.generateDocumentation pr index;
              art_kind := "markdown" |} ]
    /\ art_configuration (HiveMindOrchestrator.generateImplementationArtifacts tables output)
       = [].
Proof.
  intros Hd Hgen Hqa Hout.
  unfold SolutionGenerationNetwork.generate in Hgen. cbv zeta in Hgen.
  set (count := Nat.min 3 _) in Hgen.
  destruct (generate_from_shape pr uuid context count 0 w1) as (sols & w1'' & Hrun & Hall).
  destruct (generate_from_returns pr uuid context count 0 w1)
    as (sols' & w1''' & Hrun' & _ & Hlen & _).
  rewrite Hrun in Hrun'. injection Hrun' as <- _.
  rewrite Hrun in Hgen. injection Hgen as <- _.
  destruct (performQualityAssessment_facts pr (fs_session session) sols w2 Hd)
    as (validation' & w2'' & Hrun2 & Hsols & _).
  rewrite Hrun2 in Hqa. injection Hqa as <- _.
  destruct (generateFinalOutput_member _ _ _ _ _ _ Hout) as (best & Hin & Himpl & _).
  assert (Hbest : asol_solution best ∈ sols).
  { rewrite <- Hsols. apply list_elem_of_In, List.in_map, list_elem_of_In, Hin. }
  rewrite Forall_forall in Hall.
  destruct (Hall _ Hbest) as (index & Hindex & Hfiles & _ & Htests & Hdocs & Hcode & Ht & Hdoc).
  destruct (sol_code (asol_solution best)) as [| |code] eqn:Ecode; try discriminate Hcode.
  exists index, code.
  split; [rewrite Hlen; simpl in Hindex; exact Hindex|].
  unfold HiveMindOrchestrator.generateImplementationArtifacts. cbv zeta.
  rewrite Himpl.
  cbn [impl_files impl_code impl_tests impl_documentation
       art_files art_tests art_documentation art_configuration].
  rewrite Ht, Hdoc, Hfiles, Htests, Hdocs, Hcode.
  cbn [Js.to_string]. repeat split.
Qed.

Lemma generated_result_artifacts_witness :
  exists (output : FinalOutput) (index : nat) (code : string),
    (index < 1)%nat
    /\ impl_code (fo_implementation output) = Val code
    /\ art_files (HiveMindOrchestrator.generateImplementationArtifacts sample_tables output)
       = map (fun path => {| art_path := path;
                             art_content := code;
                             art_kind := determineFileType sample_tables path |})
             [ "solution-" +:+ show_nat decimal_printer (index + 1) +:+ ".js";
               "tests/solution-" +:+ show_nat decimal_printer (index + 1) +:+ ".test.js";
               "docs/solution-" +:+ show_nat decimal_printer (index + 1) +:+ ".md" ]
    /\ art_tests (HiveMindOrchestrator.generateImplementationArtifacts sample_tables output)
       = [ {| art_path := "tests/hive-mind-solution.test.js";
              art_content := SolutionGenerationNetwork.generateTests decimal_printer index;
              art_kind := "jest" |} ]
    /\ art_documentation
         (HiveMindOrchestrator.generateImplementationArtifacts sample_tables output)
       = [ {| art_path := "docs/hive-mind-solution.md";
              art_content :=
                SolutionGenerationNetwork.generateDocumentation decimal_printer index;
              art_kind := "markdown" |} ]
    /\ art_configuration
         (HiveMindOrchestrator.generateImplementationArtifacts sample_tables output)
       = [].
Proof.
  eexists.
  eapply (generated_result_artifacts decimal_printer sample_uuid sample_context
            finished_session sample_tables
            [_] _ _ quiet_world _ quiet_world _ quiet_world _).
  - intros k. simpl. split; apply Qle_bool_iff; reflexivity.
  - vm_compute. reflexivity.
  - vm_compute. reflexivity.
  - vm_compute. reflexivity.
Defined.

(** ** Learning *)

Lemma Map_set_fresh {V} (store : list (string * V)) (key : string) (value : V) :
  key ∉ map fst store -> Map_set store key value = store ++ [(key, value)].
Proof.
  induction store as [|[k v] store IH]; intros Hfresh; [reflexivity|].
  simpl in *. destruct (String.eqb_spec k key) as [->|Hne].
  - exfalso. apply Hfresh. apply list_elem_of_here.
  - f_equal. apply IH. intros Hin. apply Hfresh. by apply list_elem_of_further.
Qed.

Lemma knowledge_from_returns (uuid : nat -> string) (session : ESession)
    (analysis : Analysis) (solutions : list AssessedSolution) (next : nat) (w : World) :
  es_analysis session = Val analysis ->
  exists knowledge w',
    LearningOptimizationNetwork.knowledge_from uuid session solutions next w
    = Returned knowledge w'
    /\ map fst knowledge = map uuid (seq next (length solutions))
    /\ map (fun k => kn_effectiveness k.2) knowledge = map score_of solutions
    /\ map (fun k => kn_pattern k.2) knowledge
       = map (fun s => sol_approach (asol_solution s)) solutions
    /\ Forall (fun k => kn_domain k.2 = an_domain analysis) knowledge.
Proof.
  intros Han. revert next w.
  induction solutions as [|s rest IH]; intros next w.
  - exists [], w. repeat split. constructor.
  - cbn [LearningOptimizationNetwork.knowledge_from]. rewrite Han.
    unfold receiver. unfold mbind at 1 2. unfold M_bind at 1 2.
    unfold mret at 1. unfold M_ret at 1. unfold Date_now at 1.
    match goal with
    | |- context [(LearningOptimizationNetwork.knowledge_from uuid session rest (S next)
                   ≫= _) ?w1] =>
        destruct (IH (S next) w1) as (others & w' & Hrun & Hids & Hscores & Hpatterns & Hall)
    end.
    rewrite (bind_returned _ _ _ _ _ Hrun).
    eexists. eexists. split; [reflexivity|].
    split; [simpl; by rewrite Hids|].
    split; [simpl; by rewrite Hscores|].
    split; [simpl; by rewrite Hpatterns|].
    constructor; [reflexivity|exact Hall].
Qed.

Lemma extract_returns (uuid : nat -> string) (session : ESession)
    (validation : Validation) (analysis : Analysis) (w : World) :
  es_analysis session = Val analysis ->
  exists learnings w',
    LearningOptimizationNetwork.extract uuid session validation w = Returned learnings w'
    /\ map (fun p => (p.1, lp_pattern p.2)) (learn_patterns learnings)
       = (if Js.gt (val_overallQuality validation) (Num 0.8)
          then [ (uuid 0%nat,
                  successful_approach analysis
                    (LearningOptimizationNetwork.first_approach validation)) ]
          else [])
    /\ length (learn_knowledge learnings) = length (val_solutions validation).
Proof.
  intros Han.
  unfold LearningOptimizationNetwork.extract. rewrite Han.
  destruct (Js.gt (val_overallQuality validation) (Num 0.8)) eqn:Hq.
  - set (w1 := {| random_source := random_source w;
                  random_used := random_used w;
                  clock_source := clock_source w;
                  clock_used := S (clock_used w) |}).
    destruct (knowledge_from_returns uuid session analysis (val_solutions validation) 1 w1 Han)
      as (knowledge & w' & Hrun & Hids & _).
    eexists. exists w'. split.
    + erewrite bind_returned; [|reflexivity].
      erewrite bind_returned; [reflexivity|exact Hrun].
    + cbn [learn_patterns learn_knowledge map fst snd lp_pattern]. split; [reflexivity|].
      rewrite <- (length_map fst), Hids, length_map. apply length_seq.
  - destruct (knowledge_from_returns uuid session analysis (val_solutions validation) 0 w Han)
      as (knowledge & w' & Hrun & Hids & _).
    eexists. exists w'. split.
    + erewrite bind_returned; [|reflexivity].
      erewrite bind_returned; [reflexivity|exact Hrun].
    + cbn [learn_patterns learn_knowledge map]. split; [reflexivity|].
      rewrite <- (length_map fst), Hids, length_map. apply length_seq.
Qed.

Lemma fold_Map_set_patterns (patterns : list (string * LearnedPattern))
    (store : PatternStore) :
  fold_left (fun store pattern => Map_set store pattern.1 (lp_pattern pattern.2))
            patterns store
  = fold_left (fun store entry => Map_set store entry.1 entry.2)
              (map (fun p => (p.1, lp_pattern p.2)) patterns) store.
Proof.
  revert store. induction patterns as [|p l IH]; intros store; [reflexivity|].
  simpl. apply IH.
Qed.

Lemma integrateLearnedPatterns_facts (uuid : nat -> string) (memory : Memory)
    (session : ESession) (validation : Validation) (analysis : Analysis) (w : World) :
  es_analysis session = Val analysis ->
  uuid 0%nat ∉ map fst (mem_patterns memory) ->
  exists memory' w',
    Learning.integrateLearnedPatterns uuid memory session validation w
    = Returned memory' w'
    /\ mem_learningEnabled memory' = mem_learningEnabled memory
    /\ (mem_learningEnabled memory = true ->
        exceeds (val_overallQuality validation) 0.8 ->
        mem_patterns memory'
        = mem_patterns memory
          ++ [ (uuid 0%nat,
                successful_approach analysis
                  (LearningOptimizationNetwork.first_approach validation)) ]
        /\ mem_neuralPatterns memory' = S (mem_neuralPatterns memory))
    /\ (mem_learningEnabled memory = false \/ ~ exceeds (val_overallQuality validation) 0.8 ->
        mem_patterns memory' = mem_patterns memory
        /\ mem_neuralPatterns memory' = mem_neuralPatterns memory)
    /\ (mem_learningEnabled memory = false -> memory' = memory /\ w' = w).
Proof.
  intros Han Hfresh.
  unfold Learning.integrateLearnedPatterns.
  destruct (mem_learningEnabled memory) eqn:Hon; cbn [negb].
  2: { exists memory, w. split; [reflexivity|]. split; [exact Hon|].
       split; [discriminate|]. by repeat split. }
  destruct (extract_returns uuid session validation analysis w Han)
    as (learnings & w' & Hrun & Hpatterns & _).
  rewrite (bind_returned _ _ _ _ _ Hrun).
  eexists. eexists. split; [reflexivity|].
  cbn [mem_learningEnabled mem_patterns mem_neuralPatterns].
  rewrite fold_Map_set_patterns.
  assert (Hlen : length (learn_patterns learnings)
                 = length (map (fun p => (p.1, lp_pattern p.2)) (learn_patterns learnings)))
    by (by rewrite length_map).
  rewrite Hlen, Hpatterns.
  split; [reflexivity|].
  destruct (Js.gt (val_overallQuality validation) (Num 0.8)) eqn:Hq.
  - split.
    + intros _ _. cbn [fold_left length fst snd].
      split; [by apply Map_set_fresh|lia].
    + split; [|discriminate].
      intros [H|H]; [discriminate H|]. exfalso. apply H. by apply gt_exceeds.
  - split.
    + intros _ Hex. apply gt_exceeds in Hex. congruence.
    + split; [|discriminate]. intros _. cbn [fold_left length]. split; [reflexivity|lia].
Qed.

Lemma generate_from_approaches (pr : Printer) (uuid : nat -> string)
    (context : GenerationContext) (count index : nat) (w : World) :
  exists sols w',
    SolutionGenerationNetwork.generate_from pr uuid context index count w = Returned sols w'
    /\ map sol_approach sols
       = map (fun i => "AI-Generated Approach " +:+ show_nat pr (i + 1)) (seq index count).
Proof.
  revert index w. induction count as [|count IH]; intros index w.
  - exists [], w. by split.
  - cbn [SolutionGenerationNetwork.generate_from].
    assert (Hs : exists s w1,
               SolutionGenerationNetwork.generateSingleSolution pr (uuid index) context index w
               = Returned s w1
               /\ sol_approach s = "AI-Generated Approach " +:+ show_nat pr (index + 1)).
    { unfold SolutionGenerationNetwork.generateSingleSolution,
        SolutionGenerationNetwork.generateCode.
      unfold mbind, mret, M_bind, M_ret, Math_random.
      eexists. eexists. split; reflexivity. }
    destruct Hs as (s & w1 & Hs & Happroach).
    destruct (IH (S index) w1) as (rest & w2 & Hrest & Hall).
    exists (s :: rest), w2.
    rewrite (bind_returned _ _ _ _ _ Hs), (bind_returned _ _ _ _ _ Hrest).
    split; [reflexivity|]. simpl. by rewrite Happroach, Hall.
Qed.

(** X27: what a session teaches the engine, when the session has its
    analysis and the identifier drawn for the pattern is new.  With
    learning on and an overall quality above 0.8, exactly one pattern
    is appended to the store: a successful-approach pattern with
    success rate 1, the signature of the analysis (at most five key
    terms) and the approach of the first solution, and the pattern
    counter goes up by one.  With learning off or a quality of at most
    0.8 the store and the counter stay as they are; with learning off
    nothing at all happens. *)
Theorem integrateLearnedPatterns_store (uuid : nat -> string) (memory : Memory)
    (session : ESession) (validation : Validation) (analysis : Analysis) (w : World) :
  es_analysis session = Val analysis ->
  uuid 0%nat ∉ map fst (mem_patterns memory) ->
  exists memory' w',
    Learning.integrateLearnedPatterns uuid memory session validation w
    = Returned memory' w'
    /\ (mem_learningEnabled memory = true ->
        exceeds (val_overallQuality validation) 0.8 ->
        mem_patterns memory'
        = mem_patterns memory
          ++ [ (uuid 0%nat,
                successful_approach analysis
                  (LearningOptimizationNetwork.first_approach validation)) ]
        /\ mem_neuralPatterns memory' = S (mem_neuralPatterns memory)
        /\ (exists terms,
              sig_keyTerms (pattern_signature
                              (successful_approach analysis
                                 (LearningOptimizationNetwork.first_approach validation)))
              = Val terms /\ (length terms <= 5)%nat))
    /\ (mem_learningEnabled memory = false \/ ~ exceeds (val_overallQuality validation) 0.8 ->
        mem_patterns memory' = mem_patterns memory
        /\ mem_neuralPatterns memory' = mem_neuralPatterns memory)
    /\ (mem_learningEnabled memory = false -> memory' = memory /\ w' = w).
Proof.
  intros Han Hfresh.
  destruct (integrateLearnedPatterns_facts uuid memory session validation analysis w
              Han Hfresh) as (memory' & w' & Hrun & _ & Hlearn & Hnot & Hoff).
  exists memory', w'. split; [exact Hrun|]. split; [|by split].
  intros Hon Hq. destruct (Hlearn Hon Hq) as (Hstore & Hcount).
  split; [exact Hstore|]. split; [exact Hcount|].
  eexists. split; [reflexivity|].
  rewrite length_map, length_take. lia.
Qed.

Lemma integrateLearnedPatterns_store_witness :
  exists memory' w',
    Learning.integrateLearnedPatterns sample_uuid empty_memory analysed_session
      sample_validation quiet_world
    = Returned memory' w'
    /\ (mem_learningEnabled empty_memory = true ->
        exceeds (val_overallQuality sample_validation) 0.8 ->
        mem_patterns memory'
        = mem_patterns empty_memory
          ++ [ (sample_uuid 0%nat,
                successful_approach sample_analysis
                  (LearningOptimizationNetwork.first_approach sample_validation)) ]
        /\ mem_neuralPatterns memory' = S (mem_neuralPatterns empty_memory)
        /\ (exists terms,
              sig_keyTerms (pattern_signature
                              (successful_approach sample_analysis
                                 (LearningOptimizationNetwork.first_approach
                                    sample_validation)))
              = Val terms /\ (length terms <= 5)%nat))
    /\ (mem_learningEnabled empty_memory = false
        \/ ~ exceeds (val_overallQuality sample_validation) 0.8 ->
        mem_patterns memory' = mem_patterns empty_memory
        /\ mem_neuralPatterns memory' = mem_neuralPatterns empty_memory)
    /\ (mem_learningEnabled empty_memory = false -> memory' = empty_memory /\ w' = quiet_world).
Proof.
  apply (integrateLearnedPatterns_store sample_uuid empty_memory analysed_session
           sample_validation sample_analysis quiet_world).
  - reflexivity.
  - apply not_elem_of_nil.
Defined.

(** X28: a session whose solutions the engine generated itself always
    teaches: with learning on, whatever the random source returns, the
    store gains exactly one pattern, with success rate 1 and the
    approach of the first generated solution, AI-Generated Approach 1,
    and the pattern counter goes up by one. *)
Theorem generated_session_is_learned
    (pr : Printer) (uuid ids : nat -> string) (context : GenerationContext)
    (memory : Memory) (session : ESession) (analysis : Analysis)
    (solutions : list Solution) (validation : Validation)
    (w1 w1' w2 w2' w3 : World) :
  draws_in_unit_interval w2 ->
  es_analysis session = Val analysis ->
  mem_learningEnabled memory = true ->
  ids 0%nat ∉ map fst (mem_patterns memory) ->
  SolutionGenerationNetwork.generate pr uuid context w1 = Returned solutions w1' ->
  QualityStage.performQualityAssessment pr session solutions w2 = Returned validation w2' ->
  exists memory' w3',
    Learning.integrateLearnedPatterns ids memory session validation w3
    = Returned memory' w3'
    /\ mem_patterns memory'
       = mem_patterns memory
         ++ [ (ids 0%nat,
               successful_approach analysis
                 (Val ("AI-Generated Approach " +:+ show_nat pr 1))) ]
    /\ mem_neuralPatterns memory' = S (mem_neuralPatterns memory).
Proof.
  intros Hd Han Hon Hfresh Hgen Hqa.
  unfold SolutionGenerationNetwork.generate in Hgen. cbv zeta in Hgen.
  set (count := Nat.min 3 _) in Hgen.
  assert (Hcount : (1 <= count)%nat) by (subst count; lia).
  destruct (generate_from_shape pr uuid context count 0 w1) as (sols & w1'' & Hrun & Hall).
  destruct (generate_from_returns pr uuid context count 0 w1)
    as (sols' & w1''' & Hrun' & _ & Hlen & _ & Hcomplete).
  rewrite Hrun in Hrun'. injection Hrun' as <- _.
  rewrite Hrun in Hgen. injection Hgen as <- _.
  destruct (performQualityAssessment_facts pr session sols w2 Hd)
    as (validation' & w2'' & Hrun2 & Hsols & Hq & Hfacts & _).
  rewrite Hrun2 in Hqa. injection Hqa as <- _.
  assert (Hquality : exceeds (val_overallQuality validation') 0.8).
  { assert (Hhigh : within 0.85 1 (val_overallQuality validation')).
    { rewrite Hq. apply calculateOverallQuality_range.
      - intros E. apply (f_equal (@length _)) in E.
        rewrite length_map in E. rewrite <- Hsols, length_map in Hlen.
        simpl in E. lia.
      - apply Forall_map_fst.
        assert (Hc : Forall (fun s => has_all_artifacts (asol_solution s))
                            (val_solutions validation')).
        { apply Forall_of_map. rewrite Hsols.
          eapply Forall_impl; [exact Hcomplete|]. by intros s (H & _). }
        clear -Hfacts Hc.
        induction Hfacts as [|s l (_ & Hs) Hl IH]; [constructor|].
        inversion Hc as [|? ? Hcs Hcl]; subst.
        constructor; [by apply Hs|by apply IH]. }
    destruct (val_overallQuality validation'); simpl in *; [lra|contradiction]. }
  assert (Hfirst : LearningOptimizationNetwork.first_approach validation'
                   = Val ("AI-Generated Approach " +:+ show_nat pr 1)).
  { unfold LearningOptimizationNetwork.first_approach.
    destruct (generate_from_approaches pr uuid context count 0 w1)
      as (sols2 & w1b & Hrun2b & Happroaches).
    rewrite Hrun in Hrun2b. injection Hrun2b as <- _.
    destruct count as [|count']; [lia|].
    destruct sols as [|s0 sols0]; [discriminate Happroaches|].
    destruct (val_solutions validation') as [|a0 rest]; [discriminate Hsols|].
    simpl in Hsols. injection Hsols as Hs0 _. rewrite Hs0.
    simpl in Happroaches. injection Happroaches as -> _. reflexivity. }
  destruct (integrateLearnedPatterns_facts ids memory session validation' analysis w3
              Han Hfresh) as (memory' & w3' & Hrun3 & _ & Hlearn & _).
  destruct (Hlearn Hon Hquality) as (Hstore & Hcounter).
  exists memory', w3'. split; [exact Hrun3|].
  rewrite Hfirst in Hstore.
  split; [exact Hstore|exact Hcounter].
Qed.

Lemma generated_session_is_learned_witness :
  exists (validation : Validation) (memory' : Memory) (w3' : World),
    Learning.integrateLearnedPatterns sample_uuid empty_memory analysed_session validation
      quiet_world
    = Returned memory' w3'
    /\ mem_patterns memory'
       = mem_patterns empty_memory
         ++ [ (sample_uuid 0%nat,
               successful_approach sample_analysis
                 (Val ("AI-Generated Approach " +:+ show_nat decimal_printer 1))) ]
    /\ mem_neuralPatterns memory' = S (mem_neuralPatterns empty_memory).
Proof.
  eexists.
  eapply (generated_session_is_learned decimal_printer sample_uuid sample_uuid
            sample_context empty_memory analysed_session sample_analysis
            _ _ quiet_world _ quiet_world _ quiet_world).
  - intros k. simpl. split; apply Qle_bool_iff; reflexivity.
  - reflexivity.
  - reflexivity.
  - apply not_elem_of_nil.
  - vm_compute. reflexivity.
  - vm_compute. reflexivity.
Defined.
